(** * Tone-Mapping: the offscreen render pass of Clib/HDR.cpp and the shader
      builder of Clib/shaderClass.cpp

    The host code is a straight-line driver of GLFW and OpenGL around four
    file-level globals.  It is embedded as a state monad over a [World]
    that holds
    - the globals of HDR.cpp ([gWindow], [gGLReady], [quadVAO], [quadVBO]),
    - the part of the GLFW / OpenGL driver state the host code can observe
      (live windows, the current context, live object names, shader
      sources, compile and link results),
    - what the process printed, and the chronological list of driver calls.

    Everything the driver decides on its own (does [glfwInit] succeed, is
    the framebuffer complete, does a source compile, which pixels come
    back) is read from an [Env]; every exported function takes the [Env]
    that holds the driver's answers during that one call. *)

From Stdlib Require Import ZArith List String Ascii Bool QArith Lia Lqa.
Import ListNotations.

Open Scope Z_scope.

(** ** Values *)

(** [GLuint] names and [GLFWwindow*] pointers; [0] is the null handle. *)
Definition handle := Z.

(** The finite value of an IEEE binary32.  The host code only builds the
    values -1, 0, 1 and 2.2f and otherwise forwards floats untouched. *)
Definition float := Q.

Definition float_of_int (z : Z) : float := inject_Z z.

(** [sizeof(float)] on the target platform. *)
Definition sizeof_float : Z := 4.

Definition byte := Byte.byte.

(** The symbolic constants of glad.h that the two source files mention. *)
Inductive GLenum :=
| GL_TEXTURE_2D | GL_RGB16F | GL_RGB | GL_FLOAT
| GL_TEXTURE_MIN_FILTER | GL_TEXTURE_MAG_FILTER | GL_LINEAR
| GL_FRAMEBUFFER | GL_RGBA8 | GL_BGRA | GL_UNSIGNED_BYTE
| GL_COLOR_ATTACHMENT0 | GL_ARRAY_BUFFER | GL_STATIC_DRAW
| GL_TRIANGLES | GL_TEXTURE0
| GL_VERTEX_SHADER | GL_FRAGMENT_SHADER
| GL_COMPILE_STATUS | GL_LINK_STATUS.

(** What [glCheckFramebufferStatus] can answer: complete, or one of the
    incomplete / unsupported codes (kept as the raw number). *)
Inductive FramebufferStatus :=
| GL_FRAMEBUFFER_COMPLETE
| FramebufferIncomplete (code : Z).

(** The symbolic constants of glfw3.h used by [InitGLFW]; a hint value is
    either one of them or a plain integer. *)
Inductive GLFWenum :=
| GLFW_VISIBLE | GLFW_FALSE
| GLFW_CONTEXT_VERSION_MAJOR | GLFW_CONTEXT_VERSION_MINOR
| GLFW_OPENGL_PROFILE | GLFW_OPENGL_CORE_PROFILE
| GLFW_int (n : Z).

(** Kinds of OpenGL object names; each kind has its own name space. *)
Inductive ObjKind :=
| KVertexArray | KBuffer | KTexture | KFramebuffer
| KShader (type : GLenum) | KProgram.

(** A live object: the context (window) it was created under, its kind
    and its name. *)
Definition GLObj := (handle * ObjKind * handle)%type.

Inductive Channel := std_cout | std_cerr.

(** ** Driver calls, as they appear in the trace *)

Inductive Call :=
| E_glfwInit
| E_glfwWindowHint (hint value : GLFWenum)
| E_glfwCreateWindow (width height : Z) (title : string) (result : handle)
| E_glfwMakeContextCurrent (window : handle)
| E_gladLoadGLLoader
| E_glfwDestroyWindow (window : handle)
| E_glfwTerminate
| E_glGenVertexArrays (name : handle)
| E_glGenBuffers (name : handle)
| E_glGenTextures (name : handle)
| E_glGenFramebuffers (name : handle)
| E_glBindVertexArray (array : handle)
| E_glBindBuffer (target : GLenum) (buffer : handle)
| E_glBufferData (target : GLenum) (size : Z) (data : list float) (usage : GLenum)
| E_glEnableVertexAttribArray (index : Z)
| E_glVertexAttribPointer (index size : Z) (type : GLenum) (normalized : bool)
                          (stride offset : Z)
| E_glBindTexture (target : GLenum) (texture : handle)
| E_glTexImage2D (target : GLenum) (level : Z) (internalformat : GLenum)
                 (width height border : Z) (format type : GLenum)
                 (pixels : option (list float))
| E_glTexParameteri (target pname param : GLenum)
| E_glBindFramebuffer (target : GLenum) (framebuffer : handle)
| E_glFramebufferTexture2D (target attachment textarget : GLenum)
                           (texture : handle) (level : Z)
| E_glCheckFramebufferStatus (target : GLenum)
| E_glViewport (x y width height : Z)
| E_glCreateShader (type : GLenum) (name : handle)
| E_glShaderSource (shader : handle) (source : string)
| E_glCompileShader (shader : handle)
| E_glGetShaderiv (shader : handle) (pname : GLenum)
| E_glGetShaderInfoLog (shader : handle) (bufSize : Z)
| E_glCreateProgram (name : handle)
| E_glAttachShader (program shader : handle)
| E_glLinkProgram (program : handle)
| E_glGetProgramiv (program : handle) (pname : GLenum)
| E_glGetProgramInfoLog (program : handle) (bufSize : Z)
| E_glDeleteShader (shader : handle)
| E_glUseProgram (program : handle)
| E_glDeleteProgram (program : handle)
| E_glGetUniformLocation (program : handle) (name : string)
| E_glUniform1i (location v0 : Z)
| E_glUniform1f (location : Z) (v0 : float)
| E_glActiveTexture (texture : GLenum)
| E_glDrawArrays (mode : GLenum) (first count : Z)
| E_glReadPixels (x y width height : Z) (format type : GLenum)
| E_glDeleteTextures (texture : handle)
| E_glDeleteFramebuffers (framebuffer : handle)
| E_ifstream_open (filename : string)
| E_current_path.

(** ** The environment: what the driver answers during one call *)

Record Env := mkEnv {
  (** result of [glfwInit] when the library is not yet initialised *)
  glfwInit_result : bool;
  (** does [glfwCreateWindow] manage to create the hidden window *)
  glfwCreateWindow_ok : bool;
  (** result of [gladLoadGLLoader] *)
  gladLoadGLLoader_result : bool;
  (** answer of [glCheckFramebufferStatus] *)
  framebuffer_status : FramebufferStatus;
  (** the file system: [None] when the path cannot be opened *)
  file_contents : string -> option string;
  (** [current_path().parent_path().parent_path().parent_path()
       .parent_path().string()] *)
  cwd_ancestor4 : string;
  (** the GLSL compiler: status and full info log for a stage and source *)
  glsl_compile : GLenum -> string -> bool * string;
  (** the GLSL linker, given stage, source and compile status of each
      attached shader: status and full info log *)
  glsl_link : list (GLenum * string * bool) -> bool * string;
  (** [glGetUniformLocation] for the program and uniform name *)
  uniform_location : handle -> string -> Z;
  (** byte [i] of what [glReadPixels] delivers *)
  rendered : nat -> byte
}.

(** ** The world *)

Record World := mkWorld {
  (* file-level globals of HDR.cpp *)
  gWindow : handle;
  gGLReady : bool;
  quadVAO : handle;
  quadVBO : handle;
  (* GLFW *)
  glfw_up : bool;
  windows : list handle;
  next_window : positive;
  (* OpenGL *)
  current : handle;
  next_name : positive;
  live : list GLObj;
  sources : list (handle * string);
  statuses : list (handle * (bool * string));
  attached : list (handle * handle);
  (* the process *)
  console : list (Channel * string);
  trace : list Call
}.

(** State of a freshly loaded library: the initialisers of the four
    globals, no window, no object, nothing printed. *)
Definition initial_world : World :=
  mkWorld 0 false 0 0 false [] 1%positive 0 1%positive [] [] [] [] [] [].

Definition set_gWindow (v : handle) (w : World) : World :=
  mkWorld v (gGLReady w) (quadVAO w) (quadVBO w) (glfw_up w) (windows w)
    (next_window w) (current w) (next_name w) (live w) (sources w)
    (statuses w) (attached w) (console w) (trace w).

Definition set_gGLReady (v : bool) (w : World) : World :=
  mkWorld (gWindow w) v (quadVAO w) (quadVBO w) (glfw_up w) (windows w)
    (next_window w) (current w) (next_name w) (live w) (sources w)
    (statuses w) (attached w) (console w) (trace w).

Definition set_quadVAO (v : handle) (w : World) : World :=
  mkWorld (gWindow w) (gGLReady w) v (quadVBO w) (glfw_up w) (windows w)
    (next_window w) (current w) (next_name w) (live w) (sources w)
    (statuses w) (attached w) (console w) (trace w).

Definition set_quadVBO (v : handle) (w : World) : World :=
  mkWorld (gWindow w) (gGLReady w) (quadVAO w) v (glfw_up w) (windows w)
    (next_window w) (current w) (next_name w) (live w) (sources w)
    (statuses w) (attached w) (console w) (trace w).

Definition set_glfw_up (v : bool) (w : World) : World :=
  mkWorld (gWindow w) (gGLReady w) (quadVAO w) (quadVBO w) v (windows w)
    (next_window w) (current w) (next_name w) (live w) (sources w)
    (statuses w) (attached w) (console w) (trace w).

Definition set_windows (v : list handle) (w : World) : World :=
  mkWorld (gWindow w) (gGLReady w) (quadVAO w) (quadVBO w) (glfw_up w) v
    (next_window w) (current w) (next_name w) (live w) (sources w)
    (statuses w) (attached w) (console w) (trace w).

Definition set_next_window (v : positive) (w : World) : World :=
  mkWorld (gWindow w) (gGLReady w) (quadVAO w) (quadVBO w) (glfw_up w)
    (windows w) v (current w) (next_name w) (live w) (sources w)
    (statuses w) (attached w) (console w) (trace w).

Definition set_current (v : handle) (w : World) : World :=
  mkWorld (gWindow w) (gGLReady w) (quadVAO w) (quadVBO w) (glfw_up w)
    (windows w) (next_window w) v (next_name w) (live w) (sources w)
    (statuses w) (attached w) (console w) (trace w).

Definition set_next_name (v : positive) (w : World) : World :=
  mkWorld (gWindow w) (gGLReady w) (quadVAO w) (quadVBO w) (glfw_up w)
    (windows w) (next_window w) (current w) v (live w) (sources w)
    (statuses w) (attached w) (console w) (trace w).

Definition set_live (v : list GLObj) (w : World) : World :=
  mkWorld (gWindow w) (gGLReady w) (quadVAO w) (quadVBO w) (glfw_up w)
    (windows w) (next_window w) (current w) (next_name w) v (sources w)
    (statuses w) (attached w) (console w) (trace w).

Definition set_sources (v : list (handle * string)) (w : World) : World :=
  mkWorld (gWindow w) (gGLReady w) (quadVAO w) (quadVBO w) (glfw_up w)
    (windows w) (next_window w) (current w) (next_name w) (live w) v
    (statuses w) (attached w) (console w) (trace w).

Definition set_statuses (v : list (handle * (bool * string))) (w : World)
  : World :=
  mkWorld (gWindow w) (gGLReady w) (quadVAO w) (quadVBO w) (glfw_up w)
    (windows w) (next_window w) (current w) (next_name w) (live w)
    (sources w) v (attached w) (console w) (trace w).

Definition set_attached (v : list (handle * handle)) (w : World) : World :=
  mkWorld (gWindow w) (gGLReady w) (quadVAO w) (quadVBO w) (glfw_up w)
    (windows w) (next_window w) (current w) (next_name w) (live w)
    (sources w) (statuses w) v (console w) (trace w).

Definition set_console (v : list (Channel * string)) (w : World) : World :=
  mkWorld (gWindow w) (gGLReady w) (quadVAO w) (quadVBO w) (glfw_up w)
    (windows w) (next_window w) (current w) (next_name w) (live w)
    (sources w) (statuses w) (attached w) v (trace w).

Definition set_trace (v : list Call) (w : World) : World :=
  mkWorld (gWindow w) (gGLReady w) (quadVAO w) (quadVBO w) (glfw_up w)
    (windows w) (next_window w) (current w) (next_name w) (live w)
    (sources w) (statuses w) (attached w) (console w) v.

(** ** The monad *)

Definition M (A : Type) : Type := World -> A * World.

Definition ret {A : Type} (a : A) : M A := fun w => (a, w).

Definition bind {A B : Type} (m : M A) (k : A -> M B) : M B :=
  fun w => let (a, w') := m w in k a w'.

Declare Scope hdr_scope.
Delimit Scope hdr_scope with hdr.
Notation "x <- m ;; k" := (bind m (fun x => k))
  (at level 61, m at next level, k at level 200) : hdr_scope.
Notation "m ;; k" := (bind m (fun _ => k))
  (at level 61, k at level 200) : hdr_scope.
Open Scope hdr_scope.

Definition read {A : Type} (f : World -> A) : M A := fun w => (f w, w).
Definition modify (f : World -> World) : M unit := fun w => (tt, f w).

(** Result value and final world of a run. *)
Definition result {A : Type} (m : M A) (w : World) : A := fst (m w).
Definition after {A : Type} (m : M A) (w : World) : World := snd (m w).

(** Every driver call is appended to the trace. *)
Definition call (c : Call) : M unit :=
  modify (fun w => set_trace (trace w ++ [c]) w).

(** One [std::cout << ... << std::endl] statement. *)
Definition cout (text : string) : M unit :=
  modify (fun w => set_console (console w ++ [(std_cout, text)]) w).

(** ** Equality tests on object names *)

Definition GLenum_eq_dec (a b : GLenum) : {a = b} + {a <> b}.
Proof. decide equality. Defined.

Definition kind_eqb (a b : ObjKind) : bool :=
  match a, b with
  | KVertexArray, KVertexArray => true
  | KBuffer, KBuffer => true
  | KTexture, KTexture => true
  | KFramebuffer, KFramebuffer => true
  | KShader s, KShader t => if GLenum_eq_dec s t then true else false
  | KProgram, KProgram => true
  | _, _ => false
  end.

Definition is_shader (k : ObjKind) : bool :=
  match k with KShader _ => true | _ => false end.

Definition is_framebuffer_complete (s : FramebufferStatus) : bool :=
  match s with
  | GL_FRAMEBUFFER_COMPLETE => true
  | FramebufferIncomplete _ => false
  end.

(** ** GLFW *)

(** [glfwInit]: returns at once with success when the library is already
    up, otherwise the environment decides. *)
Definition glfwInit (e : Env) : M bool :=
  call E_glfwInit ;;
  up <- read glfw_up ;;
  if up then ret true
  else if glfwInit_result e
       then modify (set_glfw_up true) ;; ret true
       else ret false.

Definition glfwWindowHint (hint value : GLFWenum) : M unit :=
  call (E_glfwWindowHint hint value).

(** [glfwCreateWindow]: a window never handed out before, or the null
    pointer when the library is down or creation fails. *)
Definition glfwCreateWindow (e : Env) (width height : Z) (title : string)
  : M handle :=
  up <- read glfw_up ;;
  if up && glfwCreateWindow_ok e then
    n <- read next_window ;;
    modify (fun w => set_next_window (Pos.succ n)
                       (set_windows (Zpos n :: windows w) w)) ;;
    call (E_glfwCreateWindow width height title (Zpos n)) ;;
    ret (Zpos n)
  else
    call (E_glfwCreateWindow width height title 0) ;;
    ret 0.

Definition glfwMakeContextCurrent (window : handle) : M unit :=
  call (E_glfwMakeContextCurrent window) ;;
  modify (set_current window).

Definition gladLoadGLLoader (e : Env) : M bool :=
  call E_gladLoadGLLoader ;;
  ret (gladLoadGLLoader_result e).

(** [glfwDestroyWindow]: the window and every object of its context go;
    the context is detached if it was current. *)
Definition glfwDestroyWindow (window : handle) : M unit :=
  call (E_glfwDestroyWindow window) ;;
  modify (fun w =>
    set_current (if current w =? window then 0 else current w)
      (set_live (filter (fun o => negb (fst (fst o) =? window)) (live w))
        (set_windows (filter (fun h => negb (h =? window)) (windows w)) w))).

(** [glfwTerminate]: destroys all remaining windows and shuts the library
    down. *)
Definition glfwTerminate : M unit :=
  call E_glfwTerminate ;;
  modify (fun w =>
    set_glfw_up false (set_current 0 (set_live [] (set_windows [] w)))).

(** ** OpenGL object names *)

(** A name that is not zero and was never handed out before, registered
    as live under the current context.  [live] is the application's side
    of the ledger: the names it generated, has not yet passed to a
    [glDelete*] and has not lost with their context.  OpenGL itself may
    keep the object behind a name for longer: a program deleted while it
    is in use, or a shader deleted while it is attached, is only flagged
    and goes away later.  [live] does not follow that; it says which names
    the application still owes a delete call. *)
Definition gl_gen (k : ObjKind) : M handle :=
  n <- read next_name ;;
  modify (fun w => set_next_name (Pos.succ n)
                     (set_live ((current w, k, Zpos n) :: live w) w)) ;;
  ret (Zpos n).

(** Is [o] the object of a kind accepted by [is_kind] that is called [n]
    in context [c]? *)
Definition names_obj (c : handle) (is_kind : ObjKind -> bool) (n : handle)
  (o : GLObj) : bool :=
  let '(c', k', n') := o in (c' =? c) && is_kind k' && (n' =? n).

(** The name [n] is passed to a [glDelete*]: the application has given it
    up, whatever the driver does with the object from then on. *)
Definition gl_delete (is_kind : ObjKind -> bool) (n : handle) : M unit :=
  modify (fun w =>
    set_live (filter (fun o => negb (names_obj (current w) is_kind n o))
                (live w)) w).

Definition glGenVertexArrays : M handle :=
  n <- gl_gen KVertexArray ;; call (E_glGenVertexArrays n) ;; ret n.

Definition glGenBuffers : M handle :=
  n <- gl_gen KBuffer ;; call (E_glGenBuffers n) ;; ret n.

Definition glGenTextures : M handle :=
  n <- gl_gen KTexture ;; call (E_glGenTextures n) ;; ret n.

Definition glGenFramebuffers : M handle :=
  n <- gl_gen KFramebuffer ;; call (E_glGenFramebuffers n) ;; ret n.

Definition glDeleteTextures (texture : handle) : M unit :=
  call (E_glDeleteTextures texture) ;; gl_delete (kind_eqb KTexture) texture.

Definition glDeleteFramebuffers (framebuffer : handle) : M unit :=
  call (E_glDeleteFramebuffers framebuffer) ;;
  gl_delete (kind_eqb KFramebuffer) framebuffer.

Definition glBindVertexArray (array : handle) : M unit :=
  call (E_glBindVertexArray array).

Definition glBindBuffer (target : GLenum) (buffer : handle) : M unit :=
  call (E_glBindBuffer target buffer).

Definition glBufferData (target : GLenum) (size : Z) (data : list float)
  (usage : GLenum) : M unit :=
  call (E_glBufferData target size data usage).

Definition glEnableVertexAttribArray (index : Z) : M unit :=
  call (E_glEnableVertexAttribArray index).

Definition glVertexAttribPointer (index size : Z) (type : GLenum)
  (normalized : bool) (stride offset : Z) : M unit :=
  call (E_glVertexAttribPointer index size type normalized stride offset).

(** ** HDR.cpp: InitFullscreenQuad *)

Definition quadVertices : list float :=
  map float_of_int
    [ (* position *) (* uv *)
      -1;  1;          0; 1;
      -1; -1;          0; 0;
       1; -1;          1; 0;
      -1;  1;          0; 1;
       1; -1;          1; 0;
       1;  1;          1; 1 ].

(** [sizeof(quadVertices)] *)
Definition sizeof_quadVertices : Z :=
  Z.of_nat (List.length quadVertices) * sizeof_float.

Definition GL_FALSE : bool := false.

Definition InitFullscreenQuad : M unit :=
  vao <- read quadVAO ;;
  if negb (vao =? 0) then ret tt else
  vao <- glGenVertexArrays ;; modify (set_quadVAO vao) ;;
  vbo <- glGenBuffers ;; modify (set_quadVBO vbo) ;;
  vao <- read quadVAO ;; glBindVertexArray vao ;;
  vbo <- read quadVBO ;; glBindBuffer GL_ARRAY_BUFFER vbo ;;
  glBufferData GL_ARRAY_BUFFER sizeof_quadVertices quadVertices
               GL_STATIC_DRAW ;;
  glEnableVertexAttribArray 0 ;;
  glVertexAttribPointer 0 2 GL_FLOAT GL_FALSE (4 * sizeof_float) 0 ;;
  glEnableVertexAttribArray 1 ;;
  glVertexAttribPointer 1 2 GL_FLOAT GL_FALSE (4 * sizeof_float)
                        (2 * sizeof_float) ;;
  glBindVertexArray 0.

(** ** HDR.cpp: InitGLFW and CleanupGLFW *)

Definition InitGLFW (e : Env) : M bool :=
  ready <- read gGLReady ;;
  if ready then ret true else
  ok <- glfwInit e ;;
  if negb ok then ret false else
  glfwWindowHint GLFW_VISIBLE GLFW_FALSE ;;
  glfwWindowHint GLFW_CONTEXT_VERSION_MAJOR (GLFW_int 3) ;;
  glfwWindowHint GLFW_CONTEXT_VERSION_MINOR (GLFW_int 3) ;;
  glfwWindowHint GLFW_OPENGL_PROFILE GLFW_OPENGL_CORE_PROFILE ;;
  win <- glfwCreateWindow e 1 1 "" ;; modify (set_gWindow win) ;;
  win <- read gWindow ;;
  if win =? 0 then ret false else
  win <- read gWindow ;; glfwMakeContextCurrent win ;;
  ok <- gladLoadGLLoader e ;;
  if negb ok then ret false else
  modify (set_gGLReady true) ;;
  ret true.

Definition CleanupGLFW : M unit :=
  ready <- read gGLReady ;;
  if ready then
    win <- read gWindow ;; glfwDestroyWindow win ;;
    glfwTerminate ;;
    modify (set_gGLReady false)
  else ret tt.

(** ** OpenGL: textures, framebuffers, drawing *)

Definition glBindTexture (target : GLenum) (texture : handle) : M unit :=
  call (E_glBindTexture target texture).

Definition glTexImage2D (target : GLenum) (level : Z)
  (internalformat : GLenum) (width height border : Z) (format type : GLenum)
  (pixels : option (list float)) : M unit :=
  call (E_glTexImage2D target level internalformat width height border
          format type pixels).

Definition glTexParameteri (target pname param : GLenum) : M unit :=
  call (E_glTexParameteri target pname param).

Definition glBindFramebuffer (target : GLenum) (framebuffer : handle)
  : M unit :=
  call (E_glBindFramebuffer target framebuffer).

Definition glFramebufferTexture2D (target attachment textarget : GLenum)
  (texture : handle) (level : Z) : M unit :=
  call (E_glFramebufferTexture2D target attachment textarget texture level).

Definition glCheckFramebufferStatus (e : Env) (target : GLenum)
  : M FramebufferStatus :=
  call (E_glCheckFramebufferStatus target) ;;
  ret (framebuffer_status e).

Definition glViewport (x y width height : Z) : M unit :=
  call (E_glViewport x y width height).

Definition glGetUniformLocation (e : Env) (program : handle) (name : string)
  : M Z :=
  call (E_glGetUniformLocation program name) ;;
  ret (uniform_location e program name).

Definition glUniform1i (location v0 : Z) : M unit :=
  call (E_glUniform1i location v0).

Definition glUniform1f (location : Z) (v0 : float) : M unit :=
  call (E_glUniform1f location v0).

Definition glActiveTexture (texture : GLenum) : M unit :=
  call (E_glActiveTexture texture).

Definition glDrawArrays (mode : GLenum) (first count : Z) : M unit :=
  call (E_glDrawArrays mode first count).

(** Memory from a pointer on is the list of the bytes found there: the
    caller's buffer and, behind it, whatever has been written past its
    end.  [store_bytes src i n buf] writes [n] bytes, bytes [i], [i+1], ...
    of [src], from the start of [buf] with no regard to its length: the
    bytes that fall behind the end of the buffer are the overrun. *)
Fixpoint store_bytes (src : nat -> byte) (i n : nat) (buf : list byte)
  : list byte :=
  match n with
  | O => buf
  | S n' => src i :: store_bytes src (S i) n' (tl buf)
  end.

(** [glReadPixels] with a 4-byte-per-pixel format: [width * height * 4]
    bytes go to [data], which the driver cannot check against the size of
    the caller's buffer; a negative size is an error and writes
    nothing. *)
Definition glReadPixels (e : Env) (x y width height : Z)
  (format type : GLenum) (data : list byte) : M (list byte) :=
  call (E_glReadPixels x y width height format type) ;;
  if (width <? 0) || (height <? 0) then ret data
  else ret (store_bytes (rendered e) 0 (Z.to_nat (width * height * 4)) data).

(** ** OpenGL: shaders and programs *)

Fixpoint lookup {A : Type} (n : handle) (l : list (handle * A)) : option A :=
  match l with
  | [] => None
  | (k, a) :: rest => if k =? n then Some a else lookup n rest
  end.

(** Type of the live shader called [n] in context [c]. *)
Fixpoint shader_type (c n : handle) (l : list GLObj) : option GLenum :=
  match l with
  | [] => None
  | (c', KShader t, n') :: rest =>
      if (c' =? c) && (n' =? n) then Some t else shader_type c n rest
  | _ :: rest => shader_type c n rest
  end.

Definition glCreateShader (type : GLenum) : M handle :=
  n <- gl_gen (KShader type) ;; call (E_glCreateShader type n) ;; ret n.

Definition glShaderSource (shader : handle) (source : string) : M unit :=
  call (E_glShaderSource shader source) ;;
  modify (fun w => set_sources ((shader, source) :: sources w) w).

Definition source_of (w : World) (shader : handle) : string :=
  match lookup shader (sources w) with Some s => s | None => EmptyString end.

Definition compiled (w : World) (shader : handle) : bool :=
  match lookup shader (statuses w) with Some r => fst r | None => false end.

Definition info_log (w : World) (object : handle) : string :=
  match lookup object (statuses w) with
  | Some r => snd r
  | None => EmptyString
  end.

(** [glCompileShader]: the compiler's verdict on the shader's current
    source becomes its compile status and info log. *)
Definition glCompileShader (e : Env) (shader : handle) : M unit :=
  call (E_glCompileShader shader) ;;
  modify (fun w =>
    match shader_type (current w) shader (live w) with
    | Some t =>
        set_statuses
          ((shader, glsl_compile e t (source_of w shader)) :: statuses w) w
    | None => w
    end).

Definition glGetShaderiv (shader : handle) (pname : GLenum) : M bool :=
  call (E_glGetShaderiv shader pname) ;;
  read (fun w => compiled w shader).

(** At most [bufSize - 1] characters of the log, then the terminator. *)
Definition glGetShaderInfoLog (shader : handle) (bufSize : Z) : M string :=
  call (E_glGetShaderInfoLog shader bufSize) ;;
  read (fun w => substring 0 (Z.to_nat (bufSize - 1)) (info_log w shader)).

(** A new program object starts with no shader attached. *)
Definition glCreateProgram : M handle :=
  n <- gl_gen KProgram ;; call (E_glCreateProgram n) ;;
  modify (fun w =>
    set_attached (filter (fun ps => negb (fst ps =? n)) (attached w)) w) ;;
  ret n.

Definition glAttachShader (program shader : handle) : M unit :=
  call (E_glAttachShader program shader) ;;
  modify (fun w => set_attached (attached w ++ [(program, shader)]) w).

(** Stage, source and compile status of every shader attached to
    [program], in attachment order. *)
Definition link_inputs (w : World) (program : handle)
  : list (GLenum * string * bool) :=
  flat_map
    (fun ps : handle * handle =>
       if fst ps =? program then
         match shader_type (current w) (snd ps) (live w) with
         | Some t => [(t, source_of w (snd ps), compiled w (snd ps))]
         | None => []
         end
       else [])
    (attached w).

Definition glLinkProgram (e : Env) (program : handle) : M unit :=
  call (E_glLinkProgram program) ;;
  modify (fun w =>
    set_statuses ((program, glsl_link e (link_inputs w program)) :: statuses w)
      w).

Definition glGetProgramiv (program : handle) (pname : GLenum) : M bool :=
  call (E_glGetProgramiv program pname) ;;
  read (fun w => compiled w program).

Definition glGetProgramInfoLog (program : handle) (bufSize : Z) : M string :=
  call (E_glGetProgramInfoLog program bufSize) ;;
  read (fun w => substring 0 (Z.to_nat (bufSize - 1)) (info_log w program)).

Definition glDeleteShader (shader : handle) : M unit :=
  call (E_glDeleteShader shader) ;; gl_delete is_shader shader.

Definition glUseProgram (program : handle) : M unit :=
  call (E_glUseProgram program).

Definition glDeleteProgram (program : handle) : M unit :=
  call (E_glDeleteProgram program) ;; gl_delete (kind_eqb KProgram) program.

(** ** shaderClass.cpp *)

Open Scope string_scope.

(** What [std::endl] and the escape [\n] put on the stream. *)
Definition endl : string := String (ascii_of_nat 10) EmptyString.

Definition get_file_contents (e : Env) (filename : string) : M string :=
  call (E_ifstream_open filename) ;;
  match file_contents e filename with
  | None =>
      cout ("file not found: " ++ filename ++ endl) ;;
      ret ""
  | Some out => ret out
  end.

Module Shader.

(** The one data member of the class. *)
Record t := mk { ID : handle }.

(** [type != "PROGRAM"] compares the addresses of two identical string
    literals of this translation unit; they are taken to be merged, so
    the test is an equality of the texts. *)
Definition compileErrors (shader : handle) (type : string) : M unit :=
  if negb (type =? "PROGRAM") then
    hasCompiled <- glGetShaderiv shader GL_COMPILE_STATUS ;;
    if Bool.eqb hasCompiled GL_FALSE then
      infoLog <- glGetShaderInfoLog shader 1024 ;;
      cout ("SHADER_COMPILATION_ERROR for: " ++ type ++ endl
              ++ infoLog ++ endl)
    else ret tt
  else
    hasCompiled <- glGetProgramiv shader GL_LINK_STATUS ;;
    if Bool.eqb hasCompiled GL_FALSE then
      infoLog <- glGetProgramInfoLog shader 1024 ;;
      cout ("SHADER_LINKING_ERROR for: " ++ type ++ endl
              ++ infoLog ++ endl)
    else ret tt.

(** The constructor [Shader::Shader]. *)
Definition Shader (e : Env) (vertexFile fragmentFile : string) : M t :=
  vertexCode <- get_file_contents e vertexFile ;;
  fragmentCode <- get_file_contents e fragmentFile ;;
  let vertexSource := vertexCode in
  let fragmentSource := fragmentCode in
  vertexShader <- glCreateShader GL_VERTEX_SHADER ;;
  glShaderSource vertexShader vertexSource ;;
  glCompileShader e vertexShader ;;
  compileErrors vertexShader "VERTEX" ;;
  fragmentShader <- glCreateShader GL_FRAGMENT_SHADER ;;
  glShaderSource fragmentShader fragmentSource ;;
  glCompileShader e fragmentShader ;;
  compileErrors fragmentShader "FRAGMENT" ;;
  ID <- glCreateProgram ;;
  glAttachShader ID vertexShader ;;
  glAttachShader ID fragmentShader ;;
  glLinkProgram e ID ;;
  compileErrors ID "PROGRAM" ;;
  glDeleteShader vertexShader ;;
  glDeleteShader fragmentShader ;;
  ret (mk ID).

Definition Activate (this : t) : M unit := glUseProgram (ID this).

Definition Delete (this : t) : M unit := glDeleteProgram (ID this).

End Shader.

(** ** HDR.cpp: UploadToGL *)

(** The binary32 nearest to 2.2, the literal [2.2f]. *)
Definition gamma_2_2f : float := (9227469 # 4194304)%Q.

(** [std::filesystem::current_path()] and its four [parent_path()]. *)
Definition current_path_ancestor4 (e : Env) : M string :=
  call E_current_path ;; ret (cwd_ancestor4 e).

(** [outputBGRA] is the content of the caller's buffer on entry; the value
    returned is the memory from its first byte on when the call returns:
    the buffer and, where the read-back ran past its end, the bytes behind
    it. *)
Definition UploadToGL (e : Env) (linearRGB : list float) (width height : Z)
  (outputBGRA : list byte) (exposure whitePoint : float) : M (list byte) :=
  (* 1. Initialize GLFW and OpenGL *)
  ok <- InitGLFW e ;;
  if negb ok then ret outputBGRA else
  InitFullscreenQuad ;;
  win <- read gWindow ;; glfwMakeContextCurrent win ;;
  (* 2. Upload input HDR texture *)
  hdrTex <- glGenTextures ;;
  glBindTexture GL_TEXTURE_2D hdrTex ;;
  glTexImage2D GL_TEXTURE_2D 0 GL_RGB16F width height 0 GL_RGB GL_FLOAT
               (Some linearRGB) ;;
  glTexParameteri GL_TEXTURE_2D GL_TEXTURE_MIN_FILTER GL_LINEAR ;;
  glTexParameteri GL_TEXTURE_2D GL_TEXTURE_MAG_FILTER GL_LINEAR ;;
  (* 3. Create output texture and FBO *)
  fbo <- glGenFramebuffers ;;
  glBindFramebuffer GL_FRAMEBUFFER fbo ;;
  colorTex <- glGenTextures ;;
  glBindTexture GL_TEXTURE_2D colorTex ;;
  glTexImage2D GL_TEXTURE_2D 0 GL_RGBA8 width height 0 GL_BGRA
               GL_UNSIGNED_BYTE None ;;
  glTexParameteri GL_TEXTURE_2D GL_TEXTURE_MIN_FILTER GL_LINEAR ;;
  glTexParameteri GL_TEXTURE_2D GL_TEXTURE_MAG_FILTER GL_LINEAR ;;
  glBindTexture GL_TEXTURE_2D 0 ;;
  glFramebufferTexture2D GL_FRAMEBUFFER GL_COLOR_ATTACHMENT0 GL_TEXTURE_2D
                         colorTex 0 ;;
  status <- glCheckFramebufferStatus e GL_FRAMEBUFFER ;;
  if negb (is_framebuffer_complete status) then ret outputBGRA else
  glBindFramebuffer GL_FRAMEBUFFER fbo ;;
  glViewport 0 0 width height ;;
  (* 4. Render using shader *)
  p <- current_path_ancestor4 e ;;
  let path_vert := p ++ "\Clib\default.vert" in
  let path_frag := p ++ "\Clib\default.frag" in
  shaderProgram <- Shader.Shader e path_vert path_frag ;;
  Shader.Activate shaderProgram ;;
  loc <- glGetUniformLocation e (Shader.ID shaderProgram) "tex0" ;;
  glUniform1i loc 0 ;;
  loc <- glGetUniformLocation e (Shader.ID shaderProgram) "exposure" ;;
  glUniform1f loc exposure ;;
  loc <- glGetUniformLocation e (Shader.ID shaderProgram) "whitePoint" ;;
  glUniform1f loc whitePoint ;;
  loc <- glGetUniformLocation e (Shader.ID shaderProgram) "gamma" ;;
  glUniform1f loc gamma_2_2f ;;
  vao <- read quadVAO ;; glBindVertexArray vao ;;
  glActiveTexture GL_TEXTURE0 ;;
  glBindTexture GL_TEXTURE_2D hdrTex ;;
  glDrawArrays GL_TRIANGLES 0 6 ;;
  glBindVertexArray 0 ;;
  (* 5. Read back pixels *)
  out <- glReadPixels e 0 0 width height GL_BGRA GL_UNSIGNED_BYTE
                      outputBGRA ;;
  (* 6. Cleanup OpenGL resources *)
  glDeleteTextures hdrTex ;;
  glDeleteTextures colorTex ;;
  glDeleteFramebuffers fbo ;;
  Shader.Delete shaderProgram ;;
  ret out.

Close Scope string_scope.

(** ** Sequences of calls through the exported interface *)

Inductive Op :=
| Op_InitGLFW (e : Env)
| Op_UploadToGL (e : Env) (linearRGB : list float) (width height : Z)
                (outputBGRA : list byte) (exposure whitePoint : float)
| Op_CleanupGLFW.

Definition step (o : Op) (w : World) : World :=
  match o with
  | Op_InitGLFW e => after (InitGLFW e) w
  | Op_UploadToGL e rgb width height out exposure whitePoint =>
      after (UploadToGL e rgb width height out exposure whitePoint) w
  | Op_CleanupGLFW => after CleanupGLFW w
  end.

Fixpoint run (ops : list Op) (w : World) : World :=
  match ops with
  | [] => w
  | o :: rest => run rest (step o w)
  end.

(** The states a client of the library can bring about. *)
Definition reachable (w : World) : Prop :=
  exists ops, w = run ops initial_world.

(** The driver calls made between world [w] and the later world [w']. *)
Definition calls_since (w w' : World) : list Call :=
  skipn (List.length (trace w)) (trace w').

(** The driver calls made by running [m] from [w]. *)
Definition calls_during {A : Type} (m : M A) (w : World) : list Call :=
  calls_since w (after m w).

(** ** Environments used in the examples *)

Definition no_files : string -> option string := fun _ => None.

Definition accepts_all : GLenum -> string -> bool * string :=
  fun _ _ => (true, EmptyString).

Definition links_all : list (GLenum * string * bool) -> bool * string :=
  fun _ => (true, EmptyString).

(** Everything works; the shaders exist and every pixel byte reads 255. *)
Definition env_ok : Env :=
  mkEnv true true true GL_FRAMEBUFFER_COMPLETE
    (fun path => Some ("void main(){}" ++ path)%string) "C:\repo"%string
    accepts_all links_all (fun _ _ => 0) (fun _ => Byte.xff).

(** The hidden window is created but the entry points cannot be loaded. *)
Definition env_glad_fails : Env :=
  mkEnv true true false GL_FRAMEBUFFER_COMPLETE
    (fun path => Some ("void main(){}" ++ path)%string) "C:\repo"%string
    accepts_all links_all (fun _ _ => 0) (fun _ => Byte.xff).

(** The driver reports the framebuffer as unsupported (0x8CDD). *)
Definition env_fb_incomplete : Env :=
  mkEnv true true true (FramebufferIncomplete 36061)
    (fun path => Some ("void main(){}" ++ path)%string) "C:\repo"%string
    accepts_all links_all (fun _ _ => 0) (fun _ => Byte.xff).

(** No shader file can be opened; the compiler rejects the empty source
    and the linker rejects the program. *)
Definition env_no_files : Env :=
  mkEnv true true true GL_FRAMEBUFFER_COMPLETE
    no_files "C:\repo"%string
    (fun _ src => if (src =? "")%string
                  then (false, "0(1) : error: no main"%string)
                  else (true, EmptyString))
    (fun _ => (false, "link error: missing stage"%string))
    (fun _ _ => (-1)) (fun _ => Byte.xff).


(** A caller buffer for a 1x1 image followed by two guard bytes. *)
Definition buffer6 : list byte :=
  [Byte.x01; Byte.x02; Byte.x03; Byte.x04; Byte.x05; Byte.x06].

(** ** Vocabulary of the statements *)

(** Later worlds only add calls to the trace. *)
Definition extends (w w' : World) : Prop :=
  exists t, trace w' = trace w ++ t.

(** A relation between the world before and the world after holds for
    every run of [m]. *)
Definition preserves (R : World -> World -> Prop) {A : Type} (m : M A)
  : Prop :=
  forall w, R w (after m w).

(** The run from [w] to [w'] adds calls to the trace, all accepted by
    [P]. *)
Definition adds (P : Call -> bool) (w w' : World) : Prop :=
  exists t, trace w' = trace w ++ t /\ forallb P t = true.

(** The calls that produce or deliver pixels. *)
Definition is_output_call (c : Call) : bool :=
  match c with
  | E_glDrawArrays _ _ _ | E_glReadPixels _ _ _ _ _ _ => true
  | _ => false
  end.

Definition quiet (c : Call) : bool := negb (is_output_call c).

(** The calls by which [InitFullscreenQuad] builds the quad geometry. *)
Definition is_quad_setup_call (c : Call) : bool :=
  match c with
  | E_glGenVertexArrays _ | E_glGenBuffers _ | E_glBufferData _ _ _ _
  | E_glBindBuffer _ _ | E_glEnableVertexAttribArray _
  | E_glVertexAttribPointer _ _ _ _ _ _ => true
  | _ => false
  end.


Definition is_vertex_array (o : GLObj) : bool :=
  match o with
  | (_, KVertexArray, _) => true
  | _ => false
  end.

(** The full initialisation sequence of [InitGLFW], creating [window]. *)
Definition full_init_calls (window : handle) : list Call :=
  [ E_glfwInit;
    E_glfwWindowHint GLFW_VISIBLE GLFW_FALSE;
    E_glfwWindowHint GLFW_CONTEXT_VERSION_MAJOR (GLFW_int 3);
    E_glfwWindowHint GLFW_CONTEXT_VERSION_MINOR (GLFW_int 3);
    E_glfwWindowHint GLFW_OPENGL_PROFILE GLFW_OPENGL_CORE_PROFILE;
    E_glfwCreateWindow 1 1 EmptyString window;
    E_glfwMakeContextCurrent window;
    E_gladLoadGLLoader ].

(** Text that [get_file_contents] hands to the builder for a path. *)
Definition loaded (e : Env) (filename : string) : string :=
  match file_contents e filename with
  | Some s => s
  | None => EmptyString
  end.

(** What the linker is given when the builder links the two stages. *)
Definition linker_input (e : Env) (vertexFile fragmentFile : string)
  : list (GLenum * string * bool) :=
  [ (GL_VERTEX_SHADER, loaded e vertexFile,
     fst (glsl_compile e GL_VERTEX_SHADER (loaded e vertexFile)));
    (GL_FRAGMENT_SHADER, loaded e fragmentFile,
     fst (glsl_compile e GL_FRAGMENT_SHADER (loaded e fragmentFile))) ].

(** A step of the build fails: [label] names the step, [log] is the
    engine's full log for it. *)
Inductive stage_fails (e : Env) (vertexFile fragmentFile : string)
  : string -> string -> Prop :=
| vertex_fails (log : string) :
    glsl_compile e GL_VERTEX_SHADER (loaded e vertexFile) = (false, log) ->
    stage_fails e vertexFile fragmentFile "VERTEX" log
| fragment_fails (log : string) :
    glsl_compile e GL_FRAGMENT_SHADER (loaded e fragmentFile) = (false, log) ->
    stage_fails e vertexFile fragmentFile "FRAGMENT" log
| program_fails (log : string) :
    glsl_link e (linker_input e vertexFile fragmentFile) = (false, log) ->
    stage_fails e vertexFile fragmentFile "PROGRAM" log.

(** The line printed for a failed step. *)
Definition diagnostic (label shown : string) : string :=
  ((if (label =? "PROGRAM")%string
    then "SHADER_LINKING_ERROR for: "
    else "SHADER_COMPILATION_ERROR for: ")
   ++ label ++ endl ++ shown ++ endl)%string.

(** What the builder prints: a line per file that cannot be opened, then
    a line per failed step, each showing at most 1023 characters of the
    engine's log. *)
Definition missing_file_lines (e : Env) (filename : string)
  : list (Channel * string) :=
  match file_contents e filename with
  | None => [(std_cout, ("file not found: " ++ filename ++ endl)%string)]
  | Some _ => []
  end.

Definition diagnostic_lines (label : string) (r : bool * string)
  : list (Channel * string) :=
  if fst r then []
  else [(std_cout, diagnostic label (substring 0 1023 (snd r)))].

Definition build_lines (e : Env) (vertexFile fragmentFile : string)
  : list (Channel * string) :=
  missing_file_lines e vertexFile ++ missing_file_lines e fragmentFile
  ++ diagnostic_lines "VERTEX"
       (glsl_compile e GL_VERTEX_SHADER (loaded e vertexFile))
  ++ diagnostic_lines "FRAGMENT"
       (glsl_compile e GL_FRAGMENT_SHADER (loaded e fragmentFile))
  ++ diagnostic_lines "PROGRAM"
       (glsl_link e (linker_input e vertexFile fragmentFile)).

(** The two shader paths that [UploadToGL] builds. *)
Definition path_vert (e : Env) : string :=
  (cwd_ancestor4 e ++ "\Clib\default.vert")%string.

Definition path_frag (e : Env) : string :=
  (cwd_ancestor4 e ++ "\Clib\default.frag")%string.

(** The query calls of [compileErrors] for a shader, and for a program. *)
Definition shader_check_calls (shader : handle) (ok : bool) : list Call :=
  E_glGetShaderiv shader GL_COMPILE_STATUS
  :: (if ok then [] else [E_glGetShaderInfoLog shader 1024]).

Definition program_check_calls (program : handle) (ok : bool) : list Call :=
  E_glGetProgramiv program GL_LINK_STATUS
  :: (if ok then [] else [E_glGetProgramInfoLog program 1024]).

(** *** The calls of one render pass, in order *)

(** [InitFullscreenQuad] creating the array [vao] and the buffer [vbo]. *)
Definition quad_calls (vao vbo : handle) : list Call :=
  [ E_glGenVertexArrays vao; E_glGenBuffers vbo;
    E_glBindVertexArray vao; E_glBindBuffer GL_ARRAY_BUFFER vbo;
    E_glBufferData GL_ARRAY_BUFFER sizeof_quadVertices quadVertices
      GL_STATIC_DRAW;
    E_glEnableVertexAttribArray 0;
    E_glVertexAttribPointer 0 2 GL_FLOAT false (4 * sizeof_float) 0;
    E_glEnableVertexAttribArray 1;
    E_glVertexAttribPointer 1 2 GL_FLOAT false (4 * sizeof_float)
      (2 * sizeof_float);
    E_glBindVertexArray 0 ].

(** From making the context current to the completeness check. *)
Definition target_calls (window hdrTex fbo colorTex : handle)
  (linearRGB : list float) (width height : Z) : list Call :=
  [ E_glfwMakeContextCurrent window;
    E_glGenTextures hdrTex; E_glBindTexture GL_TEXTURE_2D hdrTex;
    E_glTexImage2D GL_TEXTURE_2D 0 GL_RGB16F width height 0 GL_RGB GL_FLOAT
      (Some linearRGB);
    E_glTexParameteri GL_TEXTURE_2D GL_TEXTURE_MIN_FILTER GL_LINEAR;
    E_glTexParameteri GL_TEXTURE_2D GL_TEXTURE_MAG_FILTER GL_LINEAR;
    E_glGenFramebuffers fbo; E_glBindFramebuffer GL_FRAMEBUFFER fbo;
    E_glGenTextures colorTex; E_glBindTexture GL_TEXTURE_2D colorTex;
    E_glTexImage2D GL_TEXTURE_2D 0 GL_RGBA8 width height 0 GL_BGRA
      GL_UNSIGNED_BYTE None;
    E_glTexParameteri GL_TEXTURE_2D GL_TEXTURE_MIN_FILTER GL_LINEAR;
    E_glTexParameteri GL_TEXTURE_2D GL_TEXTURE_MAG_FILTER GL_LINEAR;
    E_glBindTexture GL_TEXTURE_2D 0;
    E_glFramebufferTexture2D GL_FRAMEBUFFER GL_COLOR_ATTACHMENT0
      GL_TEXTURE_2D colorTex 0;
    E_glCheckFramebufferStatus GL_FRAMEBUFFER ].

(** The constructor [Shader::Shader], handing out names from [n]. *)
Definition build_calls (e : Env) (vertexFile fragmentFile : string)
  (n : positive) : list Call :=
  let v := Z.pos n in
  let f := Z.pos (Pos.succ n) in
  let p := Z.pos (Pos.succ (Pos.succ n)) in
  [E_ifstream_open vertexFile; E_ifstream_open fragmentFile;
   E_glCreateShader GL_VERTEX_SHADER v;
   E_glShaderSource v (loaded e vertexFile); E_glCompileShader v]
  ++ shader_check_calls v
       (fst (glsl_compile e GL_VERTEX_SHADER (loaded e vertexFile)))
  ++ [E_glCreateShader GL_FRAGMENT_SHADER f;
      E_glShaderSource f (loaded e fragmentFile); E_glCompileShader f]
  ++ shader_check_calls f
       (fst (glsl_compile e GL_FRAGMENT_SHADER (loaded e fragmentFile)))
  ++ [E_glCreateProgram p; E_glAttachShader p v; E_glAttachShader p f;
      E_glLinkProgram p]
  ++ program_check_calls p
       (fst (glsl_link e (linker_input e vertexFile fragmentFile)))
  ++ [E_glDeleteShader v; E_glDeleteShader f].

(** From activating the program to releasing the per-call objects. *)
Definition render_calls (e : Env) (p vao hdrTex colorTex fbo : handle)
  (width height : Z) (exposure whitePoint : float) : list Call :=
  [ E_glUseProgram p;
    E_glGetUniformLocation p "tex0";
    E_glUniform1i (uniform_location e p "tex0") 0;
    E_glGetUniformLocation p "exposure";
    E_glUniform1f (uniform_location e p "exposure") exposure;
    E_glGetUniformLocation p "whitePoint";
    E_glUniform1f (uniform_location e p "whitePoint") whitePoint;
    E_glGetUniformLocation p "gamma";
    E_glUniform1f (uniform_location e p "gamma") gamma_2_2f;
    E_glBindVertexArray vao; E_glActiveTexture GL_TEXTURE0;
    E_glBindTexture GL_TEXTURE_2D hdrTex;
    E_glDrawArrays GL_TRIANGLES 0 6; E_glBindVertexArray 0;
    E_glReadPixels 0 0 width height GL_BGRA GL_UNSIGNED_BYTE;
    E_glDeleteTextures hdrTex; E_glDeleteTextures colorTex;
    E_glDeleteFramebuffers fbo; E_glDeleteProgram p ].

(** Memory from the first byte of the caller's buffer on after
    [glReadPixels]. *)
Definition read_back (e : Env) (width height : Z) (outputBGRA : list byte)
  : list byte :=
  if (width <? 0) || (height <? 0) then outputBGRA
  else store_bytes (rendered e) 0 (Z.to_nat (width * height * 4)) outputBGRA.

(** What [gl_delete] leaves of the live objects. *)
Definition delete_from (c : handle) (is_kind : ObjKind -> bool) (n : handle)
  (l : list GLObj) : list GLObj :=
  filter (fun o => negb (names_obj c is_kind n o)) l.

(** *** Relations kept along a run *)

(** Calls other than those that build the quad geometry. *)
Definition no_quad_setup (c : Call) : bool := negb (is_quad_setup_call c).

(** With a quad handle in place, a run leaves the handle alone, does not
    rebuild the geometry and brings no vertex array into being. *)
Definition quad_kept (w w' : World) : Prop :=
  quadVAO w <> 0 ->
  quadVAO w' = quadVAO w /\
  adds no_quad_setup w w' /\
  (forall o, is_vertex_array o = true -> In o (live w') -> In o (live w)).

(** A ready context is still ready afterwards. *)
Definition stays_ready (w w' : World) : Prop :=
  gGLReady w = true -> gGLReady w' = true.

(** Without a ready context no object is live. *)
Definition objects_need_context (w : World) : Prop :=
  gGLReady w = false -> live w = [].






(** The run touches neither the objects, nor the output, nor the quad. *)
Definition same_objects (w w' : World) : Prop :=
  live w' = live w /\ console w' = console w /\ next_name w' = next_name w
  /\ quadVAO w' = quadVAO w /\ quadVBO w' = quadVBO w.


(** *** Geometry of the quad *)

Definition point := (Q * Q)%type.

(** The [size] floats that vertex [i] gets from a buffer laid out by
    [glVertexAttribPointer _ size GL_FLOAT _ stride offset] (byte units). *)
Definition fetch_attribute (size stride offset : Z) (data : list float)
  (i : Z) : list float :=
  firstn (Z.to_nat size)
    (skipn (Z.to_nat ((offset + i * stride) / sizeof_float)) data).

(** Twice the signed area of the triangle [a b p]. *)
Definition edge (a b p : point) : Q :=
  ((fst b - fst a) * (snd p - snd a) - (snd b - snd a) * (fst p - fst a))%Q.

Definition counter_clockwise (a b c : point) : Prop := (0 < edge a b c)%Q.

Definition in_triangle (a b c p : point) : Prop :=
  (0 <= edge a b p /\ 0 <= edge b c p /\ 0 <= edge c a p)%Q.

Definition in_ndc_square (p : point) : Prop :=
  (-1 <= fst p /\ fst p <= 1 /\ -1 <= snd p /\ snd p <= 1)%Q.

(** *** Calls that create and calls that release objects *)

Definition is_delete_call (c : Call) : bool :=
  match c with
  | E_glDeleteTextures _ | E_glDeleteFramebuffers _ | E_glDeleteProgram _
  | E_glDeleteShader _ => true
  | _ => false
  end.

Definition is_gen_call (c : Call) : bool :=
  match c with
  | E_glGenVertexArrays _ | E_glGenBuffers _ | E_glGenTextures _
  | E_glGenFramebuffers _ | E_glCreateShader _ _ | E_glCreateProgram _ => true
  | _ => false
  end.

(** The objects of the quad geometry. *)
Definition is_quad_object (o : GLObj) : bool :=
  match snd (fst o) with
  | KVertexArray | KBuffer => true
  | _ => false
  end.

(** A point with integer coordinates. *)
Definition Qpt (x y : Z) : point := (inject_Z x, inject_Z y).

(** The library after one successful 1x1 render pass. *)
Definition world_after_one_pass : World :=
  run [Op_UploadToGL env_ok [1%Q; 1%Q; 1%Q] 1 1 buffer6 1%Q 1%Q]
    initial_world.

(** ** hdrtesting/HDR.cpp: the unguarded quad and its draw *)

Module hdrtesting.

(** The two globals [quadVAO] and [quadVBO] of this file are the fields of
    the same names.  The same vertex table as in Clib, but no test of
    [quadVAO]. *)
Definition InitFullscreenQuad : M unit :=
  vao <- glGenVertexArrays ;; modify (set_quadVAO vao) ;;
  vbo <- glGenBuffers ;; modify (set_quadVBO vbo) ;;
  vao <- read quadVAO ;; glBindVertexArray vao ;;
  vbo <- read quadVBO ;; glBindBuffer GL_ARRAY_BUFFER vbo ;;
  glBufferData GL_ARRAY_BUFFER sizeof_quadVertices quadVertices
               GL_STATIC_DRAW ;;
  glEnableVertexAttribArray 0 ;;
  glVertexAttribPointer 0 2 GL_FLOAT GL_FALSE (4 * sizeof_float) 0 ;;
  glEnableVertexAttribArray 1 ;;
  glVertexAttribPointer 1 2 GL_FLOAT GL_FALSE (4 * sizeof_float)
                        (2 * sizeof_float) ;;
  glBindVertexArray 0.

Definition RenderFullscreenQuad : M unit :=
  vao <- read quadVAO ;; glBindVertexArray vao ;;
  glDrawArrays GL_TRIANGLES 0 6 ;;
  glBindVertexArray 0.

End hdrtesting.

(** *** Vocabulary of the further properties *)

(** Every live object carries a name the driver has already handed out. *)
Definition names_below (w : World) : Prop :=
  forall o, In o (live w) -> snd o < Z.pos (next_name w).

(** With a ready context the stored window is open, its context is the
    current one and GLFW is up. *)
Definition context_ok (w : World) : Prop :=
  gGLReady w = true ->
  gWindow w <> 0 /\ In (gWindow w) (windows w) /\
  current w = gWindow w /\ glfw_up w = true.

(** The context is ready and the quad is in place: what every completed
    render pass leaves behind. *)
Definition steady (w : World) : Prop :=
  gGLReady w = true /\ quadVAO w <> 0.

(** The calls of one render pass in a steady world, names from [n]. *)
Definition pass_calls (e : Env) (window vao : handle) (n : positive)
  (linearRGB : list float) (width height : Z) (exposure whitePoint : float)
  : list Call :=
  let hdrTex := Z.pos n in
  let fbo := Z.pos (Pos.succ n) in
  let colorTex := Z.pos (Pos.succ (Pos.succ n)) in
  let n3 := Pos.succ (Pos.succ (Pos.succ n)) in
  let p := Z.pos (Pos.succ (Pos.succ n3)) in
  target_calls window hdrTex fbo colorTex linearRGB width height
  ++ [E_glBindFramebuffer GL_FRAMEBUFFER fbo; E_glViewport 0 0 width height;
      E_current_path]
  ++ build_calls e (path_vert e) (path_frag e) n3
  ++ render_calls e p vao hdrTex colorTex fbo width height exposure
       whitePoint.

(** A render pass whose framebuffer the driver reports complete. *)
Definition complete_pass (o : Op) : Prop :=
  match o with
  | Op_UploadToGL e _ _ _ _ _ _ =>
      framebuffer_status e = GL_FRAMEBUFFER_COMPLETE
  | _ => False
  end.

(** The objects live after the run were live before it or carry a name
    handed out during it. *)
Definition fresh_kept (w w' : World) : Prop :=
  (next_name w <= next_name w')%positive /\
  forall o, In o (live w') ->
    In o (live w) \/ Z.pos (next_name w) <= snd o < Z.pos (next_name w').

(** The calls by which GLFW is brought up and torn down. *)
Definition is_glfw_lifecycle_call (c : Call) : bool :=
  match c with
  | E_glfwInit | E_glfwWindowHint _ _ | E_glfwCreateWindow _ _ _ _
  | E_gladLoadGLLoader | E_glfwDestroyWindow _ | E_glfwTerminate => true
  | _ => false
  end.

(** Both files open, both stages compile and the program links. *)
Definition build_succeeds (e : Env) (vertexFile fragmentFile : string)
  : Prop :=
  file_contents e vertexFile <> None /\
  file_contents e fragmentFile <> None /\
  fst (glsl_compile e GL_VERTEX_SHADER (loaded e vertexFile)) = true /\
  fst (glsl_compile e GL_FRAGMENT_SHADER (loaded e fragmentFile)) = true /\
  fst (glsl_link e (linker_input e vertexFile fragmentFile)) = true.

(** A render pass whose framebuffer the driver does not report complete. *)
Definition incomplete_pass (o : Op) : Prop :=
  match o with
  | Op_UploadToGL e _ _ _ _ _ _ =>
      framebuffer_status e <> GL_FRAMEBUFFER_COMPLETE
  | _ => False
  end.

(** Does the delete call [d] take back the name that the creating call
    [c] handed out?  The source has no delete call for vertex arrays and
    buffers. *)
Definition releases (c d : Call) : bool :=
  match c, d with
  | E_glGenTextures n, E_glDeleteTextures m => n =? m
  | E_glGenFramebuffers n, E_glDeleteFramebuffers m => n =? m
  | E_glCreateShader _ n, E_glDeleteShader m => n =? m
  | E_glCreateProgram n, E_glDeleteProgram m => n =? m
  | _, _ => false
  end.

(** Is every creating call of the sequence followed, later in the
    sequence, by the delete call for the name it handed out? *)
Fixpoint all_released (t : list Call) : bool :=
  match t with
  | [] => true
  | c :: rest =>
      (negb (is_gen_call c) || existsb (releases c) rest) && all_released rest
  end.

Definition is_use_program (c : Call) : bool :=
  match c with
  | E_glUseProgram _ => true
  | _ => false
  end.

(** Calls that neither delete an object nor install a program. *)
Definition no_release (c : Call) : bool :=
  negb (is_delete_call c) && negb (is_use_program c).

(** GLFW itself cannot be initialised. *)
Definition env_glfw_down : Env :=
  mkEnv false true true GL_FRAMEBUFFER_COMPLETE
    (fun path => Some ("void main(){}" ++ path)%string) "C:\repo"%string
    accepts_all links_all (fun _ _ => 0) (fun _ => Byte.xff).

(** GLFW comes up but the hidden window cannot be created. *)
Definition env_no_window : Env :=
  mkEnv true false true GL_FRAMEBUFFER_COMPLETE
    (fun path => Some ("void main(){}" ++ path)%string) "C:\repo"%string
    accepts_all links_all (fun _ _ => 0) (fun _ => Byte.xff).

(** * Basic facts *)

Lemma skipn_length_app {A : Type} (l t : list A) :
  skipn (List.length l) (l ++ t) = t.
Proof.
  induction l as [|x l IH]; simpl; auto.
Qed.

Lemma calls_since_app (w w' : World) (t : list Call) :
  trace w' = trace w ++ t -> calls_since w w' = t.
Proof.
  unfold calls_since. intros ->. apply skipn_length_app.
Qed.

Lemma store_bytes_length (src : nat -> byte) (n i : nat) (buf : list byte) :
  List.length (store_bytes src i n buf) = Nat.max n (List.length buf).
Proof.
  revert i buf. induction n as [|n IH]; intros i buf.
  - reflexivity.
  - cbn [store_bytes List.length]. rewrite IH.
    destruct buf as [|b buf]; cbn [tl List.length]; lia.
Qed.

Lemma substring_length_le (n : nat) (s : string) :
  (String.length (substring 0 n s) <= n)%nat.
Proof.
  revert s. induction n as [|n IH]; intros [|c s]; simpl; try lia.
  specialize (IH s). lia.
Qed.

(** Unfolding of the monadic layer and of the driver primitives. *)
Ltac unfold_prims :=
  unfold result, after, calls_during,
    Shader.Activate, Shader.Delete, Shader.compileErrors,
    get_file_contents, current_path_ancestor4,
    glfwInit, glfwWindowHint, glfwCreateWindow, glfwMakeContextCurrent,
    gladLoadGLLoader, glfwDestroyWindow, glfwTerminate,
    glGenVertexArrays, glGenBuffers, glGenTextures, glGenFramebuffers,
    glDeleteTextures, glDeleteFramebuffers, glDeleteShader, glDeleteProgram,
    glBindVertexArray, glBindBuffer, glBufferData, glEnableVertexAttribArray,
    glVertexAttribPointer, glBindTexture, glTexImage2D, glTexParameteri,
    glBindFramebuffer, glFramebufferTexture2D, glCheckFramebufferStatus,
    glViewport, glGetUniformLocation, glUniform1i, glUniform1f,
    glActiveTexture, glDrawArrays, glReadPixels,
    glCreateShader, glShaderSource, glCompileShader, glGetShaderiv,
    glGetShaderInfoLog, glCreateProgram, glAttachShader, glLinkProgram,
    glGetProgramiv, glGetProgramInfoLog, glUseProgram,
    gl_gen, gl_delete, call, cout, read, modify, bind, ret in *.

Ltac unfold_setters :=
  unfold set_gWindow, set_gGLReady, set_quadVAO, set_quadVBO, set_glfw_up,
    set_windows, set_next_window, set_current, set_next_name, set_live,
    set_sources, set_statuses, set_attached, set_console, set_trace in *.

(** ** InitGLFW *)

(** With the context ready, [InitGLFW] answers [true] and touches
    nothing. *)
Lemma InitGLFW_ready (e : Env) (w : World) :
  gGLReady w = true -> InitGLFW e w = (true, w).
Proof.
  intros H. unfold InitGLFW, bind, read. rewrite H. reflexivity.
Qed.

(** [InitGLFW] answers [true] only with the context marked ready. *)
Lemma InitGLFW_true_ready (e : Env) (w : World) :
  result (InitGLFW e) w = true -> gGLReady (after (InitGLFW e) w) = true.
Proof.
  unfold InitGLFW. unfold_prims. unfold_setters.
  destruct (gGLReady w) eqn:R; simpl; auto.
  destruct (glfw_up w), (glfwInit_result e), (glfwCreateWindow_ok e),
    (gladLoadGLLoader_result e); simpl; auto; discriminate.
Qed.

(** ** Running a sequence, relations kept by every step *)

Lemma bind_run {A B : Type} (m : M A) (k : A -> M B) (w : World) :
  bind m k w = k (result m w) (after m w).
Proof. unfold bind, result, after. destruct (m w); reflexivity. Qed.

Section Preserves.
Variable R : World -> World -> Prop.
Hypothesis R_refl : forall w, R w w.
Hypothesis R_trans : forall a b c, R a b -> R b c -> R a c.

Lemma preserves_ret {A : Type} (a : A) : preserves R (ret a).
Proof. intros w. apply R_refl. Qed.

Lemma preserves_read {A : Type} (f : World -> A) : preserves R (read f).
Proof. intros w. apply R_refl. Qed.

Lemma preserves_modify (f : World -> World) :
  (forall w, R w (f w)) -> preserves R (modify f).
Proof. intros H w. apply H. Qed.

Lemma preserves_bind {A B : Type} (m : M A) (k : A -> M B) :
  preserves R m -> (forall a, preserves R (k a)) -> preserves R (bind m k).
Proof.
  intros Hm Hk w. unfold after. rewrite bind_run.
  eapply R_trans; [apply Hm | apply Hk].
Qed.
End Preserves.

(** Unfolding of the procedures and driver primitives down to [bind],
    [ret], [read] and [modify]. *)
Ltac unfold_procs :=
  unfold UploadToGL, InitGLFW, InitFullscreenQuad, CleanupGLFW,
    Shader.Shader, Shader.Activate, Shader.Delete, Shader.compileErrors,
    get_file_contents, current_path_ancestor4,
    glfwInit, glfwWindowHint, glfwCreateWindow, glfwMakeContextCurrent,
    gladLoadGLLoader, glfwDestroyWindow, glfwTerminate,
    glGenVertexArrays, glGenBuffers, glGenTextures, glGenFramebuffers,
    glDeleteTextures, glDeleteFramebuffers, glDeleteShader, glDeleteProgram,
    glBindVertexArray, glBindBuffer, glBufferData, glEnableVertexAttribArray,
    glVertexAttribPointer, glBindTexture, glTexImage2D, glTexParameteri,
    glBindFramebuffer, glFramebufferTexture2D, glCheckFramebufferStatus,
    glViewport, glGetUniformLocation, glUniform1i, glUniform1f,
    glActiveTexture, glDrawArrays, glReadPixels,
    glCreateShader, glShaderSource, glCompileShader, glGetShaderiv,
    glGetShaderInfoLog, glCreateProgram, glAttachShader, glLinkProgram,
    glGetProgramiv, glGetProgramInfoLog, glUseProgram,
    gl_gen, gl_delete, call, cout.

(** Walks a procedure along its binds and branches; [leaf] closes the
    obligation of each [modify]. *)
Ltac preserves_walk Rrefl Rtrans leaf :=
  repeat first
    [ apply (preserves_bind _ Rtrans); [ | intro; cbv beta ]
    | apply (preserves_ret _ Rrefl)
    | apply (preserves_read _ Rrefl)
    | apply preserves_modify; leaf
    | match goal with
      | |- preserves _ (if ?c then _ else _) => destruct c
      | |- preserves _ (match ?c with _ => _ end) => destruct c
      end ].

Lemma extends_refl (w : World) : extends w w.
Proof. exists []. now rewrite app_nil_r. Qed.

Lemma extends_trans (a b c : World) :
  extends a b -> extends b c -> extends a c.
Proof.
  intros [t1 H1] [t2 H2]. exists (t1 ++ t2).
  rewrite H2, H1. now rewrite app_assoc.
Qed.

Ltac extends_leaf :=
  let w := fresh "w" in
  intros w; unfold extends; unfold_setters; simpl;
  first
    [ eexists; reflexivity
    | exists []; now rewrite app_nil_r
    | match goal with
      | |- context [match ?c with _ => _ end] =>
          destruct c; simpl; exists []; now rewrite app_nil_r
      end ].

Lemma InitGLFW_extends (e : Env) : preserves extends (InitGLFW e).
Proof.
  unfold_procs. preserves_walk extends_refl extends_trans extends_leaf.
Qed.

Lemma InitFullscreenQuad_extends : preserves extends InitFullscreenQuad.
Proof.
  unfold_procs. preserves_walk extends_refl extends_trans extends_leaf.
Qed.

Lemma CleanupGLFW_extends : preserves extends CleanupGLFW.
Proof.
  unfold_procs. preserves_walk extends_refl extends_trans extends_leaf.
Qed.

Lemma Shader_extends (e : Env) (vertexFile fragmentFile : string) :
  preserves extends (Shader.Shader e vertexFile fragmentFile).
Proof.
  unfold_procs. preserves_walk extends_refl extends_trans extends_leaf.
Qed.

Lemma UploadToGL_extends (e : Env) (linearRGB : list float)
  (width height : Z) (outputBGRA : list byte) (exposure whitePoint : float) :
  preserves extends
    (UploadToGL e linearRGB width height outputBGRA exposure whitePoint).
Proof.
  unfold_procs. preserves_walk extends_refl extends_trans extends_leaf.
Qed.

Lemma step_extends (o : Op) (w : World) : extends w (step o w).
Proof.
  destruct o; simpl.
  - apply InitGLFW_extends.
  - apply UploadToGL_extends.
  - apply CleanupGLFW_extends.
Qed.

Lemma run_extends (ops : list Op) (w : World) : extends w (run ops w).
Proof.
  revert w. induction ops as [|o ops IH]; intros w; simpl.
  - apply extends_refl.
  - eapply extends_trans; [apply step_extends | apply IH].
Qed.

Lemma calls_since_refl (w : World) : calls_since w w = [].
Proof.
  apply calls_since_app. now rewrite app_nil_r.
Qed.

Lemma calls_since_trans (a b c : World) :
  extends a b -> extends b c ->
  calls_since a c = calls_since a b ++ calls_since b c.
Proof.
  intros [t1 H1] [t2 H2].
  rewrite (calls_since_app a b t1 H1), (calls_since_app b c t2 H2).
  apply calls_since_app. rewrite H2, H1. now rewrite app_assoc.
Qed.

Lemma extends_calls_since (w w' : World) :
  extends w w' -> trace w' = trace w ++ calls_since w w'.
Proof.
  intros [t H]. now rewrite (calls_since_app w w' t H).
Qed.

Lemma adds_refl (P : Call -> bool) (w : World) : adds P w w.
Proof. exists []. split; auto. now rewrite app_nil_r. Qed.

Lemma adds_trans (P : Call -> bool) (a b c : World) :
  adds P a b -> adds P b c -> adds P a c.
Proof.
  intros [t1 [H1 F1]] [t2 [H2 F2]]. exists (t1 ++ t2). split.
  - rewrite H2, H1. now rewrite app_assoc.
  - rewrite forallb_app, F1, F2. reflexivity.
Qed.

Lemma adds_calls_since (P : Call -> bool) (w w' : World) :
  adds P w w' -> forallb P (calls_since w w') = true.
Proof.
  intros [t [H F]]. now rewrite (calls_since_app w w' t H).
Qed.

Lemma quiet_no_output (t : list Call) :
  forallb quiet t = true -> existsb is_output_call t = false.
Proof.
  induction t as [|c t IH]; simpl; auto.
  unfold quiet at 1. destruct (is_output_call c); simpl; auto; discriminate.
Qed.

Ltac adds_leaf :=
  let w := fresh "w" in
  intros w; unfold adds; unfold_setters; simpl;
  first
    [ eexists; split; [reflexivity | reflexivity]
    | exists []; split; [now rewrite app_nil_r | reflexivity]
    | match goal with
      | |- context [match ?c with _ => _ end] =>
          destruct c; simpl; exists [];
          split; [now rewrite app_nil_r | reflexivity]
      end ].

(** Names handed out in a row are pairwise distinct. *)
Lemma pos_eqb_succ_l (n : positive) : Pos.eqb (Pos.succ n) n = false.
Proof. apply Pos.eqb_neq. lia. Qed.

Lemma pos_eqb_succ_r (n : positive) : Pos.eqb n (Pos.succ n) = false.
Proof. apply Pos.eqb_neq. lia. Qed.

Lemma pos_eqb_succ2_l (n : positive) :
  Pos.eqb (Pos.succ (Pos.succ n)) n = false.
Proof. apply Pos.eqb_neq. lia. Qed.

Lemma pos_eqb_succ2_r (n : positive) :
  Pos.eqb n (Pos.succ (Pos.succ n)) = false.
Proof. apply Pos.eqb_neq. lia. Qed.

Ltac names_rewrite_in H :=
  rewrite ?Z.eqb_refl, ?Pos.eqb_refl, ?pos_eqb_succ_l, ?pos_eqb_succ_r,
    ?pos_eqb_succ2_l, ?pos_eqb_succ2_r in H.

(** Evaluation of a run from a world given by its fields; arithmetic on
    symbolic names and sizes is left alone, and so are the shader build
    and the linker input, which have lemmas of their own. *)
Ltac run_lazy_in H :=
  lazy -[app Pos.succ Z.eqb Pos.eqb filter flat_map substring String.append
         Z.mul Z.to_nat Z.ltb Z.sub Z.add store_bytes quadVertices
         sizeof_quadVertices gamma_2_2f endl Shader.Shader link_inputs]
    in H.

(** [eval_run_with m extra] replaces the run [m] by its value; [extra]
    rewrites with what is known of the driver's answers. *)
Ltac eval_run_with m extra :=
  let r := fresh "run" in
  let Hr := fresh "Hrun" in
  remember m as r eqn:Hr;
  repeat (progress (run_lazy_in Hr; cbn [Z.eqb] in Hr; names_rewrite_in Hr;
                    extra Hr));
  subst r; cbn [fst snd] in *.

Ltac eval_run m := eval_run_with m ltac:(fun H => idtac).

Ltac norm_trace := repeat rewrite <- app_assoc; simpl.

(** * UploadToGL: the two abort paths *)

Lemma InitGLFW_quiet (e : Env) : preserves (adds quiet) (InitGLFW e).
Proof.
  unfold_procs.
  preserves_walk (adds_refl quiet) (adds_trans quiet) adds_leaf.
Qed.

Lemma InitFullscreenQuad_quiet : preserves (adds quiet) InitFullscreenQuad.
Proof.
  unfold_procs.
  preserves_walk (adds_refl quiet) (adds_trans quiet) adds_leaf.
Qed.

Lemma UploadToGL_init_fails (e : Env) (linearRGB : list float)
  (width height : Z) (outputBGRA : list byte) (exposure whitePoint : float)
  (w : World) :
  result (InitGLFW e) w = false ->
  UploadToGL e linearRGB width height outputBGRA exposure whitePoint w
  = (outputBGRA, after (InitGLFW e) w).
Proof.
  intros H. unfold UploadToGL. rewrite bind_run, H. reflexivity.
Qed.

Lemma UploadToGL_incomplete (e : Env) (linearRGB : list float)
  (width height : Z) (outputBGRA : list byte) (exposure whitePoint : float)
  (w : World) :
  result (InitGLFW e) w = true ->
  framebuffer_status e <> GL_FRAMEBUFFER_COMPLETE ->
  result (UploadToGL e linearRGB width height outputBGRA exposure whitePoint)
    w = outputBGRA /\
  adds quiet w
    (after (UploadToGL e linearRGB width height outputBGRA exposure
              whitePoint) w).
Proof.
  intros HI Hfs.
  pose proof (InitGLFW_quiet e w) as A1.
  pose proof (InitFullscreenQuad_quiet (after (InitGLFW e) w)) as A2.
  unfold result at 1, after at 1. unfold UploadToGL.
  rewrite bind_run, HI. cbv beta iota delta [negb].
  rewrite bind_run.
  generalize dependent (after InitFullscreenQuad (after (InitGLFW e) w)).
  intros w2 A2.
  generalize (result InitFullscreenQuad (after (InitGLFW e) w)). intros u.
  destruct e as [gi cw gl fs fc cwd comp lnk ul rend]; simpl in Hfs.
  destruct fs as [|code]; [congruence|].
  destruct w2 as [gw gr qa qb up ws nw cur nn lv src st att con tr].
  match goal with
  | |- fst ?r = _ /\ adds _ _ (snd ?r) => eval_run r
  end.
  split; [reflexivity|].
  eapply adds_trans; [exact A1|]. eapply adds_trans; [exact A2|].
  unfold adds. cbn [trace]. norm_trace. eexists; split; reflexivity.
Qed.

(** C1.  When [InitGLFW] answers false, or the framebuffer is not reported
    complete, [UploadToGL] hands the caller's buffer back byte for byte
    and has issued neither the draw nor the pixel read-back. *)
Theorem UploadToGL_abort_leaves_output (e : Env) (linearRGB : list float)
  (width height : Z) (outputBGRA : list byte) (exposure whitePoint : float)
  (w : World) :
  result (InitGLFW e) w = false \/
  framebuffer_status e <> GL_FRAMEBUFFER_COMPLETE ->
  result (UploadToGL e linearRGB width height outputBGRA exposure whitePoint)
    w = outputBGRA /\
  existsb is_output_call
    (calls_during
       (UploadToGL e linearRGB width height outputBGRA exposure whitePoint)
       w) = false.
Proof.
  intros H. destruct (result (InitGLFW e) w) eqn:HI.
  - destruct H as [H|H]; [discriminate H|].
    destruct (UploadToGL_incomplete e linearRGB width height outputBGRA
                exposure whitePoint w HI H) as [Hr Ha].
    split; [exact Hr|].
    apply quiet_no_output. unfold calls_during.
    apply adds_calls_since. exact Ha.
  - unfold result, calls_during, after.
    rewrite (UploadToGL_init_fails e linearRGB width height outputBGRA
               exposure whitePoint w HI).
    split; [reflexivity|]. cbn [snd].
    apply quiet_no_output, adds_calls_since, InitGLFW_quiet.
Qed.

Lemma UploadToGL_abort_leaves_output_witness :
  framebuffer_status env_fb_incomplete <> GL_FRAMEBUFFER_COMPLETE /\
  result (UploadToGL env_fb_incomplete [1%Q; 1%Q; 1%Q] 1 1 buffer6 1%Q 1%Q)
    initial_world = buffer6 /\
  existsb is_output_call
    (calls_during
       (UploadToGL env_fb_incomplete [1%Q; 1%Q; 1%Q] 1 1 buffer6 1%Q 1%Q)
       initial_world) = false.
Proof.
  split; [discriminate|].
  apply UploadToGL_abort_leaves_output. right. discriminate.
Defined.

(** On the complete path the same call does overwrite the first
    [width * height * 4] bytes of the buffer and nothing beyond. *)
Example UploadToGL_writes_when_complete :
  result (UploadToGL env_ok [1%Q; 1%Q; 1%Q] 1 1 buffer6 1%Q 1%Q)
    initial_world
  = [Byte.xff; Byte.xff; Byte.xff; Byte.xff; Byte.x05; Byte.x06].
Proof. vm_compute. reflexivity. Qed.

(** * The shader builder *)

Lemma flat_map_filter_none {A B : Type} (f : A -> list B) (keep : A -> bool)
  (l : list A) :
  (forall a, keep a = true -> f a = []) ->
  flat_map f (filter keep l) = [].
Proof.
  intros H. induction l as [|a l IH]; simpl; auto.
  destruct (keep a) eqn:K; simpl; auto. rewrite (H a K). exact IH.
Qed.

Lemma flat_map_singleton {A B : Type} (f : A -> list B) (a : A) :
  flat_map f [a] = f a.
Proof. simpl. apply app_nil_r. Qed.

(** The linker sees exactly the two shaders the builder attached. *)
Lemma link_inputs_built (gw : handle) (gr : bool) (qa qb : handle) (up : bool)
  (ws : list handle) (nw : positive) (cur : handle) (nn' : positive)
  (lv : list GLObj) (src : list (handle * string))
  (st : list (handle * (bool * string))) (att : list (handle * handle))
  (con : list (Channel * string)) (tr : list Call)
  (nn : positive) (tV tF : GLenum) (sv sf : string) (rv rf : bool * string) :
  let v := Z.pos nn in
  let f := Z.pos (Pos.succ nn) in
  let p := Z.pos (Pos.succ (Pos.succ nn)) in
  link_inputs
    (mkWorld gw gr qa qb up ws nw cur nn'
       ((cur, KProgram, p) :: (cur, KShader tF, f) :: (cur, KShader tV, v)
        :: lv)
       ((f, sf) :: (v, sv) :: src) ((f, rf) :: (v, rv) :: st)
       ((filter (fun ps => negb (fst ps =? p)) att ++ [(p, v)]) ++ [(p, f)])
       con tr) p
  = [(tV, sv, fst rv); (tF, sf, fst rf)].
Proof.
  cbv zeta. unfold link_inputs. cbn [attached current live].
  rewrite !flat_map_app, !flat_map_singleton.
  rewrite flat_map_filter_none.
  - cbn [fst snd app]. unfold source_of, compiled.
    cbn [sources statuses lookup shader_type Z.eqb].
    rewrite ?Z.eqb_refl, ?Pos.eqb_refl, ?pos_eqb_succ_l, ?pos_eqb_succ_r,
      ?pos_eqb_succ2_l, ?pos_eqb_succ2_r.
    cbn [andb fst snd app]. reflexivity.
  - intros [a b] K. cbn [fst] in *.
    destruct (a =? Z.pos (Pos.succ (Pos.succ nn)));
      [discriminate K|reflexivity].
Qed.

(** What one run of the constructor does to the world, whatever the
    files, the compiler and the linker answer. *)
Lemma Shader_run (e : Env) (vertexFile fragmentFile : string) (w : World) :
  let v := Z.pos (next_name w) in
  let f := Z.pos (Pos.succ (next_name w)) in
  let p := Z.pos (Pos.succ (Pos.succ (next_name w))) in
  let vsrc := loaded e vertexFile in
  let fsrc := loaded e fragmentFile in
  let rv := glsl_compile e GL_VERTEX_SHADER vsrc in
  let rf := glsl_compile e GL_FRAGMENT_SHADER fsrc in
  let rl := glsl_link e (linker_input e vertexFile fragmentFile) in
  let w' := after (Shader.Shader e vertexFile fragmentFile) w in
  result (Shader.Shader e vertexFile fragmentFile) w = Shader.mk p /\
  trace w' =
    trace w ++
    [E_ifstream_open vertexFile; E_ifstream_open fragmentFile;
     E_glCreateShader GL_VERTEX_SHADER v; E_glShaderSource v vsrc;
     E_glCompileShader v] ++ shader_check_calls v (fst rv) ++
    [E_glCreateShader GL_FRAGMENT_SHADER f; E_glShaderSource f fsrc;
     E_glCompileShader f] ++ shader_check_calls f (fst rf) ++
    [E_glCreateProgram p; E_glAttachShader p v; E_glAttachShader p f;
     E_glLinkProgram p] ++ program_check_calls p (fst rl) ++
    [E_glDeleteShader v; E_glDeleteShader f] /\
  console w' = console w ++ build_lines e vertexFile fragmentFile /\
  live w' =
    filter (fun o => negb (names_obj (current w) is_shader f o))
      (filter (fun o => negb (names_obj (current w) is_shader v o))
         ((current w, KProgram, p)
          :: (current w, KShader GL_FRAGMENT_SHADER, f)
          :: (current w, KShader GL_VERTEX_SHADER, v) :: live w)) /\
  statuses w' = (p, rl) :: (f, rf) :: (v, rv) :: statuses w /\
  gWindow w' = gWindow w /\ gGLReady w' = gGLReady w /\
  quadVAO w' = quadVAO w /\ quadVBO w' = quadVBO w /\
  current w' = current w /\ windows w' = windows w /\
  next_window w' = next_window w /\ glfw_up w' = glfw_up w /\
  next_name w' = Pos.succ (Pos.succ (Pos.succ (next_name w))).
Proof.
  destruct w as [gw gr qa qb up ws nw cur nn lv src st att con tr].
  destruct e as [gi cw gl fs fc cwd comp lnk ul rend].
  cbv beta iota zeta delta
    [result after loaded linker_input build_lines missing_file_lines
     diagnostic_lines file_contents glsl_compile glsl_link next_name trace
     console live statuses current gWindow gGLReady quadVAO quadVBO windows
     next_window glfw_up].
  destruct (fc vertexFile) as [sv|] eqn:Fv;
  destruct (fc fragmentFile) as [sf|] eqn:Ff;
  match goal with
  | |- context [comp GL_VERTEX_SHADER ?s] =>
      destruct (comp GL_VERTEX_SHADER s) as [[|] vlog] eqn:Cv
  end;
  match goal with
  | |- context [comp GL_FRAGMENT_SHADER ?s] =>
      destruct (comp GL_FRAGMENT_SHADER s) as [[|] flog] eqn:Cf
  end;
  cbn [fst snd];
  match goal with
  | |- context [lnk ?l] => destruct (lnk l) as [[|] llog] eqn:Cl
  end;
  cbn [fst snd];
  unfold Shader.Shader;
  match goal with
  | |- context [bind ?m ?k ?w] =>
      eval_run_with (bind m k w)
        ltac:(fun H => rewrite ?Fv, ?Ff, ?Cv, ?Cf, ?link_inputs_built in H;
                       cbn [fst snd] in H; rewrite ?Cl in H)
  end.
  all: cbn [trace console live statuses gWindow gGLReady quadVAO quadVBO
            current windows next_window glfw_up next_name app].
  all: unfold shader_check_calls, program_check_calls.
  all: repeat rewrite <- app_assoc; cbn [app]; rewrite ?app_nil_r.
  all: repeat split; reflexivity.
Qed.

(** * InitGLFW and CleanupGLFW, case by case *)

Lemma InitGLFW_full (e : Env) (w : World) :
  gGLReady w = false ->
  glfw_up w = true \/ glfwInit_result e = true ->
  glfwCreateWindow_ok e = true ->
  gladLoadGLLoader_result e = true ->
  let W := Z.pos (next_window w) in
  let w' := after (InitGLFW e) w in
  result (InitGLFW e) w = true /\
  trace w' = trace w ++ full_init_calls W /\
  gGLReady w' = true /\ gWindow w' = W /\ current w' = W /\
  windows w' = W :: windows w /\ glfw_up w' = true.
Proof.
  intros R U C G.
  destruct w as [gw gr qa qb up ws nw cur nn lv src st att con tr].
  destruct e as [gi cw gl fs fc cwd comp lnk ul rend].
  simpl in *; subst. cbv zeta. unfold result, after.
  destruct up; [|destruct U as [U|U]; [discriminate U|subst]];
    match goal with |- context [InitGLFW ?e ?w] => eval_run (InitGLFW e w) end;
    cbn [trace gGLReady gWindow current windows glfw_up];
    norm_trace; repeat split; reflexivity.
Qed.

Lemma InitGLFW_starts (e : Env) (w : World) :
  gGLReady w = false ->
  exists t, calls_during (InitGLFW e) w = E_glfwInit :: t.
Proof.
  intros R.
  destruct w as [gw gr qa qb up ws nw cur nn lv src st att con tr].
  destruct e as [gi cw gl fs fc cwd comp lnk ul rend].
  simpl in *; subst.
  unfold calls_during, calls_since, after.
  destruct up, gi, cw, gl;
    match goal with |- context [InitGLFW ?e ?w] => eval_run (InitGLFW e w) end;
    cbn [trace];
    norm_trace; rewrite skipn_length_app; eexists; reflexivity.
Qed.

Lemma CleanupGLFW_not_ready (w : World) :
  gGLReady w = false -> CleanupGLFW w = (tt, w).
Proof.
  intros H. unfold CleanupGLFW, bind, read. rewrite H. reflexivity.
Qed.

Lemma CleanupGLFW_clears (w : World) :
  let w' := after CleanupGLFW w in
  gGLReady w' = false /\ next_window w' = next_window w /\
  quadVAO w' = quadVAO w /\ (gGLReady w = true -> live w' = [] /\ windows w' = [] /\
   calls_during CleanupGLFW w = [E_glfwDestroyWindow (gWindow w); E_glfwTerminate]).
Proof.
  destruct w as [gw gr qa qb up ws nw cur nn lv src st att con tr].
  cbv zeta. unfold calls_during, calls_since, after.
  destruct gr;
    match goal with |- context [CleanupGLFW ?w] => eval_run (CleanupGLFW w) end;
    cbn [trace gGLReady next_window quadVAO live windows gWindow]; repeat split; try reflexivity; try discriminate.
  norm_trace. apply skipn_length_app.
Qed.

(** * The quad and the complete render pass *)

Lemma InitFullscreenQuad_guard (w : World) :
  quadVAO w <> 0 -> InitFullscreenQuad w = (tt, w).
Proof.
  intros H. unfold InitFullscreenQuad. rewrite bind_run.
  unfold result, after, read. cbn [fst snd].
  apply Z.eqb_neq in H. rewrite H. reflexivity.
Qed.

Lemma InitFullscreenQuad_first (w : World) :
  quadVAO w = 0 ->
  let vao := Z.pos (next_name w) in
  let vbo := Z.pos (Pos.succ (next_name w)) in
  let w' := after InitFullscreenQuad w in
  quadVAO w' = vao /\ quadVBO w' = vbo /\
  trace w' = trace w ++ quad_calls vao vbo /\
  live w' = (current w, KBuffer, vbo) :: (current w, KVertexArray, vao)
            :: live w /\
  next_name w' = Pos.succ (Pos.succ (next_name w)) /\
  gWindow w' = gWindow w /\ gGLReady w' = gGLReady w /\
  current w' = current w /\ windows w' = windows w /\
  next_window w' = next_window w /\ glfw_up w' = glfw_up w /\
  console w' = console w.
Proof.
  intros H.
  destruct w as [gw gr qa qb up ws nw cur nn lv src st att con tr].
  cbn [quadVAO] in H. subst qa. cbv zeta. unfold after.
  match goal with
  | |- context [InitFullscreenQuad ?w] => eval_run (InitFullscreenQuad w)
  end.
  cbn [trace console live current gWindow gGLReady quadVAO quadVBO windows
       next_window glfw_up next_name].
  unfold quad_calls. repeat rewrite <- app_assoc; cbn [app].
  repeat split; reflexivity.
Qed.

Lemma InitFullscreenQuad_nonzero (w : World) :
  quadVAO (after InitFullscreenQuad w) <> 0 /\
  gGLReady (after InitFullscreenQuad w) = gGLReady w.
Proof.
  destruct (Z.eq_dec (quadVAO w) 0) as [H|H].
  - destruct (InitFullscreenQuad_first w H) as (Hq & _ & _ & _ & _ & _ & Hr & _).
    rewrite Hq, Hr. split; [discriminate|reflexivity].
  - unfold after. rewrite (InitFullscreenQuad_guard w H). now split.
Qed.

Lemma UploadToGL_prepared (e : Env) (linearRGB : list float)
  (width height : Z) (outputBGRA : list byte) (exposure whitePoint : float)
  (w : World) :
  result (InitGLFW e) w = true ->
  UploadToGL e linearRGB width height outputBGRA exposure whitePoint w
  = UploadToGL e linearRGB width height outputBGRA exposure whitePoint
      (after InitFullscreenQuad (after (InitGLFW e) w)).
Proof.
  intros HI.
  pose proof (InitGLFW_true_ready e w HI) as R1.
  destruct (InitFullscreenQuad_nonzero (after (InitGLFW e) w)) as [Q2 R2].
  rewrite R1 in R2.
  set (w2 := after InitFullscreenQuad (after (InitGLFW e) w)) in *.
  assert (Ra : result (InitGLFW e) w2 = true)
    by (unfold result; now rewrite (InitGLFW_ready e w2 R2)).
  assert (Aa : after (InitGLFW e) w2 = w2)
    by (unfold after; now rewrite (InitGLFW_ready e w2 R2)).
  assert (Ab : after InitFullscreenQuad w2 = w2)
    by (unfold after; now rewrite (InitFullscreenQuad_guard w2 Q2)).
  unfold UploadToGL.
  rewrite (bind_run (InitGLFW e) _ w), HI. cbv beta iota delta [negb].
  rewrite (bind_run InitFullscreenQuad _ (after (InitGLFW e) w)). fold w2.
  rewrite (bind_run (InitGLFW e) _ w2), Ra, Aa. cbv beta iota delta [negb].
  rewrite (bind_run InitFullscreenQuad _ w2), Ab.
  destruct (result InitFullscreenQuad (after (InitGLFW e) w)).
  destruct (result InitFullscreenQuad w2). reflexivity.
Qed.

Lemma UploadToGL_ready_complete (e : Env) (linearRGB : list float)
  (width height : Z) (outputBGRA : list byte) (exposure whitePoint : float)
  (w : World) :
  gGLReady w = true -> quadVAO w <> 0 ->
  framebuffer_status e = GL_FRAMEBUFFER_COMPLETE ->
  let w' := after (UploadToGL e linearRGB width height outputBGRA exposure
                     whitePoint) w in
  let c := gWindow w in
  let n := next_name w in
  let hdrTex := Z.pos n in
  let fbo := Z.pos (Pos.succ n) in
  let colorTex := Z.pos (Pos.succ (Pos.succ n)) in
  let n3 := Pos.succ (Pos.succ (Pos.succ n)) in
  let v := Z.pos n3 in
  let f := Z.pos (Pos.succ n3) in
  let p := Z.pos (Pos.succ (Pos.succ n3)) in
  result (UploadToGL e linearRGB width height outputBGRA exposure whitePoint)
    w = read_back e width height outputBGRA /\
  trace w' =
    trace w ++ target_calls c hdrTex fbo colorTex linearRGB width height
    ++ [E_glBindFramebuffer GL_FRAMEBUFFER fbo; E_glViewport 0 0 width height;
        E_current_path]
    ++ build_calls e (path_vert e) (path_frag e) n3
    ++ render_calls e p (quadVAO w) hdrTex colorTex fbo width height
         exposure whitePoint /\
  console w' = console w ++ build_lines e (path_vert e) (path_frag e) /\
  live w' =
    delete_from c (kind_eqb KProgram) p
      (delete_from c (kind_eqb KFramebuffer) fbo
         (delete_from c (kind_eqb KTexture) colorTex
            (delete_from c (kind_eqb KTexture) hdrTex
               (delete_from c is_shader f
                  (delete_from c is_shader v
                     ((c, KProgram, p) :: (c, KShader GL_FRAGMENT_SHADER, f)
                      :: (c, KShader GL_VERTEX_SHADER, v)
                      :: (c, KTexture, colorTex) :: (c, KFramebuffer, fbo)
                      :: (c, KTexture, hdrTex) :: live w)))))) /\
  gWindow w' = gWindow w /\ gGLReady w' = gGLReady w /\
  quadVAO w' = quadVAO w /\ quadVBO w' = quadVBO w /\
  current w' = c /\ windows w' = windows w /\
  next_window w' = next_window w /\ glfw_up w' = glfw_up w.
Proof.
  intros HR HQ Hfs. cbv zeta. unfold result, after.
  destruct e as [gi cw gl fs fc cwd comp lnk ul rend]; simpl in Hfs. subst fs.
  destruct w as [gw gr qa qb up ws nw cur nn lv src st att con tr].
  cbn [gGLReady quadVAO] in HR, HQ. subst gr. apply Z.eqb_neq in HQ.
  cbn [trace console live statuses current gWindow gGLReady quadVAO
       quadVBO windows next_window glfw_up next_name].
  unfold read_back.
  destruct (width <? 0) eqn:Hw; destruct (height <? 0) eqn:Hh;
  cbn [orb];
  match goal with
  | |- context [UploadToGL ?e ?a ?b ?c ?d ?x ?y ?w] =>
      eval_run_with (UploadToGL e a b c d x y w)
        ltac:(fun H => rewrite ?Hw, ?Hh, ?HQ in H)
  end;
  match goal with
  | |- context [Shader.Shader ?e ?a ?b ?W] =>
      pose proof (Shader_run e a b W) as HS;
      cbv zeta in HS; unfold result, after in HS;
      destruct (Shader.Shader e a b W) as [sh w4]
  end;
  cbn [fst snd trace console live statuses current gWindow gGLReady quadVAO
       quadVBO windows next_window glfw_up next_name] in HS;
  destruct w4 as [gw4 gr4 qa4 qb4 up4 ws4 nw4 cur4 nn4 lv4 src4 st4 att4 con4
                  tr4];
  cbn [fst snd trace console live statuses current gWindow gGLReady quadVAO
       quadVBO windows next_window glfw_up next_name] in HS;
  destruct HS as (Hsh & Htr & Hcon & Hlive & Hst & Hgw & Hgr & Hqa & Hqb & Hcur
                  & Hws & Hnw & Hup & Hnn);
  subst;
  cbn [fst snd trace console live statuses current gWindow gGLReady quadVAO
       quadVBO windows next_window glfw_up next_name Shader.ID];
  unfold target_calls, build_calls, render_calls, delete_from, path_vert,
    path_frag;
  cbn [cwd_ancestor4 uniform_location];
  repeat rewrite <- app_assoc; cbn [app];
  repeat split; reflexivity.
Qed.

(** * Deleting objects, printing diagnostics *)

Lemma names_obj_self (c : handle) (is_kind : ObjKind -> bool) (k : ObjKind)
  (n : handle) :
  is_kind k = true -> names_obj c is_kind n (c, k, n) = true.
Proof.
  intros H. unfold names_obj. now rewrite !Z.eqb_refl, H.
Qed.

Lemma deleted_not_in (c : handle) (is_kind : ObjKind -> bool) (k : ObjKind)
  (n : handle) (l : list GLObj) :
  is_kind k = true ->
  ~ In (c, k, n) (filter (fun o => negb (names_obj c is_kind n o)) l).
Proof.
  intros H Hin. apply filter_In in Hin. destruct Hin as [_ Hf].
  rewrite (names_obj_self c is_kind k n H) in Hf. discriminate Hf.
Qed.

Lemma filter_not_in {A : Type} (f : A -> bool) (x : A) (l : list A) :
  ~ In x l -> ~ In x (filter f l).
Proof.
  intros H Hin. apply filter_In in Hin. tauto.
Qed.

Lemma length_substring_1023 (s : string) :
  (String.length (substring 0 1023 s) <= 1023)%nat.
Proof. apply substring_length_le. Qed.

Lemma In_diagnostic_lines (label log : string) (r : bool * string) :
  r = (false, log) ->
  In (std_cout, diagnostic label (substring 0 1023 log))
    (diagnostic_lines label r).
Proof. intros ->. now left. Qed.

Lemma build_lines_report (e : Env) (vertexFile fragmentFile label log : string) :
  stage_fails e vertexFile fragmentFile label log ->
  In (std_cout, diagnostic label (substring 0 1023 log))
    (build_lines e vertexFile fragmentFile).
Proof.
  intros H. unfold build_lines.
  destruct H as [log H|log H|log H]; rewrite !in_app_iff.
  - right; right; left. now apply In_diagnostic_lines.
  - right; right; right; left. now apply In_diagnostic_lines.
  - right; right; right; right. now apply In_diagnostic_lines.
Qed.

Lemma build_lines_cout (e : Env) (vertexFile fragmentFile : string)
  (c : Channel) (text : string) :
  In (c, text) (build_lines e vertexFile fragmentFile) -> c = std_cout.
Proof.
  unfold build_lines, missing_file_lines, diagnostic_lines.
  rewrite !in_app_iff.
  destruct (file_contents e vertexFile), (file_contents e fragmentFile),
    (fst (glsl_compile e GL_VERTEX_SHADER _)),
    (fst (glsl_compile e GL_FRAGMENT_SHADER _)),
    (fst (glsl_link e _)); simpl; intuition congruence.
Qed.

(** * What every run keeps *)

Lemma quad_kept_refl w : quad_kept w w.
Proof. intros H. split; [reflexivity|]. split; [apply adds_refl|auto]. Qed.

Lemma quad_kept_trans a b c : quad_kept a b -> quad_kept b c -> quad_kept a c.
Proof.
  intros H1 H2 Ha. destruct (H1 Ha) as (Q1 & A1 & L1).
  assert (Hb : quadVAO b <> 0) by now rewrite Q1.
  destruct (H2 Hb) as (Q2 & A2 & L2).
  split; [now rewrite Q2|]. split; [eapply adds_trans; eauto|].
  intros o Ho Hin. auto.
Qed.

Ltac live_leaf :=
  let o := fresh "o" in let Ho := fresh "Ho" in let Hin := fresh "Hin" in
  intros o Ho Hin;
  first
    [ exact Hin
    | destruct Hin as [Hin|Hin]; [subst o; discriminate Ho | exact Hin]
    | apply filter_In in Hin; destruct Hin as [Hin _];
      first [ exact Hin | apply filter_In in Hin; tauto ]
    | contradiction ].

Ltac world_cases :=
  unfold_setters;
  try match goal with
      | |- context [match ?c with Some _ => _ | None => _ end] => destruct c
      end;
  cbn [gWindow gGLReady quadVAO quadVBO glfw_up windows next_window current
       next_name live sources statuses attached console trace].

Ltac quad_kept_goal :=
  split; [reflexivity|];
  split;
  [ unfold adds; cbn [trace];
    first [ eexists; split; [reflexivity|reflexivity]
          | exists []; split; [now rewrite app_nil_r | reflexivity] ]
  | live_leaf ].

Ltac quad_kept_leaf :=
  let w := fresh "w" in let Hq := fresh "Hq" in
  intros w Hq; world_cases; quad_kept_goal.

Ltac unfold_driver :=
  unfold Shader.Shader, Shader.Activate, Shader.Delete, Shader.compileErrors,
    get_file_contents, current_path_ancestor4,
    glfwInit, glfwWindowHint, glfwCreateWindow, glfwMakeContextCurrent,
    gladLoadGLLoader, glfwDestroyWindow, glfwTerminate,
    glGenVertexArrays, glGenBuffers, glGenTextures, glGenFramebuffers,
    glDeleteTextures, glDeleteFramebuffers, glDeleteShader, glDeleteProgram,
    glBindVertexArray, glBindBuffer, glBufferData, glEnableVertexAttribArray,
    glVertexAttribPointer, glBindTexture, glTexImage2D, glTexParameteri,
    glBindFramebuffer, glFramebufferTexture2D, glCheckFramebufferStatus,
    glViewport, glGetUniformLocation, glUniform1i, glUniform1f,
    glActiveTexture, glDrawArrays, glReadPixels,
    glCreateShader, glShaderSource, glCompileShader, glGetShaderiv,
    glGetShaderInfoLog, glCreateProgram, glAttachShader, glLinkProgram,
    glGetProgramiv, glGetProgramInfoLog, glUseProgram,
    gl_gen, gl_delete, call, cout.

Ltac preserves_walk_known Rrefl Rtrans leaf known :=
  repeat first
    [ known
    | apply (preserves_bind _ Rtrans); [ | intro; cbv beta ]
    | apply (preserves_ret _ Rrefl)
    | apply (preserves_read _ Rrefl)
    | apply preserves_modify; leaf
    | match goal with
      | |- preserves _ (if ?c then _ else _) => destruct c
      | |- preserves _ (match ?c with _ => _ end) => destruct c
      end ].

Lemma InitFullscreenQuad_quad_kept : preserves quad_kept InitFullscreenQuad.
Proof.
  intros w Hq. unfold after. rewrite (InitFullscreenQuad_guard w Hq).
  cbn [snd]. now apply quad_kept_refl.
Qed.

Lemma InitGLFW_quad_kept e : preserves quad_kept (InitGLFW e).
Proof.
  unfold InitGLFW. unfold_driver.
  preserves_walk quad_kept_refl quad_kept_trans quad_kept_leaf.
Qed.

Lemma CleanupGLFW_quad_kept : preserves quad_kept CleanupGLFW.
Proof.
  unfold CleanupGLFW. unfold_driver.
  preserves_walk quad_kept_refl quad_kept_trans quad_kept_leaf.
Qed.

Lemma UploadToGL_quad_kept e rgb width height out ex wp :
  preserves quad_kept (UploadToGL e rgb width height out ex wp).
Proof.
  unfold UploadToGL. unfold_driver.
  preserves_walk_known quad_kept_refl quad_kept_trans quad_kept_leaf
    ltac:(first [apply InitFullscreenQuad_quad_kept | apply InitGLFW_quad_kept]).
Qed.

Lemma stays_ready_refl w : stays_ready w w.
Proof. intros H; exact H. Qed.

Lemma stays_ready_trans a b c :
  stays_ready a b -> stays_ready b c -> stays_ready a c.
Proof. unfold stays_ready. auto. Qed.

Ltac stays_ready_leaf :=
  let w := fresh "w" in let H := fresh "H" in
  intros w H; world_cases; first [exact H | reflexivity].

Lemma UploadToGL_stays_ready e rgb width height out ex wp :
  preserves stays_ready (UploadToGL e rgb width height out ex wp).
Proof.
  unfold UploadToGL, InitGLFW, InitFullscreenQuad. unfold_driver.
  preserves_walk stays_ready_refl stays_ready_trans stays_ready_leaf.
Qed.

Lemma same_objects_refl w : same_objects w w.
Proof. repeat split. Qed.

Lemma same_objects_trans a b c :
  same_objects a b -> same_objects b c -> same_objects a c.
Proof.
  intros (A1 & A2 & A3 & A4 & A5) (B1 & B2 & B3 & B4 & B5).
  repeat split; congruence.
Qed.

Ltac same_objects_leaf :=
  let w := fresh "w" in
  intros w; world_cases; repeat split; reflexivity.

Lemma InitGLFW_same_objects e : preserves same_objects (InitGLFW e).
Proof.
  unfold InitGLFW. unfold_driver.
  preserves_walk same_objects_refl same_objects_trans same_objects_leaf.
Qed.

Lemma InitGLFW_needs_context e w :
  objects_need_context w -> objects_need_context (after (InitGLFW e) w).
Proof.
  intros I R'. destruct (gGLReady w) eqn:R.
  - unfold after in *. rewrite (InitGLFW_ready e w R) in *. cbn [snd] in *.
    congruence.
  - destruct (InitGLFW_same_objects e w) as (L & _). rewrite L. now apply I.
Qed.

Lemma CleanupGLFW_needs_context w :
  objects_need_context w -> objects_need_context (after CleanupGLFW w).
Proof.
  intros I _. destruct (gGLReady w) eqn:R.
  - now destruct (CleanupGLFW_clears w) as (_ & _ & _ & H); destruct (H R).
  - unfold after. rewrite (CleanupGLFW_not_ready w R). now apply I.
Qed.

Lemma UploadToGL_needs_context e rgb width height out ex wp w :
  objects_need_context w ->
  objects_need_context (after (UploadToGL e rgb width height out ex wp) w).
Proof.
  intros I. destruct (result (InitGLFW e) w) eqn:HI.
  - intros R'. exfalso.
    unfold after in R'. rewrite (UploadToGL_prepared _ _ _ _ _ _ _ _ HI) in R'.
    pose proof (InitGLFW_true_ready e w HI) as R1.
    destruct (InitFullscreenQuad_nonzero (after (InitGLFW e) w)) as [_ R2].
    rewrite R1 in R2.
    pose proof (UploadToGL_stays_ready e rgb width height out ex wp _ R2) as R3.
    unfold after in R3 at 1. congruence.
  - unfold after. rewrite (UploadToGL_init_fails _ _ _ _ _ _ _ _ HI).
    cbn [snd]. now apply InitGLFW_needs_context.
Qed.

Lemma step_needs_context o w :
  objects_need_context w -> objects_need_context (step o w).
Proof.
  destruct o; simpl.
  - apply InitGLFW_needs_context.
  - apply UploadToGL_needs_context.
  - apply CleanupGLFW_needs_context.
Qed.

Lemma run_needs_context ops w :
  objects_need_context w -> objects_need_context (run ops w).
Proof.
  revert w. induction ops as [|o ops IH]; intros w I; simpl; auto.
  apply IH, step_needs_context, I.
Qed.

Lemma reachable_needs_context w : reachable w -> objects_need_context w.
Proof.
  intros [ops ->]. apply run_needs_context. intros _. reflexivity.
Qed.

Lemma step_quad_kept o w : quad_kept w (step o w).
Proof.
  destruct o; simpl.
  - apply InitGLFW_quad_kept.
  - apply UploadToGL_quad_kept.
  - apply CleanupGLFW_quad_kept.
Qed.

Lemma run_quad_kept ops w : quad_kept w (run ops w).
Proof.
  revert w. induction ops as [|o ops IH]; intros w; simpl.
  - apply quad_kept_refl.
  - eapply quad_kept_trans; [apply step_quad_kept | apply IH].
Qed.


















(** * Helper facts for the claims *)

Lemma UploadToGL_complete (e : Env) (linearRGB : list float)
  (width height : Z) (outputBGRA : list byte) (exposure whitePoint : float)
  (w : World) :
  result (InitGLFW e) w = true ->
  framebuffer_status e = GL_FRAMEBUFFER_COMPLETE ->
  let pass := UploadToGL e linearRGB width height outputBGRA exposure
                whitePoint in
  let w2 := after InitFullscreenQuad (after (InitGLFW e) w) in
  let w' := after pass w in
  let c := gWindow w2 in
  let n := next_name w2 in
  let hdrTex := Z.pos n in
  let fbo := Z.pos (Pos.succ n) in
  let colorTex := Z.pos (Pos.succ (Pos.succ n)) in
  let n3 := Pos.succ (Pos.succ (Pos.succ n)) in
  let v := Z.pos n3 in
  let f := Z.pos (Pos.succ n3) in
  let p := Z.pos (Pos.succ (Pos.succ n3)) in
  result pass w = read_back e width height outputBGRA /\
  trace w' =
    trace w2 ++ target_calls c hdrTex fbo colorTex linearRGB width height
    ++ [E_glBindFramebuffer GL_FRAMEBUFFER fbo; E_glViewport 0 0 width height;
        E_current_path]
    ++ build_calls e (path_vert e) (path_frag e) n3
    ++ render_calls e p (quadVAO w2) hdrTex colorTex fbo width height
         exposure whitePoint /\
  console w' = console w2 ++ build_lines e (path_vert e) (path_frag e) /\
  live w' =
    delete_from c (kind_eqb KProgram) p
      (delete_from c (kind_eqb KFramebuffer) fbo
         (delete_from c (kind_eqb KTexture) colorTex
            (delete_from c (kind_eqb KTexture) hdrTex
               (delete_from c is_shader f
                  (delete_from c is_shader v
                     ((c, KProgram, p) :: (c, KShader GL_FRAGMENT_SHADER, f)
                      :: (c, KShader GL_VERTEX_SHADER, v)
                      :: (c, KTexture, colorTex) :: (c, KFramebuffer, fbo)
                      :: (c, KTexture, hdrTex) :: live w2)))))) /\
  gWindow w' = gWindow w2 /\ gGLReady w' = true /\
  quadVAO w' = quadVAO w2 /\ quadVBO w' = quadVBO w2 /\
  current w' = c /\ windows w' = windows w2 /\
  next_window w' = next_window w2 /\ glfw_up w' = glfw_up w2.
Proof.
  intros HI Hfs. cbv zeta.
  pose proof (InitGLFW_true_ready e w HI) as R1.
  destruct (InitFullscreenQuad_nonzero (after (InitGLFW e) w)) as [Q2 R2].
  rewrite R1 in R2.
  assert (EA : after (UploadToGL e linearRGB width height outputBGRA exposure
                        whitePoint) w
               = after (UploadToGL e linearRGB width height outputBGRA
                          exposure whitePoint)
                   (after InitFullscreenQuad (after (InitGLFW e) w)))
    by (unfold after at 1 2;
        now rewrite (UploadToGL_prepared e linearRGB width height outputBGRA
                       exposure whitePoint w HI)).
  assert (ER : result (UploadToGL e linearRGB width height outputBGRA
                         exposure whitePoint) w
               = result (UploadToGL e linearRGB width height outputBGRA
                           exposure whitePoint)
                   (after InitFullscreenQuad (after (InitGLFW e) w)))
    by (unfold result at 1 2;
        now rewrite (UploadToGL_prepared e linearRGB width height outputBGRA
                       exposure whitePoint w HI)).
  rewrite EA, ER.
  pose proof (UploadToGL_ready_complete e linearRGB width height outputBGRA
                exposure whitePoint _ R2 Q2 Hfs) as H.
  cbv zeta in H. rewrite R2 in H. exact H.
Qed.

Lemma kept_by_delete (c : handle) (is_kind : ObjKind -> bool) (n : handle)
  (o : GLObj) (l : list GLObj) :
  is_kind (snd (fst o)) = false -> In o l -> In o (delete_from c is_kind n l).
Proof.
  intros K Hin. unfold delete_from. apply filter_In. split; [exact Hin|].
  destruct o as [[c' k'] n']. cbn [fst snd] in K. unfold names_obj.
  rewrite K. now rewrite andb_false_r.
Qed.

(** On the complete path the four per-call objects are gone at return and
    the quad objects and the context are still there. *)
Lemma UploadToGL_complete_releases (e : Env) (linearRGB : list float)
  (width height : Z) (outputBGRA : list byte) (exposure whitePoint : float)
  (w : World) :
  result (InitGLFW e) w = true ->
  framebuffer_status e = GL_FRAMEBUFFER_COMPLETE ->
  let w2 := after InitFullscreenQuad (after (InitGLFW e) w) in
  let w' := after (UploadToGL e linearRGB width height outputBGRA exposure
                     whitePoint) w in
  let c := current w' in
  let n := next_name w2 in
  ~ In (c, KTexture, Z.pos n) (live w') /\
  ~ In (c, KFramebuffer, Z.pos (Pos.succ n)) (live w') /\
  ~ In (c, KTexture, Z.pos (Pos.succ (Pos.succ n))) (live w') /\
  ~ In (c, KProgram,
        Z.pos (Pos.succ (Pos.succ (Pos.succ (Pos.succ (Pos.succ n))))))
       (live w') /\
  (forall o, is_quad_object o = true -> In o (live w2) -> In o (live w')) /\
  gGLReady w' = true /\ windows w' = windows w2 /\
  quadVAO w' = quadVAO w2.
Proof.
  intros HI Hfs. cbv zeta.
  destruct (UploadToGL_complete e linearRGB width height outputBGRA exposure
              whitePoint w HI Hfs)
    as (_ & _ & _ & HL & _ & HR & HQ & _ & HC & HW & _).
  cbv zeta in HL, HC, HQ, HW. rewrite HL, HC.
  split; [|split; [|split; [|split; [|split; [|split; [|split]]]]]];
    try assumption.
  - do 3 apply filter_not_in. now apply deleted_not_in.
  - do 1 apply filter_not_in. now apply deleted_not_in.
  - do 2 apply filter_not_in. now apply deleted_not_in.
  - now apply deleted_not_in.
  - intros o Ho Hin. unfold is_quad_object in Ho.
    repeat apply kept_by_delete;
      try (destruct o as [[c' k'] n']; cbn [fst snd] in *;
           destruct k'; try discriminate Ho; reflexivity).
    do 6 right. exact Hin.
Qed.

(** With the framebuffer reported incomplete, the input texture, the
    framebuffer and the render-target texture generated by the call are
    all still live when it returns. *)
Lemma UploadToGL_incomplete_leaks (e : Env) (linearRGB : list float)
  (width height : Z) (outputBGRA : list byte) (exposure whitePoint : float)
  (w : World) :
  result (InitGLFW e) w = true ->
  framebuffer_status e <> GL_FRAMEBUFFER_COMPLETE ->
  let w2 := after InitFullscreenQuad (after (InitGLFW e) w) in
  let w' := after (UploadToGL e linearRGB width height outputBGRA exposure
                     whitePoint) w in
  let c := gWindow w2 in
  let n := next_name w2 in
  trace w' =
    trace w2 ++ target_calls c (Z.pos n) (Z.pos (Pos.succ n))
                  (Z.pos (Pos.succ (Pos.succ n))) linearRGB width height /\
  live w' =
    (c, KTexture, Z.pos (Pos.succ (Pos.succ n)))
    :: (c, KFramebuffer, Z.pos (Pos.succ n))
    :: (c, KTexture, Z.pos n) :: live w2.
Proof.
  intros HI Hfs. cbv zeta.
  pose proof (InitGLFW_true_ready e w HI) as R1.
  destruct (InitFullscreenQuad_nonzero (after (InitGLFW e) w)) as [Q2 R2].
  rewrite R1 in R2.
  assert (EA : after (UploadToGL e linearRGB width height outputBGRA exposure
                        whitePoint) w
               = after (UploadToGL e linearRGB width height outputBGRA
                          exposure whitePoint)
                   (after InitFullscreenQuad (after (InitGLFW e) w)))
    by (unfold after at 1 2;
        now rewrite (UploadToGL_prepared e linearRGB width height outputBGRA
                       exposure whitePoint w HI)).
  rewrite EA. clear EA.
  generalize dependent (after InitFullscreenQuad (after (InitGLFW e) w)).
  intros w2 Q2 R2. clear HI R1.
  destruct e as [gi cw gl fs fc cwd comp lnk ul rend]; simpl in Hfs.
  destruct fs as [|code]; [congruence|].
  destruct w2 as [gw gr qa qb up ws nw cur nn lv src st att con tr].
  cbn [gGLReady quadVAO] in Q2, R2. subst gr. apply Z.eqb_neq in Q2.
  unfold after.
  match goal with
  | |- context [UploadToGL ?e ?a ?b ?c ?d ?x ?y ?w] =>
      eval_run_with (UploadToGL e a b c d x y w)
        ltac:(fun H => rewrite ?Q2 in H)
  end.
  cbn [trace live gWindow next_name]. unfold target_calls.
  repeat rewrite <- app_assoc; cbn [app]. split; reflexivity.
Qed.

Lemma In_render_calls (e : Env) (p vao hdrTex colorTex fbo : handle)
  (width height : Z) (exposure whitePoint : float) :
  let t := render_calls e p vao hdrTex colorTex fbo width height exposure
             whitePoint in
  In (E_glUseProgram p) t /\
  In (E_glDrawArrays GL_TRIANGLES 0 6) t /\
  In (E_glReadPixels 0 0 width height GL_BGRA GL_UNSIGNED_BYTE) t.
Proof.
  cbv zeta. unfold render_calls. cbn [In]. tauto.
Qed.

Lemma substring_prefix (n : nat) (s : string) :
  prefix (substring 0 n s) s = true.
Proof.
  revert s. induction n as [|n IH]; intros [|c s]; cbn; auto.
  destruct (ascii_dec c c) as [_|N]; [apply IH | now elim N].
Qed.

Lemma Shader_calls (e : Env) (vertexFile fragmentFile : string) (w : World) :
  calls_during (Shader.Shader e vertexFile fragmentFile) w
  = build_calls e vertexFile fragmentFile (next_name w).
Proof.
  destruct (Shader_run e vertexFile fragmentFile w) as (_ & Htr & _).
  unfold calls_during. apply calls_since_app. exact Htr.
Qed.

Lemma Shader_objects (e : Env) (vertexFile fragmentFile : string)
  (w : World) :
  let w' := after (Shader.Shader e vertexFile fragmentFile) w in
  let n := next_name w in
  ~ In (current w, KShader GL_VERTEX_SHADER, Z.pos n) (live w') /\
  ~ In (current w, KShader GL_FRAGMENT_SHADER, Z.pos (Pos.succ n)) (live w')
  /\ In (current w, KProgram, Z.pos (Pos.succ (Pos.succ n))) (live w').
Proof.
  cbv zeta.
  destruct (Shader_run e vertexFile fragmentFile w)
    as (_ & _ & _ & Hlive & _).
  cbv zeta in Hlive. rewrite Hlive.
  split; [|split].
  - apply filter_not_in. now apply deleted_not_in.
  - now apply deleted_not_in.
  - apply filter_In. split.
    + apply filter_In. split; [now left|].
      unfold names_obj. cbn [is_shader]. now rewrite Z.eqb_refl.
    + unfold names_obj. cbn [is_shader]. now rewrite Z.eqb_refl.
Qed.



Lemma quad_triangles_cover (pt : point) :
  in_ndc_square pt <->
  in_triangle (Qpt (-1) 1) (Qpt (-1) (-1)) (Qpt 1 (-1)) pt \/
  in_triangle (Qpt (-1) 1) (Qpt 1 (-1)) (Qpt 1 1) pt.
Proof.
  destruct pt as [x y].
  unfold in_ndc_square, in_triangle, edge, Qpt, inject_Z. cbn [fst snd].
  split.
  - intros (H1 & H2 & H3 & H4).
    destruct (Qlt_le_dec (x + y) 0) as [L|L]; [left|right]; repeat split; lra.
  - intros [(H1 & H2 & H3)|(H1 & H2 & H3)]; repeat split; lra.
Qed.


Lemma no_quad_setup_none (t : list Call) :
  forallb no_quad_setup t = true -> existsb is_quad_setup_call t = false.
Proof.
  induction t as [|c t IH]; simpl; auto.
  unfold no_quad_setup at 1.
  destruct (is_quad_setup_call c); simpl; auto; discriminate.
Qed.

Lemma CleanupGLFW_live_empty (w : World) :
  objects_need_context w -> live (after CleanupGLFW w) = [].
Proof.
  intros I. destruct (gGLReady w) eqn:R.
  - destruct (CleanupGLFW_clears w) as (_ & _ & _ & H). now destruct (H R).
  - unfold after. rewrite (CleanupGLFW_not_ready w R). now apply I.
Qed.


(** * The claims *)

(** C2, at the failing input.  The driver reports the framebuffer as
    unsupported: [UploadToGL] has generated the input texture 3, the
    framebuffer 4 and the render-target texture 5, issues no delete call
    and returns with all three still live. *)
Lemma UploadToGL_incomplete_framebuffer_leaks :
  let pass :=
    UploadToGL env_fb_incomplete [1%Q; 1%Q; 1%Q] 1 1 buffer6 1%Q 1%Q in
  result (InitGLFW env_fb_incomplete) initial_world = true /\
  filter is_gen_call (calls_during pass initial_world)
  = [E_glGenVertexArrays 1; E_glGenBuffers 2; E_glGenTextures 3;
     E_glGenFramebuffers 4; E_glGenTextures 5] /\
  filter is_delete_call (calls_during pass initial_world) = [] /\
  live (after pass initial_world)
  = [(1, KTexture, 5); (1, KFramebuffer, 4); (1, KTexture, 3);
     (1, KBuffer, 2); (1, KVertexArray, 1)].
Proof.
  cbv zeta. split; [reflexivity|]. split; [|split]; vm_compute; reflexivity.
Qed.

(** The same call on the complete path releases what it created and keeps
    the quad. *)
Lemma UploadToGL_complete_example_releases :
  let pass := UploadToGL env_ok [1%Q; 1%Q; 1%Q] 1 1 buffer6 1%Q 1%Q in
  filter is_delete_call (calls_during pass initial_world)
  = [E_glDeleteShader 6; E_glDeleteShader 7; E_glDeleteTextures 3;
     E_glDeleteTextures 5; E_glDeleteFramebuffers 4; E_glDeleteProgram 8] /\
  live (after pass initial_world) = [(1, KBuffer, 2); (1, KVertexArray, 1)].
Proof.
  cbv zeta. split; vm_compute; reflexivity.
Qed.

(** C3, as amended.  When a call of [InitGLFW] answers true, the next call
    answers true, makes no driver call and leaves the world as it is, so
    that the two calls together equal the first alone. *)
Theorem InitGLFW_idempotent_after_success (e e' : Env) (w : World) :
  result (InitGLFW e) w = true ->
  InitGLFW e' (after (InitGLFW e) w) = (true, after (InitGLFW e) w) /\
  (InitGLFW e ;; InitGLFW e')%hdr w = InitGLFW e w /\
  calls_during (InitGLFW e') (after (InitGLFW e) w) = [].
Proof.
  intros H.
  assert (E : InitGLFW e' (after (InitGLFW e) w)
              = (true, after (InitGLFW e) w))
    by (apply InitGLFW_ready, InitGLFW_true_ready, H).
  split; [exact E|]. split.
  - rewrite bind_run. cbv beta. rewrite E. unfold result, after in *.
    destruct (InitGLFW e w) as [r w1]. simpl in *. now subst.
  - unfold calls_during.
    assert (E2 : after (InitGLFW e') (after (InitGLFW e) w)
                 = after (InitGLFW e) w)
      by (unfold after at 1; rewrite E; reflexivity).
    rewrite E2. apply calls_since_refl.
Qed.

Lemma InitGLFW_idempotent_after_success_witness :
  result (InitGLFW env_ok) initial_world = true /\
  (InitGLFW env_ok ;; InitGLFW env_glad_fails)%hdr initial_world
  = InitGLFW env_ok initial_world.
Proof.
  split; [reflexivity|].
  apply (InitGLFW_idempotent_after_success env_ok env_glad_fails
           initial_world).
  reflexivity.
Defined.

(** C3, counterexample.  When the entry points cannot be loaded, one call
    leaves one hidden window behind and two calls leave two: calling
    twice is not the same as calling once. *)
Lemma InitGLFW_twice_differs_after_failure :
  windows (after (InitGLFW env_glad_fails) initial_world) = [1] /\
  windows (after (InitGLFW env_glad_fails ;; InitGLFW env_glad_fails)%hdr
             initial_world) = [2; 1] /\
  (InitGLFW env_glad_fails ;; InitGLFW env_glad_fails)%hdr initial_world
  <> InitGLFW env_glad_fails initial_world.
Proof.
  split; [reflexivity|]. split; [reflexivity|].
  intros H. apply (f_equal (fun r => windows (snd r))) in H.
  vm_compute in H. discriminate H.
Qed.

(** C4, as amended.  When a stage fails to compile or the program fails
    to link, the builder prints on [std::cout] a line labelled with the
    stage name that shows a prefix of the engine's log of at most 1023
    characters; it prints nothing on [std::cerr]; it still returns the
    program it created, and [UploadToGL] goes on to activate it, draw and
    read the pixels back: the call that follows the build is
    [glUseProgram] on the very program the builder returns there. *)
Theorem compile_errors_go_to_cout (e : Env)
  (vertexFile fragmentFile label log : string) (w : World) :
  stage_fails e vertexFile fragmentFile label log ->
  let build := Shader.Shader e vertexFile fragmentFile in
  let w' := after build w in
  let shown := substring 0 1023 log in
  let p := Z.pos (Pos.succ (Pos.succ (next_name w))) in
  In (std_cout, diagnostic label shown) (console w') /\
  (String.length shown <= 1023)%nat /\ prefix shown log = true /\
  (forall text,
     In (std_cerr, text) (console w') -> In (std_cerr, text) (console w)) /\
  result build w = Shader.mk p /\
  In (E_glCreateProgram p) (calls_during build w) /\
  In (current w, KProgram, p) (live w') /\
  (forall linearRGB width height outputBGRA exposure whitePoint w0,
     vertexFile = path_vert e -> fragmentFile = path_frag e ->
     result (InitGLFW e) w0 = true ->
     framebuffer_status e = GL_FRAMEBUFFER_COMPLETE ->
     let pass := UploadToGL e linearRGB width height outputBGRA exposure
                   whitePoint in
     let w2 := after InitFullscreenQuad (after (InitGLFW e) w0) in
     let n3 := Pos.succ (Pos.succ (Pos.succ (next_name w2))) in
     let q := Z.pos (Pos.succ (Pos.succ n3)) in
     In (std_cout, diagnostic label shown) (console (after pass w0)) /\
     (forall wb, next_name wb = n3 ->
        result (Shader.Shader e vertexFile fragmentFile) wb = Shader.mk q) /\
     (exists before rest,
        calls_during pass w0
        = before ++ build_calls e vertexFile fragmentFile n3
          ++ E_glUseProgram q :: rest) /\
     In (E_glUseProgram q) (calls_during pass w0) /\
     In (E_glDrawArrays GL_TRIANGLES 0 6) (calls_during pass w0) /\
     In (E_glReadPixels 0 0 width height GL_BGRA GL_UNSIGNED_BYTE)
        (calls_during pass w0) /\
     result pass w0 = read_back e width height outputBGRA).
Proof.
  intros F. cbv zeta.
  pose proof (build_lines_report e vertexFile fragmentFile label log F) as HB.
  pose proof (Shader_calls e vertexFile fragmentFile w) as Hcalls.
  destruct (Shader_objects e vertexFile fragmentFile w) as (_ & _ & Hlive).
  destruct (Shader_run e vertexFile fragmentFile w) as (Hres & _ & Hcon & _).
  cbv zeta in Hres, Hlive, Hcon.
  split; [rewrite Hcon, in_app_iff; now right|].
  split; [apply substring_length_le|].
  split; [apply substring_prefix|].
  split.
  { intros text Hin. rewrite Hcon, in_app_iff in Hin.
    destruct Hin as [Hin|Hin]; [exact Hin|].
    apply build_lines_cout in Hin. discriminate Hin. }
  split; [exact Hres|].
  split.
  { rewrite Hcalls. unfold build_calls. rewrite !in_app_iff. cbn [In].
    tauto. }
  split; [exact Hlive|].
  intros linearRGB width height outputBGRA exposure whitePoint w0 -> -> HI Hfs.
  cbv zeta.
  destruct (UploadToGL_complete e linearRGB width height outputBGRA exposure
              whitePoint w0 HI Hfs) as (Hr & Ht & Hc & _).
  cbv zeta in Hr, Ht, Hc.
  pose proof (InitGLFW_extends e w0) as X1.
  pose proof (InitFullscreenQuad_extends (after (InitGLFW e) w0)) as X2.
  pose proof (extends_trans _ _ _ X1 X2) as X12.
  rewrite (extends_calls_since _ _ X12) in Ht.
  rewrite <- app_assoc in Ht.
  unfold calls_during.
  rewrite (calls_since_app _ _ _ Ht).
  match type of Ht with
  | context [render_calls ?e ?p ?vao ?a ?b ?c ?d ?x ?y ?z] =>
      destruct (In_render_calls e p vao a b c d x y z) as (U1 & U2 & U3)
  end.
  cbv zeta in U1, U2, U3.
  split; [rewrite Hc, in_app_iff; now right|].
  split.
  { intros wb Hwb.
    destruct (Shader_run e (path_vert e) (path_frag e) wb) as (Hq & _).
    cbv zeta in Hq. rewrite Hq, Hwb. reflexivity. }
  split.
  { match goal with
    | |- exists b r, ?A ++ ?B ++ ?C ++ ?D ++ ?R = _ =>
        exists (A ++ B ++ C), (tl R)
    end.
    unfold render_calls. cbn [tl]. rewrite <- !app_assoc. reflexivity. }
  split; [rewrite !in_app_iff; do 4 right; exact U1|].
  split; [rewrite !in_app_iff; do 4 right; exact U2|].
  split; [rewrite !in_app_iff; do 4 right; exact U3|].
  exact Hr.
Qed.

Lemma compile_errors_go_to_cout_witness :
  In (std_cout,
      diagnostic "VERTEX" (substring 0 1023 "0(1) : error: no main"))
     (console (after (Shader.Shader env_no_files "a.vert" "a.frag")
                 initial_world)).
Proof.
  pose proof (compile_errors_go_to_cout env_no_files "a.vert" "a.frag"
                "VERTEX" "0(1) : error: no main" initial_world
                (vertex_fails env_no_files "a.vert" "a.frag"
                   "0(1) : error: no main" eq_refl)) as H.
  cbv zeta in H. exact (proj1 H).
Defined.

(** C4, counterexample.  The vertex stage fails to compile and nothing at
    all is written to the standard error channel. *)
Lemma compile_error_not_on_cerr :
  stage_fails env_no_files "a.vert" "a.frag" "VERTEX" "0(1) : error: no main"
  /\ ~ (exists text,
          In (std_cerr, text)
             (console (after (Shader.Shader env_no_files "a.vert" "a.frag")
                         initial_world))).
Proof.
  split; [apply vertex_fails; reflexivity|].
  intros [text Hin].
  destruct (Shader_run env_no_files "a.vert" "a.frag" initial_world)
    as (_ & _ & Hcon & _).
  cbv zeta in Hcon. rewrite Hcon in Hin. cbn [console initial_world app] in Hin.
  apply build_lines_cout in Hin. discriminate Hin.
Qed.

(** C5.  The constructor opens the two files, creates, sources and
    compiles the vertex shader and checks it, does the same for the
    fragment shader, creates the program, attaches both shaders, links
    and checks, then deletes the two shader objects: in this order,
    whatever the outcome of the link, hence also after a successful one.
    The linker is given exactly the two stages. *)
Theorem Shader_build_order (e : Env) (vertexFile fragmentFile : string)
  (w : World) :
  let v := Z.pos (next_name w) in
  let f := Z.pos (Pos.succ (next_name w)) in
  let p := Z.pos (Pos.succ (Pos.succ (next_name w))) in
  let vsrc := loaded e vertexFile in
  let fsrc := loaded e fragmentFile in
  let vok := fst (glsl_compile e GL_VERTEX_SHADER vsrc) in
  let fok := fst (glsl_compile e GL_FRAGMENT_SHADER fsrc) in
  let linked := glsl_link e [(GL_VERTEX_SHADER, vsrc, vok);
                             (GL_FRAGMENT_SHADER, fsrc, fok)] in
  let w' := after (Shader.Shader e vertexFile fragmentFile) w in
  calls_during (Shader.Shader e vertexFile fragmentFile) w =
    [E_ifstream_open vertexFile; E_ifstream_open fragmentFile;
     E_glCreateShader GL_VERTEX_SHADER v; E_glShaderSource v vsrc;
     E_glCompileShader v] ++ shader_check_calls v vok ++
    [E_glCreateShader GL_FRAGMENT_SHADER f; E_glShaderSource f fsrc;
     E_glCompileShader f] ++ shader_check_calls f fok ++
    [E_glCreateProgram p; E_glAttachShader p v; E_glAttachShader p f;
     E_glLinkProgram p] ++ program_check_calls p (fst linked) ++
    [E_glDeleteShader v; E_glDeleteShader f] /\
  lookup p (statuses w') = Some linked /\
  result (Shader.Shader e vertexFile fragmentFile) w = Shader.mk p /\
  ~ In (current w, KShader GL_VERTEX_SHADER, v) (live w') /\
  ~ In (current w, KShader GL_FRAGMENT_SHADER, f) (live w') /\
  In (current w, KProgram, p) (live w').
Proof.
  cbv zeta.
  destruct (Shader_run e vertexFile fragmentFile w)
    as (Hres & Htr & _ & Hlive & Hst & _).
  split; [|split; [|split; [|split; [|split]]]].
  - unfold calls_during. apply calls_since_app. exact Htr.
  - rewrite Hst. cbn [lookup]. rewrite Z.eqb_refl. reflexivity.
  - exact Hres.
  - rewrite Hlive. apply filter_not_in. now apply deleted_not_in.
  - rewrite Hlive. now apply deleted_not_in.
  - rewrite Hlive. apply filter_In. split.
    + apply filter_In. split; [now left|].
      unfold names_obj. cbn [is_shader]. now rewrite Z.eqb_refl.
    + unfold names_obj. cbn [is_shader]. now rewrite Z.eqb_refl.
Qed.

(** C6.  [InitFullscreenQuad] does nothing once the handle is non-zero,
    so a second call changes nothing.  Its first effective call uploads
    24 floats, that is 6 vertices of 4 floats, with attribute 0 reading
    2 floats at offset 0 and attribute 1 reading 2 floats at offset
    2 floats, both with a stride of 4 floats.  The positions form two
    counter-clockwise triangles whose union is the square [-1,1]^2. *)
Theorem InitFullscreenQuad_geometry (w : World) :
  (quadVAO w <> 0 -> InitFullscreenQuad w = (tt, w)) /\
  after (InitFullscreenQuad ;; InitFullscreenQuad)%hdr w
  = after InitFullscreenQuad w /\
  (quadVAO w = 0 ->
   let vao := Z.pos (next_name w) in
   let vbo := Z.pos (Pos.succ (next_name w)) in
   quadVAO (after InitFullscreenQuad w) = vao /\
   quadVBO (after InitFullscreenQuad w) = vbo /\
   calls_during InitFullscreenQuad w =
     [ E_glGenVertexArrays vao; E_glGenBuffers vbo;
       E_glBindVertexArray vao; E_glBindBuffer GL_ARRAY_BUFFER vbo;
       E_glBufferData GL_ARRAY_BUFFER (6 * (4 * sizeof_float)) quadVertices
         GL_STATIC_DRAW;
       E_glEnableVertexAttribArray 0;
       E_glVertexAttribPointer 0 2 GL_FLOAT false (4 * sizeof_float) 0;
       E_glEnableVertexAttribArray 1;
       E_glVertexAttribPointer 1 2 GL_FLOAT false (4 * sizeof_float)
         (2 * sizeof_float);
       E_glBindVertexArray 0 ]) /\
  List.length quadVertices = (6 * 4)%nat /\
  map (fetch_attribute 2 (4 * sizeof_float) 0 quadVertices) [0; 1; 2; 3; 4; 5]
  = map (map float_of_int)
      [[-1; 1]; [-1; -1]; [1; -1]; [-1; 1]; [1; -1]; [1; 1]] /\
  map (fetch_attribute 2 (4 * sizeof_float) (2 * sizeof_float) quadVertices)
    [0; 1; 2; 3; 4; 5]
  = map (map float_of_int) [[0; 1]; [0; 0]; [1; 0]; [0; 1]; [1; 0]; [1; 1]] /\
  counter_clockwise (Qpt (-1) 1) (Qpt (-1) (-1)) (Qpt 1 (-1)) /\
  counter_clockwise (Qpt (-1) 1) (Qpt 1 (-1)) (Qpt 1 1) /\
  (forall pt,
     in_ndc_square pt <->
     in_triangle (Qpt (-1) 1) (Qpt (-1) (-1)) (Qpt 1 (-1)) pt \/
     in_triangle (Qpt (-1) 1) (Qpt 1 (-1)) (Qpt 1 1) pt).
Proof.
  split; [apply InitFullscreenQuad_guard|].
  split.
  { unfold after at 1. rewrite bind_run. cbv beta.
    destruct (InitFullscreenQuad_nonzero w) as [Q _].
    rewrite (InitFullscreenQuad_guard _ Q). reflexivity. }
  split.
  { intros H0. cbv zeta.
    destruct (InitFullscreenQuad_first w H0) as (Ha & Hb & Ht & _).
    cbv zeta in Ha, Hb, Ht.
    split; [exact Ha|]. split; [exact Hb|].
    unfold calls_during. apply calls_since_app. exact Ht. }
  split; [reflexivity|].
  split; [reflexivity|].
  split; [reflexivity|].
  split; [reflexivity|].
  split; [reflexivity|].
  apply quad_triangles_cover.
Qed.

Lemma InitFullscreenQuad_geometry_witness :
  quadVAO (after InitFullscreenQuad initial_world) = 1 /\
  (in_triangle (Qpt (-1) 1) (Qpt (-1) (-1)) (Qpt 1 (-1)) (Qpt 1 0) \/
   in_triangle (Qpt (-1) 1) (Qpt 1 (-1)) (Qpt 1 1) (Qpt 1 0)).
Proof.
  destruct (InitFullscreenQuad_geometry initial_world)
    as (_ & _ & H & _ & _ & _ & _ & _ & C).
  split.
  - exact (proj1 (H eq_refl)).
  - apply (proj1 (C (Qpt 1 0))).
    unfold in_ndc_square, Qpt, inject_Z. cbn [fst snd].
    repeat split; discriminate.
Defined.




(** C8.  [CleanupGLFW] does nothing on a library that was never
    initialised, or whenever the context is not ready, so a second call
    in a row changes nothing.  After a cleanup [InitGLFW] does not return
    early: it starts with [glfwInit] and, when the driver cooperates,
    runs the whole sequence and creates a new window. *)
Theorem CleanupGLFW_repeatable_then_full_init (e : Env) (w : World) :
  CleanupGLFW initial_world = (tt, initial_world) /\
  (gGLReady w = false -> CleanupGLFW w = (tt, w)) /\
  (CleanupGLFW ;; CleanupGLFW)%hdr w = CleanupGLFW w /\
  (exists t, calls_during (InitGLFW e) (after CleanupGLFW w)
             = E_glfwInit :: t) /\
  (glfwInit_result e = true -> glfwCreateWindow_ok e = true ->
   gladLoadGLLoader_result e = true ->
   let w1 := after CleanupGLFW w in
   let W := Z.pos (next_window w) in
   result (InitGLFW e) w1 = true /\
   calls_during (InitGLFW e) w1 = full_init_calls W /\
   gGLReady (after (InitGLFW e) w1) = true /\
   gWindow (after (InitGLFW e) w1) = W /\
   current (after (InitGLFW e) w1) = W /\
   In W (windows (after (InitGLFW e) w1))).
Proof.
  destruct (CleanupGLFW_clears w) as (R1 & N1 & _ & _).
  cbv zeta in R1, N1.
  split; [reflexivity|].
  split; [apply CleanupGLFW_not_ready|].
  split.
  - rewrite bind_run. cbv beta.
    rewrite (CleanupGLFW_not_ready _ R1). unfold after.
    destruct (CleanupGLFW w) as [[] w1]. reflexivity.
  - split; [apply InitGLFW_starts, R1|].
    intros Hi Hc Hg. cbv zeta.
    destruct (InitGLFW_full e (after CleanupGLFW w) R1 (or_intror Hi) Hc Hg)
      as (Hr & Ht & Hrd & Hw & Hcur & Hws & _).
    cbv zeta in Ht, Hw, Hcur, Hws. rewrite N1 in *.
    repeat split; auto.
    + unfold calls_during. now apply calls_since_app.
    + rewrite Hws. now left.
Qed.

Lemma CleanupGLFW_repeatable_then_full_init_witness :
  let w := after (InitGLFW env_ok) initial_world in
  gGLReady (after (InitGLFW env_ok) (after CleanupGLFW w)) = true /\
  calls_during (InitGLFW env_ok) (after CleanupGLFW w) = full_init_calls 2.
Proof.
  cbv zeta.
  destruct (CleanupGLFW_repeatable_then_full_init env_ok
              (after (InitGLFW env_ok) initial_world))
    as (_ & _ & _ & _ & H).
  destruct (H eq_refl eq_refl eq_refl) as (_ & Hc & Hr & _).
  split; [exact Hr | exact Hc].
Defined.

(** C9.  In every state a client can reach, once [quadVAO] is non-zero no
    sequence of calls changes it.  In the sequence [CleanupGLFW],
    [InitGLFW], [UploadToGL] every object of the earlier context is gone
    after the cleanup, none of the calls that build the quad is made
    again, the draw binds the old handle, and no vertex array object
    exists in the new context. *)
Theorem quad_handle_never_reset (w : World) :
  reachable w -> quadVAO w <> 0 ->
  (forall ops, quadVAO (run ops w) = quadVAO w) /\
  (forall e1 e2 linearRGB width height outputBGRA exposure whitePoint,
     let w1 := after CleanupGLFW w in
     let w2 := after (InitGLFW e1) w1 in
     let pass := UploadToGL e2 linearRGB width height outputBGRA exposure
                   whitePoint in
     let w3 := after pass w2 in
     result (InitGLFW e1) w1 = true ->
     framebuffer_status e2 = GL_FRAMEBUFFER_COMPLETE ->
     live w1 = [] /\
     quadVAO w3 = quadVAO w /\
     existsb is_quad_setup_call (calls_since w w3) = false /\
     (exists before hdrTex rest,
        calls_during pass w2 =
          before ++
          [E_glBindVertexArray (quadVAO w); E_glActiveTexture GL_TEXTURE0;
           E_glBindTexture GL_TEXTURE_2D hdrTex;
           E_glDrawArrays GL_TRIANGLES 0 6] ++ rest) /\
     (forall o, is_vertex_array o = true -> ~ In o (live w3))).
Proof.
  intros Hreach Hq.
  split; [intros ops; exact (proj1 (run_quad_kept ops w Hq))|].
  intros e1 e2 linearRGB width height outputBGRA exposure whitePoint.
  cbv zeta. intros HI Hfs.
  set (w1 := after CleanupGLFW w).
  set (w2 := after (InitGLFW e1) w1).
  set (pass := UploadToGL e2 linearRGB width height outputBGRA exposure
                 whitePoint).
  set (w3 := after pass w2).
  assert (K1 : quad_kept w w1) by apply CleanupGLFW_quad_kept.
  assert (K2 : quad_kept w1 w2) by apply InitGLFW_quad_kept.
  assert (K3 : quad_kept w2 w3) by apply UploadToGL_quad_kept.
  destruct (K1 Hq) as (Q1 & _ & _).
  assert (Hq1 : quadVAO w1 <> 0) by now rewrite Q1.
  pose proof (quad_kept_trans _ _ _ K2 K3) as K23.
  pose proof (quad_kept_trans _ _ _ K1 K23) as K123.
  destruct (K23 Hq1) as (Q13 & _ & L13).
  destruct (K123 Hq) as (Q3 & A3 & _).
  destruct (K2 Hq1) as (Q12 & _ & _).
  assert (L1 : live w1 = [])
    by (apply CleanupGLFW_live_empty, reachable_needs_context, Hreach).
  split; [exact L1|]. split; [exact Q3|].
  split; [apply no_quad_setup_none, adds_calls_since, A3|].
  split.
  - assert (R2 : gGLReady w2 = true) by (apply InitGLFW_true_ready, HI).
    assert (Hq2 : quadVAO w2 <> 0) by (rewrite Q12; exact Hq1).
    destruct (UploadToGL_ready_complete e2 linearRGB width height outputBGRA
                exposure whitePoint w2 R2 Hq2 Hfs) as (_ & Ht & _).
    cbv zeta in Ht. fold pass in Ht. fold w3 in Ht.
    unfold calls_during. fold w3.
    rewrite (calls_since_app _ _ _ Ht).
    rewrite Q12, Q1.
    match goal with
    | |- exists b h r,
           ?A ++ ?B ++ ?C ++ render_calls ?e ?p ?vao ?h0 ?ct ?fb ?wd ?ht ?ex
                               ?wp = _ =>
        exists (A ++ B ++ C
                ++ firstn 9 (render_calls e p vao h0 ct fb wd ht ex wp)),
          h0, (skipn 13 (render_calls e p vao h0 ct fb wd ht ex wp))
    end.
    unfold render_calls. cbn [firstn skipn].
    rewrite <- !app_assoc. cbn [app]. reflexivity.
  - intros o Ho Hin. apply (L13 o Ho) in Hin. rewrite L1 in Hin. exact Hin.
Qed.

Lemma quad_handle_never_reset_witness :
  reachable world_after_one_pass /\
  quadVAO world_after_one_pass <> 0 /\
  quadVAO
    (run [Op_CleanupGLFW; Op_InitGLFW env_ok;
          Op_UploadToGL env_ok [1%Q; 1%Q; 1%Q] 1 1 buffer6 1%Q 1%Q]
       world_after_one_pass)
  = quadVAO world_after_one_pass.
Proof.
  assert (R : reachable world_after_one_pass)
    by (eexists; reflexivity).
  assert (Q : quadVAO world_after_one_pass <> 0)
    by (intros H; vm_compute in H; discriminate H).
  split; [exact R|]. split; [exact Q|].
  exact (proj1 (quad_handle_never_reset world_after_one_pass R Q) _).
Defined.




(** * InitGLFW and CleanupGLFW, their other cases *)

(** X1.  The answer of [InitGLFW] is the readiness flag it leaves behind:
    true exactly when the context is ready afterwards. *)
Theorem InitGLFW_result_is_readiness (e : Env) (w : World) :
  result (InitGLFW e) w = gGLReady (after (InitGLFW e) w).
Proof.
  destruct w as [gw gr qa qb up ws nw cur nn lv src st att con tr].
  destruct e as [gi cw gl fs fc cwd comp lnk ul rend].
  unfold result, after.
  destruct gr, up, gi, cw, gl;
    match goal with
    | |- context [InitGLFW ?e ?w] => eval_run (InitGLFW e w)
    end; reflexivity.
Qed.

(** X2.  When GLFW is down and [glfwInit] fails, [InitGLFW] answers false
    after that single call; no hint is set, no window is asked for and
    no global changes. *)
Theorem InitGLFW_library_failure (e : Env) (w : World) :
  gGLReady w = false -> glfw_up w = false -> glfwInit_result e = false ->
  InitGLFW e w = (false, set_trace (trace w ++ [E_glfwInit]) w).
Proof.
  intros R U I.
  destruct w as [gw gr qa qb up ws nw cur nn lv src st att con tr].
  destruct e as [gi cw gl fs fc cwd comp lnk ul rend].
  simpl in *; subst.
  match goal with
  | |- context [InitGLFW ?e ?w] => eval_run (InitGLFW e w)
  end.
  reflexivity.
Qed.

Lemma InitGLFW_library_failure_witness :
  InitGLFW env_glfw_down initial_world
  = (false, set_trace (trace initial_world ++ [E_glfwInit]) initial_world).
Proof.
  exact (InitGLFW_library_failure env_glfw_down initial_world eq_refl eq_refl
           eq_refl).
Defined.

(** X3.  When the hidden window cannot be created, [InitGLFW] answers
    false after the four hints and the creation call, with the null
    pointer stored in [gWindow] whatever it held before; no context is made
    current, the loader is not called, and GLFW stays initialised. *)
Theorem InitGLFW_window_failure (e : Env) (w : World) :
  gGLReady w = false -> glfw_up w = true \/ glfwInit_result e = true ->
  glfwCreateWindow_ok e = false ->
  let w' := after (InitGLFW e) w in
  result (InitGLFW e) w = false /\ gWindow w' = 0 /\ gGLReady w' = false /\
  windows w' = windows w /\ next_window w' = next_window w /\
  current w' = current w /\ glfw_up w' = true /\ live w' = live w /\
  calls_during (InitGLFW e) w =
     [ E_glfwInit;
       E_glfwWindowHint GLFW_VISIBLE GLFW_FALSE;
       E_glfwWindowHint GLFW_CONTEXT_VERSION_MAJOR (GLFW_int 3);
       E_glfwWindowHint GLFW_CONTEXT_VERSION_MINOR (GLFW_int 3);
       E_glfwWindowHint GLFW_OPENGL_PROFILE GLFW_OPENGL_CORE_PROFILE;
       E_glfwCreateWindow 1 1 EmptyString 0 ].
Proof.
  intros R U C.
  destruct w as [gw gr qa qb up ws nw cur nn lv src st att con tr].
  destruct e as [gi cw gl fs fc cwd comp lnk ul rend].
  simpl in *; subst. cbv zeta. unfold calls_during, calls_since, result, after.
  destruct up; [|destruct U as [U|U]; [discriminate U|subst]];
    match goal with |- context [InitGLFW ?e ?w] => eval_run (InitGLFW e w) end;
    cbn [trace gGLReady gWindow current windows glfw_up next_window live];
    norm_trace; rewrite skipn_length_app; repeat split; reflexivity.
Qed.

Lemma InitGLFW_window_failure_witness :
  result (InitGLFW env_no_window) initial_world = false /\
  gWindow (after (InitGLFW env_no_window) initial_world) = 0.
Proof.
  pose proof (InitGLFW_window_failure env_no_window initial_world eq_refl
                (or_intror eq_refl) eq_refl) as H.
  cbv zeta in H. exact (conj (proj1 H) (proj1 (proj2 H))).
Defined.

(** X4.  On a ready context [CleanupGLFW] destroys the stored window and
    terminates GLFW, in this order and with no other call.  Afterwards
    the context is not ready, no window and no object is left and no
    context is current, while [gWindow], [quadVAO] and [quadVBO] keep
    their old values. *)
Theorem CleanupGLFW_tears_down (w : World) :
  gGLReady w = true ->
  let w' := after CleanupGLFW w in
  calls_during CleanupGLFW w
    = [E_glfwDestroyWindow (gWindow w); E_glfwTerminate] /\
  gGLReady w' = false /\ windows w' = [] /\ live w' = [] /\ current w' = 0 /\
  glfw_up w' = false /\
  gWindow w' = gWindow w /\ quadVAO w' = quadVAO w /\ quadVBO w' = quadVBO w /\
  next_name w' = next_name w /\ next_window w' = next_window w /\
  console w' = console w.
Proof.
  intros R.
  destruct w as [gw gr qa qb up ws nw cur nn lv src st att con tr].
  cbn [gGLReady] in R. subst gr.
  cbv zeta. unfold calls_during, calls_since, after.
  match goal with
  | |- context [CleanupGLFW ?w] => eval_run (CleanupGLFW w)
  end.
  cbn [gGLReady gWindow glfw_up windows next_window current trace
       quadVAO quadVBO next_name live sources statuses attached console].
  norm_trace. rewrite skipn_length_app. repeat split; reflexivity.
Qed.

Lemma CleanupGLFW_tears_down_witness :
  gGLReady world_after_one_pass = true /\
  calls_during CleanupGLFW world_after_one_pass
  = [E_glfwDestroyWindow (gWindow world_after_one_pass); E_glfwTerminate].
Proof.
  assert (R : gGLReady world_after_one_pass = true)
    by (vm_compute; reflexivity).
  split; [exact R|].
  pose proof (CleanupGLFW_tears_down world_after_one_pass R) as H.
  cbv zeta in H. exact (proj1 H).
Defined.

(** * Names are never reused *)

Lemma fresh_kept_refl (w : World) : fresh_kept w w.
Proof. split; [lia|]. intros o H. now left. Qed.

Lemma fresh_kept_trans (a b c : World) :
  fresh_kept a b -> fresh_kept b c -> fresh_kept a c.
Proof.
  intros [N1 L1] [N2 L2]. split; [lia|].
  intros o H. destruct (L2 o H) as [H2|H2].
  - destruct (L1 o H2) as [H1|H1]; [now left|right; lia].
  - right; lia.
Qed.

Lemma gl_gen_fresh_kept (k : ObjKind) : preserves fresh_kept (gl_gen k).
Proof.
  intros w. unfold after, gl_gen, bind, read, modify, ret. cbn [fst snd].
  unfold_setters. split; cbn [next_name live]; [lia|].
  intros o [H|H]; [right; subst o; cbn [snd]; lia | now left].
Qed.

Ltac fresh_kept_leaf :=
  let w := fresh "w" in let o := fresh "o" in let Hin := fresh "Hin" in
  intros w; unfold fresh_kept; world_cases;
  (split; [lia|]); intros o Hin; left;
  first
    [ exact Hin
    | apply filter_In in Hin; destruct Hin as [Hin _]; exact Hin
    | contradiction ].

Ltac unfold_driver_names :=
  unfold Shader.Shader, Shader.Activate, Shader.Delete, Shader.compileErrors,
    get_file_contents, current_path_ancestor4,
    glfwInit, glfwWindowHint, glfwCreateWindow, glfwMakeContextCurrent,
    gladLoadGLLoader, glfwDestroyWindow, glfwTerminate,
    glGenVertexArrays, glGenBuffers, glGenTextures, glGenFramebuffers,
    glDeleteTextures, glDeleteFramebuffers, glDeleteShader, glDeleteProgram,
    glBindVertexArray, glBindBuffer, glBufferData, glEnableVertexAttribArray,
    glVertexAttribPointer, glBindTexture, glTexImage2D, glTexParameteri,
    glBindFramebuffer, glFramebufferTexture2D, glCheckFramebufferStatus,
    glViewport, glGetUniformLocation, glUniform1i, glUniform1f,
    glActiveTexture, glDrawArrays, glReadPixels,
    glCreateShader, glShaderSource, glCompileShader, glGetShaderiv,
    glGetShaderInfoLog, glCreateProgram, glAttachShader, glLinkProgram,
    glGetProgramiv, glGetProgramInfoLog, glUseProgram,
    gl_delete, call, cout.

Ltac fresh_kept_walk :=
  unfold_driver_names;
  preserves_walk_known fresh_kept_refl fresh_kept_trans fresh_kept_leaf
    ltac:(apply gl_gen_fresh_kept).

Lemma InitGLFW_fresh_kept e : preserves fresh_kept (InitGLFW e).
Proof. unfold InitGLFW. fresh_kept_walk. Qed.

Lemma CleanupGLFW_fresh_kept : preserves fresh_kept CleanupGLFW.
Proof. unfold CleanupGLFW. fresh_kept_walk. Qed.

Lemma InitFullscreenQuad_fresh_kept : preserves fresh_kept InitFullscreenQuad.
Proof. unfold InitFullscreenQuad. fresh_kept_walk. Qed.

Lemma Shader_fresh_kept e vf ff : preserves fresh_kept (Shader.Shader e vf ff).
Proof. fresh_kept_walk. Qed.

Lemma UploadToGL_fresh_kept e rgb width height out ex wp :
  preserves fresh_kept (UploadToGL e rgb width height out ex wp).
Proof.
  unfold UploadToGL.
  preserves_walk_known fresh_kept_refl fresh_kept_trans fresh_kept_leaf
    ltac:(first [ apply InitGLFW_fresh_kept
                | apply InitFullscreenQuad_fresh_kept
                | apply Shader_fresh_kept
                | apply gl_gen_fresh_kept
                | progress unfold_driver_names ]).
Qed.

Lemma step_fresh_kept o w : fresh_kept w (step o w).
Proof.
  destruct o; simpl.
  - apply InitGLFW_fresh_kept.
  - apply UploadToGL_fresh_kept.
  - apply CleanupGLFW_fresh_kept.
Qed.

Lemma run_fresh_kept ops w : fresh_kept w (run ops w).
Proof.
  revert w. induction ops as [|o ops IH]; intros w; simpl.
  - apply fresh_kept_refl.
  - eapply fresh_kept_trans; [apply step_fresh_kept | apply IH].
Qed.

Lemma fresh_kept_names_below (w w' : World) :
  fresh_kept w w' -> names_below w -> names_below w'.
Proof.
  intros [N L] B o H. destruct (L o H) as [H1|H1]; [|lia].
  specialize (B o H1). lia.
Qed.

Lemma reachable_names_below (w : World) : reachable w -> names_below w.
Proof.
  intros [ops ->]. apply (fresh_kept_names_below initial_world).
  - apply run_fresh_kept.
  - intros o [].
Qed.

Lemma delete_from_fresh (c : handle) (is_kind : ObjKind -> bool) (n : handle)
  (l : list GLObj) :
  (forall o, In o l -> snd o < n) -> delete_from c is_kind n l = l.
Proof.
  unfold delete_from. induction l as [|[[c' k'] n'] l IH]; intros B.
  - reflexivity.
  - cbn [filter names_obj].
    assert (E : (n' =? n) = false).
    { apply Z.eqb_neq. specialize (B (c', k', n') (or_introl eq_refl)).
      cbn [snd] in B. lia. }
    rewrite E, andb_false_r. cbn [negb]. f_equal.
    apply IH. intros o H. apply B. now right.
Qed.

Lemma delete_from_cons (c : handle) (is_kind : ObjKind -> bool)
  (n : handle) (k : ObjKind) (m : handle) (l : list GLObj) :
  delete_from c is_kind n ((c, k, m) :: l)
  = if is_kind k && (m =? n) then delete_from c is_kind n l
    else (c, k, m) :: delete_from c is_kind n l.
Proof.
  unfold delete_from. cbn [filter names_obj]. rewrite Z.eqb_refl.
  cbn [andb]. now destruct (is_kind k && (m =? n)).
Qed.

(** * What a pass creates and what it deletes *)

Lemma all_released_app (t1 t2 : list Call) :
  all_released t1 = true -> all_released t2 = true ->
  all_released (t1 ++ t2) = true.
Proof.
  intros H1 H2. induction t1 as [|c t1 IH]; [exact H2|].
  cbn [all_released app] in *.
  apply andb_true_iff in H1. destruct H1 as [Hc H1].
  rewrite (IH H1), andb_true_r, existsb_app.
  apply orb_true_iff in Hc. destruct Hc as [Hc|Hc]; rewrite Hc; cbn [orb].
  - reflexivity.
  - apply orb_true_r.
Qed.

Lemma no_release_filter (t : list Call) :
  forallb no_release t = true ->
  filter is_delete_call t = [] /\ existsb is_use_program t = false.
Proof.
  induction t as [|c t IH]; [now split|].
  cbn [forallb filter existsb]. intros H.
  apply andb_true_iff in H. destruct H as [Hc H].
  destruct (IH H) as [F U]. unfold no_release in Hc.
  destruct (is_delete_call c), (is_use_program c); try discriminate Hc.
  now split.
Qed.

Lemma InitGLFW_no_release (e : Env) : preserves (adds no_release) (InitGLFW e).
Proof.
  unfold_procs.
  preserves_walk (adds_refl no_release) (adds_trans no_release) adds_leaf.
Qed.

Lemma InitFullscreenQuad_no_release :
  preserves (adds no_release) InitFullscreenQuad.
Proof.
  unfold_procs.
  preserves_walk (adds_refl no_release) (adds_trans no_release) adds_leaf.
Qed.

Lemma build_calls_ledger (e : Env) (vf ff : string) (n : positive) :
  let v := Z.pos n in
  let f := Z.pos (Pos.succ n) in
  let p := Z.pos (Pos.succ (Pos.succ n)) in
  let t := build_calls e vf ff n in
  filter is_gen_call t
  = [E_glCreateShader GL_VERTEX_SHADER v;
     E_glCreateShader GL_FRAGMENT_SHADER f; E_glCreateProgram p] /\
  filter is_delete_call t = [E_glDeleteShader v; E_glDeleteShader f] /\
  existsb is_use_program t = false.
Proof.
  cbv zeta. unfold build_calls, shader_check_calls, program_check_calls.
  destruct (fst (glsl_compile e GL_VERTEX_SHADER (loaded e vf))),
    (fst (glsl_compile e GL_FRAGMENT_SHADER (loaded e ff))),
    (fst (glsl_link e (linker_input e vf ff)));
    repeat split; reflexivity.
Qed.

(** The calls of a pass proper, by what they create and delete. *)
Lemma pass_calls_ledger (e : Env) (window vao : handle) (n : positive)
  (linearRGB : list float) (width height : Z) (exposure whitePoint : float) :
  let hdrTex := Z.pos n in
  let fbo := Z.pos (Pos.succ n) in
  let colorTex := Z.pos (Pos.succ (Pos.succ n)) in
  let n3 := Pos.succ (Pos.succ (Pos.succ n)) in
  let v := Z.pos n3 in
  let f := Z.pos (Pos.succ n3) in
  let p := Z.pos (Pos.succ (Pos.succ n3)) in
  let t := pass_calls e window vao n linearRGB width height exposure
             whitePoint in
  filter is_gen_call t
  = [E_glGenTextures hdrTex; E_glGenFramebuffers fbo; E_glGenTextures colorTex;
     E_glCreateShader GL_VERTEX_SHADER v;
     E_glCreateShader GL_FRAGMENT_SHADER f; E_glCreateProgram p] /\
  filter is_delete_call t
  = [E_glDeleteShader v; E_glDeleteShader f; E_glDeleteTextures hdrTex;
     E_glDeleteTextures colorTex; E_glDeleteFramebuffers fbo;
     E_glDeleteProgram p] /\
  (exists before between,
     t = before ++ E_glUseProgram p :: between ++ [E_glDeleteProgram p] /\
     existsb is_use_program before = false /\
     existsb is_use_program between = false) /\
  all_released t = true.
Proof.
  cbv zeta. unfold pass_calls.
  match goal with
  | |- context [build_calls ?e ?a ?b ?n] =>
      destruct (build_calls_ledger e a b n) as (G & D & U);
      cbv zeta in G, D, U
  end.
  split; [rewrite !filter_app, G; reflexivity|].
  split; [rewrite !filter_app, D; reflexivity|].
  split.
  - match goal with
    | |- exists b m, ?A ++ ?B ++ ?C ++ ?R = _ /\ _ =>
        exists (A ++ B ++ C), (removelast (tl R))
    end.
    split; [|split].
    + unfold render_calls. cbn [tl removelast]. rewrite <- !app_assoc.
      reflexivity.
    + rewrite !existsb_app, U. reflexivity.
    + reflexivity.
  - unfold build_calls, shader_check_calls, program_check_calls,
      target_calls, render_calls.
    destruct (fst (glsl_compile e GL_VERTEX_SHADER _)),
      (fst (glsl_compile e GL_FRAGMENT_SHADER _)),
      (fst (glsl_link e _));
      cbn [app all_released existsb releases is_gen_call negb orb andb];
      rewrite ?Z.eqb_refl, ?Pos.eqb_refl, ?orb_true_r;
      reflexivity.
Qed.

(** X5.  A pass that completes hands every name it creates after its
    initialisation steps, the two textures, the framebuffer, the two
    shaders and the program, to the delete call of its kind, and hands no
    other name to a delete call.  [glUseProgram] is called once, on the
    program, and [glDeleteProgram] on it is the last call of the pass: the
    program is deleted while it is the one in use. *)
Theorem UploadToGL_complete_creates_and_deletes (e : Env)
  (linearRGB : list float) (width height : Z) (outputBGRA : list byte)
  (exposure whitePoint : float) (w : World) :
  result (InitGLFW e) w = true ->
  framebuffer_status e = GL_FRAMEBUFFER_COMPLETE ->
  let pass := UploadToGL e linearRGB width height outputBGRA exposure
                whitePoint in
  let w2 := after InitFullscreenQuad (after (InitGLFW e) w) in
  let n := next_name w2 in
  let hdrTex := Z.pos n in
  let fbo := Z.pos (Pos.succ n) in
  let colorTex := Z.pos (Pos.succ (Pos.succ n)) in
  let n3 := Pos.succ (Pos.succ (Pos.succ n)) in
  let v := Z.pos n3 in
  let f := Z.pos (Pos.succ n3) in
  let p := Z.pos (Pos.succ (Pos.succ n3)) in
  filter is_gen_call (calls_since w2 (after pass w))
  = [E_glGenTextures hdrTex; E_glGenFramebuffers fbo; E_glGenTextures colorTex;
     E_glCreateShader GL_VERTEX_SHADER v;
     E_glCreateShader GL_FRAGMENT_SHADER f; E_glCreateProgram p] /\
  filter is_delete_call (calls_during pass w)
  = [E_glDeleteShader v; E_glDeleteShader f; E_glDeleteTextures hdrTex;
     E_glDeleteTextures colorTex; E_glDeleteFramebuffers fbo;
     E_glDeleteProgram p] /\
  (exists before between,
     calls_during pass w
     = before ++ E_glUseProgram p :: between ++ [E_glDeleteProgram p] /\
     existsb is_use_program before = false /\
     existsb is_use_program between = false).
Proof.
  intros HI Hfs. cbv zeta.
  destruct (UploadToGL_complete e linearRGB width height outputBGRA exposure
              whitePoint w HI Hfs) as (_ & Ht & _).
  cbv zeta in Ht.
  set (w2 := after InitFullscreenQuad (after (InitGLFW e) w)) in *.
  set (w' := after (UploadToGL e linearRGB width height outputBGRA exposure
                      whitePoint) w) in *.
  fold (pass_calls e (gWindow w2) (quadVAO w2) (next_name w2) linearRGB width
          height exposure whitePoint) in Ht.
  destruct (pass_calls_ledger e (gWindow w2) (quadVAO w2) (next_name w2)
              linearRGB width height exposure whitePoint)
    as (G & D & (before & between & E & U1 & U2) & _).
  cbv zeta in G, D, E.
  pose proof (InitGLFW_no_release e w) as A1.
  pose proof (InitFullscreenQuad_no_release (after (InitGLFW e) w)) as A2.
  pose proof (adds_trans _ _ _ _ A1 A2) as A12. fold w2 in A12.
  destruct (no_release_filter _ (adds_calls_since _ _ _ A12)) as [F0 U0].
  assert (X12 : extends w w2)
    by (destruct A12 as [t [Hx _]]; now exists t).
  assert (E2 : calls_since w2 w'
               = pass_calls e (gWindow w2) (quadVAO w2) (next_name w2)
                   linearRGB width height exposure whitePoint)
    by (apply calls_since_app; exact Ht).
  assert (X23 : extends w2 w') by (eexists; exact Ht).
  unfold calls_during. fold w'.
  rewrite (calls_since_trans w w2 w' X12 X23), E2.
  split; [exact G|]. split.
  - rewrite filter_app, F0, D. reflexivity.
  - exists (calls_since w w2 ++ before), between. split; [|split].
    + rewrite E, <- app_assoc. reflexivity.
    + rewrite existsb_app, U0, U1. reflexivity.
    + exact U2.
Qed.

Lemma UploadToGL_complete_creates_and_deletes_witness :
  result (InitGLFW env_ok) initial_world = true /\
  filter is_delete_call
    (calls_during (UploadToGL env_ok [1%Q; 1%Q; 1%Q] 1 1 buffer6 1%Q 1%Q)
       initial_world)
  = [E_glDeleteShader 6; E_glDeleteShader 7; E_glDeleteTextures 3;
     E_glDeleteTextures 5; E_glDeleteFramebuffers 4; E_glDeleteProgram 8].
Proof.
  assert (HI : result (InitGLFW env_ok) initial_world = true)
    by (vm_compute; reflexivity).
  split; [exact HI|].
  exact (proj1 (proj2 (UploadToGL_complete_creates_and_deletes env_ok
                         [1%Q; 1%Q; 1%Q] 1 1 buffer6 1%Q 1%Q initial_world
                         HI eq_refl))).
Defined.

(** The incomplete path from a steady world, field by field. *)
Lemma UploadToGL_ready_incomplete (e : Env) (linearRGB : list float)
  (width height : Z) (outputBGRA : list byte) (exposure whitePoint : float)
  (w : World) :
  gGLReady w = true -> quadVAO w <> 0 ->
  framebuffer_status e <> GL_FRAMEBUFFER_COMPLETE ->
  let w' := after (UploadToGL e linearRGB width height outputBGRA exposure
                     whitePoint) w in
  console w' = console w /\ gWindow w' = gWindow w /\ gGLReady w' = true /\
  quadVAO w' = quadVAO w /\ quadVBO w' = quadVBO w /\
  current w' = gWindow w /\ windows w' = windows w /\
  next_window w' = next_window w /\ glfw_up w' = glfw_up w /\
  next_name w' = Pos.succ (Pos.succ (Pos.succ (next_name w))).
Proof.
  intros R2 Q2 Hfs. cbv zeta.
  destruct e as [gi cw gl fs fc cwd comp lnk ul rend]; simpl in Hfs.
  destruct fs as [|code]; [congruence|].
  destruct w as [gw gr qa qb up ws nw cur nn lv src st att con tr].
  cbn [gGLReady quadVAO] in Q2, R2. subst gr. apply Z.eqb_neq in Q2.
  unfold after.
  match goal with
  | |- context [UploadToGL ?e ?a ?b ?c ?d ?x ?y ?w] =>
      eval_run_with (UploadToGL e a b c d x y w)
        ltac:(fun H => rewrite ?Q2 in H)
  end.
  cbn [gGLReady gWindow glfw_up windows next_window current trace
       quadVAO quadVBO next_name live sources statuses attached console].
  repeat split; reflexivity.
Qed.

Lemma steady_prepared (e : Env) (w : World) :
  steady w -> after InitFullscreenQuad (after (InitGLFW e) w) = w.
Proof.
  intros [R Q]. unfold after at 2. rewrite (InitGLFW_ready e w R). cbn [snd].
  unfold after. now rewrite (InitFullscreenQuad_guard w Q).
Qed.

Lemma complete_pass_steady (o : Op) (w : World) :
  complete_pass o -> steady w ->
  let t := calls_since w (step o w) in
  extends w (step o w) /\
  List.length (filter is_gen_call t) = 6%nat /\
  List.length (filter is_delete_call t) = 6%nat /\
  all_released t = true /\
  steady (step o w) /\
  gWindow (step o w) = gWindow w /\ quadVAO (step o w) = quadVAO w /\
  windows (step o w) = windows w.
Proof.
  intros C [R Q]. cbv zeta.
  destruct o as [e|e rgb width height out ex wp|]; try contradiction.
  cbn [complete_pass step] in *.
  destruct (UploadToGL_ready_complete e rgb width height out ex wp w R Q C)
    as (_ & Ht & _ & _ & G & R' & Q' & _ & _ & W & _).
  cbv zeta in Ht.
  fold (pass_calls e (gWindow w) (quadVAO w) (next_name w) rgb width height
          ex wp) in Ht.
  destruct (pass_calls_ledger e (gWindow w) (quadVAO w) (next_name w) rgb
              width height ex wp) as (GG & DD & _ & AA).
  cbv zeta in GG, DD, AA.
  rewrite (calls_since_app _ _ _ Ht), GG, DD, AA.
  split; [eexists; exact Ht|].
  repeat split; try reflexivity; try assumption; congruence.
Qed.

(** X6.  With the context ready and the quad in place, completed passes
    do not pile up names to delete: [n] of them make [6 * n] creating
    calls and [6 * n] delete calls, every name created is handed to the
    delete call of its kind later on, and the library stays ready with
    the same window, quad and open windows. *)
Theorem completed_passes_do_not_accumulate (ops : list Op) (w : World) :
  steady w -> Forall complete_pass ops ->
  let t := calls_since w (run ops w) in
  List.length (filter is_gen_call t) = (6 * List.length ops)%nat /\
  List.length (filter is_delete_call t) = (6 * List.length ops)%nat /\
  all_released t = true /\
  steady (run ops w) /\
  gWindow (run ops w) = gWindow w /\ quadVAO (run ops w) = quadVAO w /\
  windows (run ops w) = windows w.
Proof.
  cbv zeta. revert w. induction ops as [|o ops IH]; intros w S F; cbn [run].
  - rewrite calls_since_refl. repeat split; apply S.
  - inversion F as [|o' ops' C F']; subst.
    destruct (complete_pass_steady o w C S)
      as (X1 & G1 & D1 & A1 & S1 & W1 & Q1 & O1).
    destruct (IH (step o w) S1 F') as (G2 & D2 & A2 & S2 & W2 & Q2 & O2).
    rewrite (calls_since_trans w (step o w) (run ops (step o w)) X1
               (run_extends ops (step o w))).
    rewrite !filter_app, !length_app, G1, D1, G2, D2.
    cbn [List.length].
    split; [lia|]. split; [lia|].
    split; [now apply all_released_app|].
    split; [exact S2|]. repeat split; congruence.
Qed.

Lemma completed_passes_do_not_accumulate_witness :
  steady world_after_one_pass /\
  all_released
    (calls_since world_after_one_pass
       (run [Op_UploadToGL env_ok [1%Q; 1%Q; 1%Q] 1 1 buffer6 1%Q 1%Q;
             Op_UploadToGL env_ok [1%Q; 1%Q; 1%Q] 1 1 buffer6 1%Q 1%Q;
             Op_UploadToGL env_ok [1%Q; 1%Q; 1%Q] 1 1 buffer6 1%Q 1%Q]
          world_after_one_pass)) = true.
Proof.
  assert (S : steady world_after_one_pass)
    by (split; [vm_compute; reflexivity | vm_compute; discriminate]).
  split; [exact S|].
  refine (proj1 (proj2 (proj2
            (completed_passes_do_not_accumulate _ world_after_one_pass S _)))).
  repeat constructor.
Defined.

Lemma incomplete_pass_steady (o : Op) (w : World) :
  incomplete_pass o -> steady w ->
  steady (step o w) /\
  exists a b c, live (step o w) = a :: b :: c :: live w.
Proof.
  intros C [R Q].
  destruct o as [e|e rgb width height out ex wp|]; try contradiction.
  cbn [incomplete_pass step] in *.
  destruct (UploadToGL_ready_incomplete e rgb width height out ex wp w R Q C)
    as (_ & _ & R' & Q' & _).
  assert (HI : result (InitGLFW e) w = true)
    by (unfold result; now rewrite (InitGLFW_ready e w R)).
  destruct (UploadToGL_incomplete_leaks e rgb width height out ex wp w HI C)
    as (_ & L).
  cbv zeta in L. rewrite (steady_prepared e w (conj R Q)) in L.
  split; [split; [exact R' | now rewrite Q']|].
  rewrite L. eauto.
Qed.

(** X7.  With the context ready and the quad in place, every pass whose
    framebuffer is not complete adds three objects to the live ones and
    removes none: [n] such passes leave [3 * n] more.  The library stays
    ready throughout, with the quad in place. *)
Theorem incomplete_passes_accumulate (ops : list Op) (w : World) :
  steady w -> Forall incomplete_pass ops ->
  List.length (live (run ops w))
  = (List.length (live w) + 3 * List.length ops)%nat /\
  (forall o, In o (live w) -> In o (live (run ops w))) /\
  gGLReady (run ops w) = true /\ steady (run ops w) /\
  (forall done rest, ops = done ++ rest -> gGLReady (run done w) = true).
Proof.
  revert w. induction ops as [|o ops IH]; intros w S F; cbn [run].
  - split; [cbn [List.length]; lia|]. split; [auto|].
    split; [apply S|]. split; [exact S|].
    intros done rest E. symmetry in E. apply app_eq_nil in E.
    destruct E as [-> _]. apply S.
  - inversion F as [|o' ops' C F']; subst.
    destruct (incomplete_pass_steady o w C S) as (S' & a & b & c & L).
    destruct (IH (step o w) S' F') as (N & K & R & S2 & T).
    split; [rewrite N, L; cbn [List.length]; lia|].
    split; [intros x Hx; apply K; rewrite L; now do 3 right|].
    split; [exact R|]. split; [exact S2|].
    intros done rest E. destruct done as [|d done]; [apply S|].
    cbn [app] in E. injection E as -> E. cbn [run]. exact (T done rest E).
Qed.

Lemma incomplete_passes_accumulate_witness :
  steady world_after_one_pass /\
  List.length
    (live (run [Op_UploadToGL env_fb_incomplete [1%Q; 1%Q; 1%Q] 1 1 buffer6
                  1%Q 1%Q;
                Op_UploadToGL env_fb_incomplete [1%Q; 1%Q; 1%Q] 1 1 buffer6
                  1%Q 1%Q] world_after_one_pass))
  = (List.length (live world_after_one_pass) + 3 * 2)%nat.
Proof.
  assert (S : steady world_after_one_pass)
    by (split; [vm_compute; reflexivity | vm_compute; discriminate]).
  split; [exact S|].
  refine (proj1 (incomplete_passes_accumulate _ world_after_one_pass S _)).
  repeat constructor; discriminate.
Defined.

(** * The context behind the ready flag *)

Lemma InitGLFW_context_ok (e : Env) (w : World) :
  context_ok w -> context_ok (after (InitGLFW e) w).
Proof.
  intros I.
  destruct w as [gw gr qa qb up ws nw cur nn lv src st att con tr].
  destruct e as [gi cw gl fs fc cwd comp lnk ul rend].
  unfold context_ok in *. cbn [gGLReady gWindow windows current glfw_up] in I.
  unfold after.
  destruct gr, up, gi, cw, gl;
    match goal with
    | |- context [InitGLFW ?e ?w] => eval_run (InitGLFW e w)
    end;
    cbn [gGLReady gWindow windows current glfw_up];
    intros R; try discriminate R; try (exact (I eq_refl));
    (split; [discriminate|]); (split; [now left|]); split; reflexivity.
Qed.

Lemma CleanupGLFW_context_ok (w : World) :
  context_ok (after CleanupGLFW w).
Proof.
  intros R. destruct (CleanupGLFW_clears w) as (R' & _). congruence.
Qed.

Lemma prepared_steady (e : Env) (w : World) :
  result (InitGLFW e) w = true ->
  steady (after InitFullscreenQuad (after (InitGLFW e) w)).
Proof.
  intros HI.
  pose proof (InitGLFW_true_ready e w HI) as R1.
  destruct (InitFullscreenQuad_nonzero (after (InitGLFW e) w)) as [Q2 R2].
  rewrite R1 in R2. now split.
Qed.

Lemma InitFullscreenQuad_context_ok (w : World) :
  context_ok w -> context_ok (after InitFullscreenQuad w).
Proof.
  intros I. destruct (Z.eq_dec (quadVAO w) 0) as [H|H].
  - destruct (InitFullscreenQuad_first w H)
      as (_ & _ & _ & _ & _ & G & R & C & W & _ & U & _).
    unfold context_ok. rewrite G, R, C, W, U. exact I.
  - unfold after. now rewrite (InitFullscreenQuad_guard w H).
Qed.

Lemma UploadToGL_context_ok e rgb width height out ex wp (w : World) :
  context_ok w ->
  context_ok (after (UploadToGL e rgb width height out ex wp) w).
Proof.
  intros I. destruct (result (InitGLFW e) w) eqn:HI.
  - unfold after. rewrite (UploadToGL_prepared _ _ _ _ _ _ _ _ HI).
    pose proof (InitFullscreenQuad_context_ok _ (InitGLFW_context_ok e w I))
      as I2.
    destruct (prepared_steady e w HI) as [R2 Q2].
    set (w2 := after InitFullscreenQuad (after (InitGLFW e) w)) in *.
    destruct (I2 R2) as (G0 & G1 & G2 & G3).
    fold (after (UploadToGL e rgb width height out ex wp) w2).
    destruct (framebuffer_status e) eqn:Hfs.
    + destruct (UploadToGL_ready_complete e rgb width height out ex wp w2
                  R2 Q2 Hfs)
        as (_ & _ & _ & _ & G & R' & _ & _ & C & W & _ & U).
      intros _. rewrite G, C, W, U. auto.
    + assert (Hne : framebuffer_status e <> GL_FRAMEBUFFER_COMPLETE)
        by (rewrite Hfs; discriminate).
      destruct (UploadToGL_ready_incomplete e rgb width height out ex wp w2
                  R2 Q2 Hne)
        as (_ & G & R' & _ & _ & C & W & _ & U & _).
      intros _. rewrite G, C, W, U. auto.
  - unfold after. rewrite (UploadToGL_init_fails _ _ _ _ _ _ _ _ HI).
    cbn [snd]. now apply InitGLFW_context_ok.
Qed.

(** X8.  Whenever the library holds its context for ready, the stored window
    is a window that is still open, its context is the current one and
    GLFW is initialised. *)
Theorem ready_means_usable_context (w : World) :
  reachable w -> gGLReady w = true ->
  gWindow w <> 0 /\ In (gWindow w) (windows w) /\
  current w = gWindow w /\ glfw_up w = true.
Proof.
  intros [ops ->]. fold (context_ok (run ops initial_world)).
  assert (I : context_ok initial_world) by (intros R; discriminate R).
  revert I. generalize initial_world.
  induction ops as [|o ops IH]; intros w I; cbn [run]; [exact I|].
  apply IH. destruct o; cbn [step].
  - now apply InitGLFW_context_ok.
  - now apply UploadToGL_context_ok.
  - apply CleanupGLFW_context_ok.
Qed.

Lemma ready_means_usable_context_witness :
  gGLReady world_after_one_pass = true /\
  gWindow world_after_one_pass <> 0 /\
  In (gWindow world_after_one_pass) (windows world_after_one_pass) /\
  current world_after_one_pass = gWindow world_after_one_pass /\
  glfw_up world_after_one_pass = true.
Proof.
  assert (R : gGLReady world_after_one_pass = true)
    by (vm_compute; reflexivity).
  assert (Hr : reachable world_after_one_pass) by (eexists; reflexivity).
  split; [exact R|].
  exact (ready_means_usable_context world_after_one_pass Hr R).
Defined.

(** X9.  A pass that aborts prints nothing: whether [InitGLFW] answers
    false or the framebuffer is not complete, the console is as it was. *)
Theorem UploadToGL_abort_prints_nothing (e : Env) (linearRGB : list float)
  (width height : Z) (outputBGRA : list byte) (exposure whitePoint : float)
  (w : World) :
  result (InitGLFW e) w = false \/
  framebuffer_status e <> GL_FRAMEBUFFER_COMPLETE ->
  console (after (UploadToGL e linearRGB width height outputBGRA exposure
                    whitePoint) w) = console w.
Proof.
  intros H.
  assert (C1 : console (after (InitGLFW e) w) = console w)
    by apply (InitGLFW_same_objects e w).
  destruct (result (InitGLFW e) w) eqn:HI.
  - destruct H as [H|H]; [discriminate H|].
    unfold after. rewrite (UploadToGL_prepared _ _ _ _ _ _ _ _ HI).
    destruct (prepared_steady e w HI) as [R2 Q2].
    destruct (UploadToGL_ready_incomplete e linearRGB width height outputBGRA
                exposure whitePoint _ R2 Q2 H) as (C & _).
    unfold after in C at 1. rewrite C.
    destruct (Z.eq_dec (quadVAO (after (InitGLFW e) w)) 0) as [Q|Q].
    + destruct (InitFullscreenQuad_first _ Q)
        as (_ & _ & _ & _ & _ & _ & _ & _ & _ & _ & _ & C2).
      now rewrite C2.
    + unfold after at 1. now rewrite (InitFullscreenQuad_guard _ Q).
  - unfold after. rewrite (UploadToGL_init_fails _ _ _ _ _ _ _ _ HI).
    exact C1.
Qed.

Lemma UploadToGL_abort_prints_nothing_witness :
  framebuffer_status env_fb_incomplete <> GL_FRAMEBUFFER_COMPLETE /\
  console (after (UploadToGL env_fb_incomplete [1%Q; 1%Q; 1%Q] 1 1 buffer6
                    1%Q 1%Q) initial_world) = console initial_world.
Proof.
  assert (H : framebuffer_status env_fb_incomplete <> GL_FRAMEBUFFER_COMPLETE)
    by discriminate.
  split; [exact H|].
  exact (UploadToGL_abort_prints_nothing env_fb_incomplete [1%Q; 1%Q; 1%Q] 1 1
           buffer6 1%Q 1%Q initial_world (or_intror H)).
Defined.

(** * The shader builder: silence and release *)

Lemma diagnostic_lines_nil (label : string) (r : bool * string) :
  diagnostic_lines label r = [] <-> fst r = true.
Proof.
  unfold diagnostic_lines. destruct (fst r); split; auto; discriminate.
Qed.

Lemma missing_file_lines_nil (e : Env) (filename : string) :
  missing_file_lines e filename = [] <-> file_contents e filename <> None.
Proof.
  unfold missing_file_lines. destruct (file_contents e filename); split;
    try discriminate; auto. intros H. now elim H.
Qed.

Lemma build_lines_nil (e : Env) (vertexFile fragmentFile : string) :
  build_lines e vertexFile fragmentFile = [] <->
  build_succeeds e vertexFile fragmentFile.
Proof.
  unfold build_lines, build_succeeds.
  rewrite <- (diagnostic_lines_nil "VERTEX"),
    <- (diagnostic_lines_nil "FRAGMENT"), <- (diagnostic_lines_nil "PROGRAM"),
    <- !missing_file_lines_nil.
  split.
  - intros H.
    apply app_eq_nil in H. destruct H as [H1 H].
    apply app_eq_nil in H. destruct H as [H2 H].
    apply app_eq_nil in H. destruct H as [H3 H].
    apply app_eq_nil in H. destruct H as [H4 H5].
    repeat split; assumption.
  - intros (H1 & H2 & H3 & H4 & H5). now rewrite H1, H2, H3, H4, H5.
Qed.

(** X10.  The builder prints nothing exactly when both files open, both
    stages compile and the program links; it then asks for no info log. *)
Theorem Shader_silent_iff_success (e : Env) (vertexFile fragmentFile : string)
  (w : World) :
  let build := Shader.Shader e vertexFile fragmentFile in
  (console (after build w) = console w <->
   build_succeeds e vertexFile fragmentFile) /\
  (build_succeeds e vertexFile fragmentFile ->
   forall object bufSize,
     ~ In (E_glGetShaderInfoLog object bufSize) (calls_during build w) /\
     ~ In (E_glGetProgramInfoLog object bufSize) (calls_during build w)).
Proof.
  cbv zeta.
  destruct (Shader_run e vertexFile fragmentFile w) as (_ & _ & Hcon & _).
  cbv zeta in Hcon. split.
  - rewrite Hcon, <- build_lines_nil. split.
    + intros H. rewrite <- (app_nil_r (console w)) in H at 2.
      now apply app_inv_head in H.
    + intros ->. apply app_nil_r.
  - intros (_ & _ & Hv & Hf & Hl) object bufSize.
    rewrite (Shader_calls e vertexFile fragmentFile w).
    unfold build_calls. rewrite Hv, Hf, Hl.
    unfold shader_check_calls, program_check_calls. cbn [app In].
    split; intros H; repeat (destruct H as [H|H]; [discriminate H|]);
      exact H.
Qed.

Lemma Shader_silent_iff_success_witness :
  build_succeeds env_ok "a.vert" "a.frag" /\
  console (after (Shader.Shader env_ok "a.vert" "a.frag") initial_world)
  = console initial_world.
Proof.
  assert (S : build_succeeds env_ok "a.vert" "a.frag")
    by (repeat split; try reflexivity; discriminate).
  split; [exact S|].
  exact (proj2 (proj1 (Shader_silent_iff_success env_ok "a.vert" "a.frag"
                         initial_world)) S).
Defined.

Lemma delete3 (c : handle) (n : positive) (l : list GLObj) :
  (forall o, In o l -> snd o < Z.pos n) ->
  let v := Z.pos n in
  let f := Z.pos (Pos.succ n) in
  let p := Z.pos (Pos.succ (Pos.succ n)) in
  delete_from c (kind_eqb KProgram) p
    (delete_from c is_shader f
       (delete_from c is_shader v
          ((c, KProgram, p) :: (c, KShader GL_FRAGMENT_SHADER, f)
           :: (c, KShader GL_VERTEX_SHADER, v) :: l))) = l.
Proof.
  intros B. cbv zeta.
  repeat
    (rewrite ?delete_from_cons; cbn [kind_eqb is_shader andb Z.eqb];
     repeat match goal with
       | |- context [Pos.eqb ?a ?a] => rewrite (Pos.eqb_refl a)
       | |- context [Pos.eqb ?a ?b] =>
           rewrite (proj2 (Pos.eqb_neq a b)) by lia
       end;
     rewrite ?(delete_from_fresh c _ _ l)
       by (intros o H; specialize (B o H); lia)).
  reflexivity.
Qed.

(** X11.  Building a program and deleting it again leaves the live objects
    as they were, and the delete is the last call. *)
Theorem Shader_Delete_releases_build (e : Env)
  (vertexFile fragmentFile : string) (w : World) :
  names_below w ->
  let use := (sh <- Shader.Shader e vertexFile fragmentFile ;;
              Shader.Delete sh)%hdr in
  let p := Z.pos (Pos.succ (Pos.succ (next_name w))) in
  live (after use w) = live w /\
  calls_during use w
  = build_calls e vertexFile fragmentFile (next_name w)
    ++ [E_glDeleteProgram p].
Proof.
  intros B. cbv zeta. unfold calls_during, calls_since, after.
  rewrite bind_run.
  destruct (Shader_run e vertexFile fragmentFile w)
    as (Hres & Htr & _ & Hlive & _ & _ & _ & _ & _ & Hcur & _).
  cbv zeta in Hres, Htr, Hlive, Hcur.
  rewrite Hres. unfold Shader.Delete, glDeleteProgram, gl_delete, call.
  cbn [Shader.ID]. unfold bind, modify. cbn [fst snd].
  unfold_setters. cbn [live trace current].
  rewrite Hcur, Hlive, Htr. split.
  - apply (delete3 (current w) (next_name w) (live w) B).
  - rewrite <- !app_assoc. rewrite skipn_length_app.
    unfold build_calls. rewrite <- !app_assoc. reflexivity.
Qed.

Lemma Shader_Delete_releases_build_witness :
  names_below initial_world /\
  live (after (sh <- Shader.Shader env_ok "a.vert" "a.frag" ;;
               Shader.Delete sh)%hdr initial_world) = live initial_world.
Proof.
  assert (B : names_below initial_world) by (intros o []).
  split; [exact B|].
  exact (proj1 (Shader_Delete_releases_build env_ok "a.vert" "a.frag"
                  initial_world B)).
Defined.

(** * The calls of a pass *)

Lemma build_calls_counts (e : Env) (vf ff : string) (n : positive) :
  let t := build_calls e vf ff n in
  List.length (filter is_gen_call t) = 3%nat /\
  List.length (filter is_delete_call t) = 2%nat /\
  existsb is_glfw_lifecycle_call t = false.
Proof.
  cbv zeta. unfold build_calls, shader_check_calls, program_check_calls.
  destruct (fst (glsl_compile e GL_VERTEX_SHADER (loaded e vf))),
    (fst (glsl_compile e GL_FRAGMENT_SHADER (loaded e ff))),
    (fst (glsl_link e (linker_input e vf ff)));
    repeat split; reflexivity.
Qed.

(** X12.  With the context ready and the quad in place, a pass that
    completes makes exactly the calls of [pass_calls]: it creates six
    objects, deletes six, and does not touch the life cycle of GLFW. *)
Theorem UploadToGL_steady_calls (e : Env) (linearRGB : list float)
  (width height : Z) (outputBGRA : list byte) (exposure whitePoint : float)
  (w : World) :
  steady w -> framebuffer_status e = GL_FRAMEBUFFER_COMPLETE ->
  let pass := UploadToGL e linearRGB width height outputBGRA exposure
                whitePoint in
  calls_during pass w
  = pass_calls e (gWindow w) (quadVAO w) (next_name w) linearRGB width height
      exposure whitePoint /\
  List.length (filter is_gen_call (calls_during pass w)) = 6%nat /\
  List.length (filter is_delete_call (calls_during pass w)) = 6%nat /\
  existsb is_glfw_lifecycle_call (calls_during pass w) = false /\
  existsb is_quad_setup_call (calls_during pass w) = false.
Proof.
  intros [R Q] Hfs. cbv zeta.
  destruct (UploadToGL_ready_complete e linearRGB width height outputBGRA
              exposure whitePoint w R Q Hfs) as (_ & Ht & _).
  cbv zeta in Ht.
  assert (E : calls_during
                (UploadToGL e linearRGB width height outputBGRA exposure
                   whitePoint) w
              = pass_calls e (gWindow w) (quadVAO w) (next_name w) linearRGB
                  width height exposure whitePoint)
    by (unfold calls_during; apply calls_since_app; exact Ht).
  rewrite E. split; [reflexivity|].
  unfold pass_calls.
  match goal with
  | |- context [build_calls ?e ?a ?b ?n] =>
      destruct (build_calls_counts e a b n) as (G & D & L);
      cbv zeta in G, D, L;
      assert (S : existsb is_quad_setup_call (build_calls e a b n) = false)
  end.
  { unfold build_calls, shader_check_calls, program_check_calls.
    destruct (fst (glsl_compile e GL_VERTEX_SHADER _)),
      (fst (glsl_compile e GL_FRAGMENT_SHADER _)),
      (fst (glsl_link e _)); reflexivity. }
  rewrite !filter_app, !length_app, !existsb_app, G, D, L, S.
  repeat split; reflexivity.
Qed.

Lemma UploadToGL_steady_calls_witness :
  steady world_after_one_pass /\
  List.length
    (filter is_gen_call
       (calls_during (UploadToGL env_ok [1%Q; 1%Q; 1%Q] 1 1 buffer6 1%Q 1%Q)
          world_after_one_pass)) = 6%nat.
Proof.
  assert (S : steady world_after_one_pass)
    by (split; [vm_compute; reflexivity | vm_compute; discriminate]).
  split; [exact S|].
  exact (proj1 (proj2 (UploadToGL_steady_calls env_ok [1%Q; 1%Q; 1%Q] 1 1
                         buffer6 1%Q 1%Q world_after_one_pass S eq_refl))).
Defined.

(** * The caller's buffer *)

Lemma nth_error_tl {A : Type} (l : list A) (i : nat) :
  nth_error (tl l) i = nth_error l (S i).
Proof. destruct l; [now destruct i | reflexivity]. Qed.

Lemma store_bytes_nth (src : nat -> byte) (s n : nat) (buf : list byte)
  (i : nat) :
  nth_error (store_bytes src s n buf) i
  = if (i <? n)%nat then Some (src (s + i)%nat) else nth_error buf i.
Proof.
  revert s buf i. induction n as [|n IH]; intros s buf i.
  - reflexivity.
  - cbn [store_bytes]. destruct i as [|i].
    + cbn. now rewrite Nat.add_0_r.
    + cbn [nth_error]. rewrite IH, nth_error_tl.
      change (S i <? S n)%nat with (i <? n)%nat.
      now rewrite Nat.add_succ_comm.
Qed.

(** X13.  [UploadToGL] takes no size for the caller's buffer and checks
    none.  A pass that completes with a width and a height that are not
    negative has [width * height * 4] bytes written from the first byte of
    the buffer on, all of them delivered by [glReadPixels], whatever the
    size of the buffer: what lies behind those bytes is left as it was,
    and a buffer that is shorter is overrun.  With a negative width or
    height nothing is written. *)
Theorem UploadToGL_output_extent (e : Env) (linearRGB : list float)
  (width height : Z) (outputBGRA : list byte) (exposure whitePoint : float)
  (w : World) :
  result (InitGLFW e) w = true ->
  framebuffer_status e = GL_FRAMEBUFFER_COMPLETE ->
  let out := result (UploadToGL e linearRGB width height outputBGRA exposure
                       whitePoint) w in
  (0 <= width -> 0 <= height ->
   (forall i, Z.of_nat i < width * height * 4 ->
      nth_error out i = Some (rendered e i)) /\
   (forall i, width * height * 4 <= Z.of_nat i ->
      nth_error out i = nth_error outputBGRA i) /\
   List.length out
   = Nat.max (Z.to_nat (width * height * 4)) (List.length outputBGRA) /\
   (Z.of_nat (List.length outputBGRA) < width * height * 4 ->
    (List.length outputBGRA < List.length out)%nat)) /\
  (width < 0 \/ height < 0 -> out = outputBGRA).
Proof.
  intros HI Hfs. cbv zeta.
  destruct (UploadToGL_complete e linearRGB width height outputBGRA exposure
              whitePoint w HI Hfs) as (Hr & _).
  cbv zeta in Hr. rewrite Hr. unfold read_back.
  destruct (width <? 0) eqn:Hw; [apply Z.ltb_lt in Hw | apply Z.ltb_ge in Hw];
  (destruct (height <? 0) eqn:Hh;
     [apply Z.ltb_lt in Hh | apply Z.ltb_ge in Hh]); cbn [orb].
  1-3: split; [intros; lia | reflexivity].
  split; [|intros [H|H]; lia].
  intros _ _. split; [|split; [|split]].
  - intros i Hlt. rewrite store_bytes_nth.
    assert (Hn : (i <? Z.to_nat (width * height * 4))%nat = true)
      by (apply Nat.ltb_lt; lia).
    now rewrite Hn.
  - intros i Hge. rewrite store_bytes_nth.
    assert (Hn : (i <? Z.to_nat (width * height * 4))%nat = false)
      by (apply Nat.ltb_ge; lia).
    now rewrite Hn.
  - apply store_bytes_length.
  - intros Hs. rewrite store_bytes_length. lia.
Qed.

Lemma UploadToGL_output_extent_witness :
  result (InitGLFW env_ok) initial_world = true /\
  (List.length [Byte.x01; Byte.x02]
   < List.length
       (result (UploadToGL env_ok [1%Q; 1%Q; 1%Q] 1 1 [Byte.x01; Byte.x02]
                  1%Q 1%Q) initial_world))%nat.
Proof.
  assert (HI : result (InitGLFW env_ok) initial_world = true)
    by (vm_compute; reflexivity).
  split; [exact HI|].
  refine (proj2 (proj2 (proj2 (proj1
            (UploadToGL_output_extent env_ok [1%Q; 1%Q; 1%Q] 1 1
               [Byte.x01; Byte.x02] 1%Q 1%Q initial_world HI eq_refl)
            _ _))) _).
  - vm_compute. discriminate.
  - vm_compute. discriminate.
  - vm_compute. reflexivity.
Defined.

(** * How the calls compose *)

(** X14.  Once [InitGLFW] has answered true, calling it explicitly before
    [UploadToGL] makes no difference to the pass. *)
Theorem explicit_InitGLFW_is_redundant (e : Env) (linearRGB : list float)
  (width height : Z) (outputBGRA : list byte) (exposure whitePoint : float)
  (w : World) :
  result (InitGLFW e) w = true ->
  (InitGLFW e ;;
   UploadToGL e linearRGB width height outputBGRA exposure whitePoint)%hdr w
  = UploadToGL e linearRGB width height outputBGRA exposure whitePoint w.
Proof.
  intros HI. rewrite bind_run. cbv beta.
  pose proof (InitGLFW_true_ready e w HI) as R1.
  set (w1 := after (InitGLFW e) w) in *.
  assert (E1 : InitGLFW e w1 = (true, w1)) by (apply InitGLFW_ready, R1).
  assert (HI1 : result (InitGLFW e) w1 = true)
    by (unfold result; now rewrite E1).
  rewrite (UploadToGL_prepared e linearRGB width height outputBGRA exposure
             whitePoint w1 HI1).
  rewrite (UploadToGL_prepared e linearRGB width height outputBGRA exposure
             whitePoint w HI).
  fold w1. unfold after at 2. rewrite E1. reflexivity.
Qed.

Lemma explicit_InitGLFW_is_redundant_witness :
  result (InitGLFW env_ok) initial_world = true /\
  (InitGLFW env_ok ;;
   UploadToGL env_ok [1%Q; 1%Q; 1%Q] 1 1 buffer6 1%Q 1%Q)%hdr initial_world
  = UploadToGL env_ok [1%Q; 1%Q; 1%Q] 1 1 buffer6 1%Q 1%Q initial_world.
Proof.
  assert (HI : result (InitGLFW env_ok) initial_world = true)
    by (vm_compute; reflexivity).
  split; [exact HI|].
  exact (explicit_InitGLFW_is_redundant env_ok [1%Q; 1%Q; 1%Q] 1 1 buffer6
           1%Q 1%Q initial_world HI).
Defined.

(** X15.  The first pass of a library that is not yet initialised runs the
    whole of [InitGLFW], then builds the quad, then makes the calls of an
    ordinary pass with the new window and the new vertex array.  It
    leaves the context ready, and of the eight names it creates the
    vertex array and the buffer of the quad are the two it hands to no
    delete call. *)
Theorem UploadToGL_first_pass (e : Env) (linearRGB : list float)
  (width height : Z) (outputBGRA : list byte) (exposure whitePoint : float)
  (w : World) :
  gGLReady w = false -> quadVAO w = 0 ->
  glfw_up w = true \/ glfwInit_result e = true ->
  glfwCreateWindow_ok e = true -> gladLoadGLLoader_result e = true ->
  framebuffer_status e = GL_FRAMEBUFFER_COMPLETE ->
  let pass := UploadToGL e linearRGB width height outputBGRA exposure
                whitePoint in
  let W := Z.pos (next_window w) in
  let vao := Z.pos (next_name w) in
  let vbo := Z.pos (Pos.succ (next_name w)) in
  let n := Pos.succ (Pos.succ (next_name w)) in
  let hdrTex := Z.pos n in
  let fbo := Z.pos (Pos.succ n) in
  let colorTex := Z.pos (Pos.succ (Pos.succ n)) in
  let n3 := Pos.succ (Pos.succ (Pos.succ n)) in
  let v := Z.pos n3 in
  let f := Z.pos (Pos.succ n3) in
  let p := Z.pos (Pos.succ (Pos.succ n3)) in
  calls_during pass w
  = full_init_calls W ++ quad_calls vao vbo
    ++ pass_calls e W vao n linearRGB width height exposure whitePoint /\
  filter is_gen_call (calls_during pass w)
  = [E_glGenVertexArrays vao; E_glGenBuffers vbo;
     E_glGenTextures hdrTex; E_glGenFramebuffers fbo; E_glGenTextures colorTex;
     E_glCreateShader GL_VERTEX_SHADER v;
     E_glCreateShader GL_FRAGMENT_SHADER f; E_glCreateProgram p] /\
  filter is_delete_call (calls_during pass w)
  = [E_glDeleteShader v; E_glDeleteShader f; E_glDeleteTextures hdrTex;
     E_glDeleteTextures colorTex; E_glDeleteFramebuffers fbo;
     E_glDeleteProgram p] /\
  steady (after pass w) /\
  gWindow (after pass w) = W /\ quadVAO (after pass w) = vao.
Proof.
  intros R Q U C G Hfs. cbv zeta.
  destruct (InitGLFW_full e w R U C G)
    as (HI & T1 & R1 & G1 & C1 & _).
  cbv zeta in T1, G1, C1.
  destruct (InitGLFW_same_objects e w) as (L1 & _ & N1 & Q1 & _).
  rewrite Q in Q1.
  destruct (InitFullscreenQuad_first _ Q1)
    as (Q2 & _ & T2 & L2 & N2 & G2 & R2 & _).
  cbv zeta in Q2, T2, L2.
  destruct (UploadToGL_complete e linearRGB width height outputBGRA exposure
              whitePoint w HI Hfs)
    as (_ & T3 & _ & _ & G3 & R3 & Q3 & _).
  cbv zeta in T3, G3, Q3.
  rewrite G2, G1 in G3. rewrite Q2, N1 in Q3.
  rewrite T2, T1, G2, G1, N2, N1, Q2, N1 in T3.
  assert (E : calls_during
                (UploadToGL e linearRGB width height outputBGRA exposure
                   whitePoint) w
              = full_init_calls (Z.pos (next_window w))
                ++ quad_calls (Z.pos (next_name w))
                     (Z.pos (Pos.succ (next_name w)))
                ++ pass_calls e (Z.pos (next_window w)) (Z.pos (next_name w))
                     (Pos.succ (Pos.succ (next_name w))) linearRGB width
                     height exposure whitePoint).
  { unfold calls_during. apply calls_since_app. rewrite T3.
    unfold pass_calls. rewrite <- !app_assoc. reflexivity. }
  rewrite E.
  destruct (pass_calls_ledger e (Z.pos (next_window w)) (Z.pos (next_name w))
              (Pos.succ (Pos.succ (next_name w))) linearRGB width height
              exposure whitePoint) as (GG & DD & _).
  cbv zeta in GG, DD.
  split; [reflexivity|].
  split; [rewrite !filter_app, GG; reflexivity|].
  split; [rewrite !filter_app, DD; reflexivity|].
  split; [split; [exact R3 | rewrite Q3; discriminate]|].
  split; [exact G3|exact Q3].
Qed.

Lemma UploadToGL_first_pass_witness :
  gGLReady initial_world = false /\
  filter is_gen_call
    (calls_during (UploadToGL env_ok [1%Q; 1%Q; 1%Q] 1 1 buffer6 1%Q 1%Q)
       initial_world)
  = [E_glGenVertexArrays 1; E_glGenBuffers 2;
     E_glGenTextures 3; E_glGenFramebuffers 4; E_glGenTextures 5;
     E_glCreateShader GL_VERTEX_SHADER 6;
     E_glCreateShader GL_FRAGMENT_SHADER 7; E_glCreateProgram 8].
Proof.
  split; [reflexivity|].
  exact (proj1 (proj2
           (UploadToGL_first_pass env_ok [1%Q; 1%Q; 1%Q] 1 1 buffer6 1%Q 1%Q
              initial_world eq_refl eq_refl (or_intror eq_refl) eq_refl
              eq_refl eq_refl))).
Defined.

(** * hdrtesting/HDR.cpp *)

Lemma hdrtesting_InitFullscreenQuad_run (w : World) :
  let vao := Z.pos (next_name w) in
  let vbo := Z.pos (Pos.succ (next_name w)) in
  let w' := after hdrtesting.InitFullscreenQuad w in
  quadVAO w' = vao /\ quadVBO w' = vbo /\
  trace w' = trace w ++ quad_calls vao vbo /\
  live w' = (current w, KBuffer, vbo) :: (current w, KVertexArray, vao)
            :: live w /\
  next_name w' = Pos.succ (Pos.succ (next_name w)) /\
  current w' = current w.
Proof.
  destruct w as [gw gr qa qb up ws nw cur nn lv src st att con tr].
  cbv zeta. unfold after.
  match goal with
  | |- context [hdrtesting.InitFullscreenQuad ?w] =>
      eval_run (hdrtesting.InitFullscreenQuad w)
  end.
  cbn [trace console live current gWindow gGLReady quadVAO quadVBO windows
       next_window glfw_up next_name].
  unfold quad_calls. repeat rewrite <- app_assoc; cbn [app].
  repeat split; reflexivity.
Qed.

(** X16.  The quad set-up of hdrtesting has no guard: every call creates a
    new vertex array and buffer and overwrites the two handles, and the
    objects of the earlier call stay live. *)
Theorem hdrtesting_InitFullscreenQuad_not_guarded (w : World) :
  let n := next_name w in
  let w1 := after hdrtesting.InitFullscreenQuad w in
  let w2 := after hdrtesting.InitFullscreenQuad w1 in
  quadVAO w1 = Z.pos n /\ quadVBO w1 = Z.pos (Pos.succ n) /\
  quadVAO w2 = Z.pos (Pos.succ (Pos.succ n)) /\
  quadVBO w2 = Z.pos (Pos.succ (Pos.succ (Pos.succ n))) /\
  quadVAO w2 <> quadVAO w1 /\
  calls_during hdrtesting.InitFullscreenQuad w1
  = quad_calls (quadVAO w2) (quadVBO w2) /\
  live w2
  = (current w, KBuffer, quadVBO w2) :: (current w, KVertexArray, quadVAO w2)
    :: (current w, KBuffer, quadVBO w1)
    :: (current w, KVertexArray, quadVAO w1)
    :: live w.
Proof.
  cbv zeta.
  destruct (hdrtesting_InitFullscreenQuad_run w)
    as (A1 & B1 & _ & L1 & N1 & C1).
  destruct (hdrtesting_InitFullscreenQuad_run
              (after hdrtesting.InitFullscreenQuad w))
    as (A2 & B2 & T2 & L2 & _).
  cbv zeta in *. rewrite N1 in A2, B2, T2, L2. rewrite C1, L1 in L2.
  rewrite A2, B2, A1, B1.
  do 4 (split; [reflexivity|]).
  split; [intros E; injection E as E; lia|].
  split; [unfold calls_during; apply calls_since_app; exact T2 | exact L2].
Qed.

(** X17.  [RenderFullscreenQuad] after [InitFullscreenQuad] binds the array
    just created and draws as many vertices as the uploaded table holds
    at a stride of four floats; nothing but the three calls happens. *)
Theorem hdrtesting_RenderFullscreenQuad_draws_quad (w : World) :
  let vao := Z.pos (next_name w) in
  let vbo := Z.pos (Pos.succ (next_name w)) in
  hdrtesting.RenderFullscreenQuad w
  = (tt, set_trace (trace w ++ [E_glBindVertexArray (quadVAO w);
                                E_glDrawArrays GL_TRIANGLES 0 6;
                                E_glBindVertexArray 0]) w) /\
  calls_during
    (hdrtesting.InitFullscreenQuad ;; hdrtesting.RenderFullscreenQuad)%hdr w
  = quad_calls vao vbo
    ++ [E_glBindVertexArray vao;
        E_glDrawArrays GL_TRIANGLES 0
          (sizeof_quadVertices / (4 * sizeof_float));
        E_glBindVertexArray 0].
Proof.
  cbv zeta.
  assert (E : forall w0, hdrtesting.RenderFullscreenQuad w0
    = (tt, set_trace (trace w0 ++ [E_glBindVertexArray (quadVAO w0);
                                  E_glDrawArrays GL_TRIANGLES 0 6;
                                  E_glBindVertexArray 0]) w0)).
  { intros w0.
    destruct w0 as [gw gr qa qb up ws nw cur nn lv src st att con tr].
    match goal with
    | |- ?m = _ => eval_run m
    end.
    unfold_setters. cbn [trace]. repeat rewrite <- app_assoc. reflexivity. }
  split; [apply E|].
  unfold calls_during, calls_since, after. rewrite bind_run. cbv beta.
  rewrite E. cbn [snd]. unfold_setters. cbn [trace].
  destruct (hdrtesting_InitFullscreenQuad_run w) as (A1 & _ & T1 & _).
  cbv zeta in A1, T1. rewrite A1, T1.
  rewrite <- app_assoc. rewrite skipn_length_app. reflexivity.
Qed.
